(** * noture: the file storage and synchronisation engine

    A shallow embedding of [internal/services/file_service.go] together with
    the persisted queries and the schema it runs against, and the properties
    of the upload / read / delete pipeline proved over that embedding. *)

From Stdlib Require Import ZArith Lia Ascii.
From stdpp Require Import gmap strings list fin_maps sorting pretty.

Local Open Scope Z_scope.

(** ** Machine integers

    Go's [int64] is a 64-bit two's complement integer; arithmetic wraps. *)
Module Int64.

Definition MinInt64 : Z := - 2 ^ 63.
Definition MaxInt64 : Z := 2 ^ 63 - 1.

Definition in_range (z : Z) : Prop := MinInt64 <= z <= MaxInt64.

(** The value of [z] once truncated to 64 bits and read back as signed. *)
Definition wrap (z : Z) : Z := (z + 2 ^ 63) mod 2 ^ 64 - 2 ^ 63.

Definition add (a b : Z) : Z := wrap (a + b).
Definition sub (a b : Z) : Z := wrap (a - b).

(** [int64(len(b))] for a byte slice [b]. *)
Definition of_len {A} (l : list A) : Z := wrap (Z.of_nat (length l)).

End Int64.

(** ** The parts of Go's [strings] and [path/filepath] that the service uses *)
Module GoStrings.

Definition isPathSeparator (c : ascii) : bool := bool_decide (c = "/"%char).

(** [filepath.Ext]: the index runs from the last byte towards the first, stops
    at a path separator, and returns [path[i:]] at the first dot it meets.
    [visited] is [path[i+1:]], [todo] is [path[:i+1]] reversed. *)
Fixpoint ext_loop (todo : list ascii) (visited : list ascii) : list ascii :=
  match todo with
  | [] => []
  | c :: todo' =>
      if isPathSeparator c then []
      else if bool_decide (c = "."%char) then c :: visited
      else ext_loop todo' (c :: visited)
  end.

Definition Ext (path : string) : string :=
  String.string_of_list_ascii
    (ext_loop (reverse (String.list_ascii_of_string path)) []).

(** [c >= utf8.RuneSelf] is false for every byte of the string. *)
Definition isASCIIbyte (c : ascii) : bool := (Ascii.N_of_ascii c <? 128)%N.

Definition isASCII (s : string) : bool :=
  forallb isASCIIbyte (String.list_ascii_of_string s).

(** ['A' <= c && c <= 'Z'] then [c += 'a' - 'A']. *)
Definition lowerByte (c : ascii) : ascii :=
  let n := Ascii.N_of_ascii c in
  if ((65 <=? n) && (n <=? 90))%N then Ascii.ascii_of_N (n + 32) else c.

Definition lowerBytes (s : string) : string :=
  String.string_of_list_ascii (lowerByte <$> String.list_ascii_of_string s).

Section ToLower.
(** [strings.Map(unicode.ToLower, s)], the path [strings.ToLower] takes for a
    string with a byte outside ASCII; it depends on the Unicode tables. *)
Variable mapUnicodeToLower : string → string.

Definition ToLower (s : string) : string :=
  if isASCII s then lowerBytes s else mapUnicodeToLower s.
End ToLower.



End GoStrings.

(** ** Domain types ([internal/domain/file.go]) *)
Module domain.

Inductive FileFormat := FormatPlainText | FormatMarkdown | FormatOrgMode.

(** The string each [FileFormat] constant stands for. *)
Definition FileFormat_string (f : FileFormat) : string :=
  match f with
  | FormatPlainText => "plaintext"
  | FormatMarkdown => "markdown"
  | FormatOrgMode => "orgmode"
  end.

End domain.

(** The two tables of the system the service runs on that are not part of
    the program: the Unicode case mapping behind [strings.ToLower], and the
    extension table behind [mime.TypeByExtension]. *)
Record Tables := mkTables {
  MapUnicodeToLower : string → string;
  TypeByExtension : string → string;
}.

Section Detection.
Import GoStrings domain.
Variable T : Tables.

Definition DetectFileFormat (filePath : string) (content : list Byte.byte)
  : FileFormat :=
  let ext := ToLower (MapUnicodeToLower T) (Ext filePath) in
  if bool_decide (ext = ".md" ∨ ext = ".markdown") then FormatMarkdown
  else if bool_decide (ext = ".org") then FormatOrgMode
  else FormatPlainText.

Definition detectMimeType (filePath : string) (content : list Byte.byte)
  : string :=
  let ext := ToLower (MapUnicodeToLower T) (Ext filePath) in
  if bool_decide (ext = ".md" ∨ ext = ".markdown") then "text/markdown"
  else if bool_decide (ext = ".org") then "text/org"
  else if bool_decide (ext = ".txt") then "text/plain"
  else
    let mimeType := TypeByExtension T ext in
    if bool_decide (mimeType ≠ "") then mimeType else "text/plain".
End Detection.

(** ** [crypto/sha256]

    SHA-256 as FIPS 180-4 defines it, on 32-bit words kept in [N]. *)
Module sha256.
Local Open Scope N_scope.

Definition add32 (a b : N) : N := (a + b) mod 2 ^ 32.
Definition not32 (a : N) : N := N.lxor a 0xffffffff.
Definition rotr (n x : N) : N :=
  N.lor (N.shiftr x n) (N.land (N.shiftl x (32 - n)) 0xffffffff).

Definition Ch (e f g : N) : N := N.lxor (N.land e f) (N.land (not32 e) g).
Definition Maj (a b c : N) : N :=
  N.lxor (N.lxor (N.land a b) (N.land a c)) (N.land b c).
Definition Sigma0 (a : N) : N :=
  N.lxor (N.lxor (rotr 2 a) (rotr 13 a)) (rotr 22 a).
Definition Sigma1 (e : N) : N :=
  N.lxor (N.lxor (rotr 6 e) (rotr 11 e)) (rotr 25 e).
Definition sigma0 (x : N) : N :=
  N.lxor (N.lxor (rotr 7 x) (rotr 18 x)) (N.shiftr x 3).
Definition sigma1 (x : N) : N :=
  N.lxor (N.lxor (rotr 17 x) (rotr 19 x)) (N.shiftr x 10).

(** The first 64 primes. *)
Definition is_prime (n : nat) : bool :=
  forallb (λ d, negb (n mod d =? 0)%nat) (seq 2 (n - 2)).

Definition primes : list N := N.of_nat <$> filter is_prime (seq 2 310).

(** The largest [r] below [2 ^ bits] with [r ^ 3 <= x]. *)
Fixpoint cube_root (bits : nat) (x r : N) : N :=
  match bits with
  | O => r
  | S bits' =>
      let r' := r + 2 ^ N.of_nat bits' in
      cube_root bits' x (if r' ^ 3 <=? x then r' else r)
  end.

(** The round constants: the first 32 bits of the fractional parts of the
    cube roots of the first 64 primes. *)
Definition K : list N :=
  Eval vm_compute in
    (λ p, cube_root 40 (p * 2 ^ 96) 0 mod 2 ^ 32) <$> primes.

(** The initial hash value: the same of the square roots of the first 8. *)
Definition init : list N :=
  Eval vm_compute in
    (λ p, N.sqrt (p * 2 ^ 64) mod 2 ^ 32) <$> take 8 primes.

(** Big-endian bytes of a number, [n] of them, and back. *)
Fixpoint be_bytes (n : nat) (x : N) : list N :=
  match n with
  | O => []
  | S n' => (N.shiftr x (8 * N.of_nat n')) mod 256 :: be_bytes n' x
  end.

Definition be_word (bs : list N) : N := foldl (λ acc b, acc * 256 + b) 0 bs.

(** The message followed by a one bit, zero bits up to 56 modulo 64 bytes,
    and its length in bits on eight bytes. *)
Definition pad (msg : list N) : list N :=
  let len := N.of_nat (length msg) in
  msg ++ [0x80]
      ++ replicate (N.to_nat ((119 - len mod 64) mod 64)) 0
      ++ be_bytes 8 ((8 * len) mod 2 ^ 64).

Fixpoint chunks {A} (fuel n : nat) (l : list A) : list (list A) :=
  match fuel with
  | O => []
  | S fuel' =>
      match l with
      | [] => []
      | _ => take n l :: chunks fuel' n (drop n l)
      end
  end.

(** The message schedule: [n] more words after those of [w]. *)
Fixpoint schedule (n : nat) (w : list N) : list N :=
  match n with
  | O => w
  | S n' =>
      let t := length w in
      schedule n'
        (w ++ [add32 (add32 (sigma1 (nth (t - 2) w 0)) (nth (t - 7) w 0))
                     (add32 (sigma0 (nth (t - 15) w 0)) (nth (t - 16) w 0))])
  end.

Definition round (s : list N) (kw : N * N) : list N :=
  match s with
  | [a; b; c; d; e; f; g; h] =>
      let T1 := add32 (add32 (add32 h (Sigma1 e)) (Ch e f g))
                      (add32 kw.1 kw.2) in
      let T2 := add32 (Sigma0 a) (Maj a b c) in
      [add32 T1 T2; a; b; c; add32 d T1; e; f; g]
  | _ => s
  end.

Definition block (H : list N) (bytes : list N) : list N :=
  let w := schedule 48 (be_word <$> chunks 16 4 bytes) in
  zip_with add32 H (foldl round H (zip K w)).

Definition digest (msg : list N) : list N :=
  let padded := pad msg in
  foldl block init (chunks (length padded) 64 padded) ≫= be_bytes 4.

Definition Sum256 (data : list Byte.byte) : list Byte.byte :=
  (λ n, default Byte.x00 (Byte.of_N n)) <$> digest (Byte.to_N <$> data).

End sha256.

(** ** [pkg/pgconv]: conversions between Go values and nullable columns *)
Module pgconv.

(** Modelled from the spec: the converters of [pkg/pgconv] are known through
    their tests ([converters_test.go]) only.  A nullable column value
    ([pgtype.Int8], [pgtype.Text], [pgtype.Timestamptz]) is an [option]; the
    [XToPg] direction always yields a valid value, the [PgToX] direction maps
    an invalid value to the zero value of the Go type. *)
Definition Int64ToPg (v : Z) : option Z := Some v.
Definition PgToInt64 (pg : option Z) : Z := default 0 pg.
Definition StringToPg (s : string) : option string := Some s.
Definition PgToString (pg : option string) : string := default "" pg.
Definition StringPtrToPg (s : option string) : option string := s.
Definition TimeToPg (t : Z) : option Z := Some t.
Definition PgToTime (pg : option Z) : Z := default 0 pg.

End pgconv.

(** ** The persisted state ([migrations/001_initial_schema.sql]) *)

(** A UUID is a 128-bit number; an instant is a number of microseconds. *)
Abbreviation uuid := N (only parsing).
Abbreviation Time := Z (only parsing).

Module Workspace.
Record t := mk {
  ID : uuid;
  UserID : uuid;
  Name : string;
  StorageLimitBytes : Z;
  StorageUsedBytes : option Z;
  CreatedAt : option Time;
  UpdatedAt : option Time;
}.
End Workspace.

Module File.
Record t := mk {
  ID : uuid;
  WorkspaceID : uuid;
  FilePath : string;
  ContentHash : string;
  Content : list Byte.byte;
  SizeBytes : Z;
  MimeType : option string;
  LastModified : option Time;
  CreatedAt : option Time;
  UpdatedAt : option Time;
}.
End File.

Module FileVersion.
Record t := mk {
  ID : uuid;
  FileID : uuid;
  VersionNumber : Z;
  ContentHash : string;
  Content : list Byte.byte;
  CreatedAt : option Time;
}.
End FileVersion.

Module SyncOperation.
Record t := mk {
  ID : uuid;
  WorkspaceID : uuid;
  FileID : option uuid;
  OperationType : string;
  ClientID : option string;
  Status : string;
  ErrorMessage : option string;
  CreatedAt : option Time;
}.
End SyncOperation.

(** The tables.  [files] is keyed by its [UNIQUE(workspace_id, file_path)]
    constraint; the other two keep their rows in insertion order. *)
Record DB := mkDB {
  workspaces : gmap uuid Workspace.t;
  files : gmap (uuid * string) File.t;
  file_versions : list FileVersion.t;
  sync_operations : list SyncOperation.t;
}.

Definition emptyDB : DB := mkDB ∅ ∅ [] [].

(** What a database call can return besides a result. *)
Inductive dberror :=
| ErrNoRows
| UniqueViolation (constraint : string)
| ForeignKeyViolation (constraint : string)
| ConnFailure (msg : string).

Definition dberror_Error (e : dberror) : string :=
  match e with
  | ErrNoRows => "no rows in result set"
  | UniqueViolation c =>
      "ERROR: duplicate key value violates unique constraint " +:+ c
  | ForeignKeyViolation c =>
      "ERROR: insert or update violates foreign key constraint " +:+ c
  | ConnFailure msg => msg
  end.

(** What lies outside the program for one request: the clock behind [NOW()],
    the values [gen_random_uuid()] draws for the rows the request inserts, and
    which of the request's database calls fail for a reason of the
    connection's own (then with [fault] as the message, and without effect). *)
Record Env := mkEnv {
  now : Time;
  uuid_sync_operation : uuid;
  uuid_file : uuid;
  uuid_file_version : uuid;
  fault : string;
  fail_GetWorkspaceByID : bool;
  fail_GetWorkspaceStorageUsage : bool;
  fail_GetFile : bool;
  fail_ListFiles : bool;
  fail_CreateSyncOperation : bool;
  fail_Begin : bool;
  fail_UpsertFile : bool;
  fail_DeleteFile : bool;
  fail_UpdateWorkspaceStorageUsed : bool;
  fail_CreateFileVersion : bool;
  fail_Commit : bool;
  fail_UpdateSyncOperationStatus : bool;
}.

(** An environment in which the connection never fails. *)
Definition calm (t : Time) (u1 u2 u3 : uuid) : Env :=
  mkEnv t u1 u2 u3 "" false false false false false false false false false
        false false false.

(** ** The persisted queries, statement by statement *)
Module Queries.

Definition set_workspaces (st : DB) (w : gmap uuid Workspace.t) : DB :=
  mkDB w (files st) (file_versions st) (sync_operations st).
Definition set_files (st : DB) (f : gmap (uuid * string) File.t) : DB :=
  mkDB (workspaces st) f (file_versions st) (sync_operations st).
Definition set_file_versions (st : DB) (v : list FileVersion.t) : DB :=
  mkDB (workspaces st) (files st) v (sync_operations st).
Definition set_sync_operations (st : DB) (o : list SyncOperation.t) : DB :=
  mkDB (workspaces st) (files st) (file_versions st) o.

(** The workspace row with [storage_used_bytes] set to [used] and
    [updated_at] to [t]. *)
Definition with_usage (used : option Z) (t : Time) (w : Workspace.t)
  : Workspace.t :=
  Workspace.mk (Workspace.ID w) (Workspace.UserID w) (Workspace.Name w)
    (Workspace.StorageLimitBytes w) used (Workspace.CreatedAt w) (Some t).

(** [SELECT * FROM workspaces WHERE id = $1] *)
Definition GetWorkspaceByID (env : Env) (st : DB) (id : uuid)
  : dberror + Workspace.t :=
  if fail_GetWorkspaceByID env then inl (ConnFailure (fault env))
  else match workspaces st !! id with
       | Some w => inr w
       | None => inl ErrNoRows
       end.

(** [COALESCE(SUM(f.size_bytes), 0)] over the files of one workspace. *)
Definition actual_storage_used (fs : gmap (uuid * string) File.t) (ws : uuid)
  : Z :=
  map_fold (λ k f acc, if bool_decide (k.1 = ws) then File.SizeBytes f + acc
                       else acc) 0 fs.

(** [COUNT(f.id)] over the files of one workspace. *)
Definition file_count (fs : gmap (uuid * string) File.t) (ws : uuid) : Z :=
  map_fold (λ k (f : File.t) acc, if bool_decide (k.1 = ws) then 1 + acc
                                  else acc) 0 fs.

Module GetWorkspaceStorageUsageRow.
Record t := mk {
  StorageLimitBytes : Z;
  StorageUsedBytes : option Z;
  FileCount : Z;
  ActualStorageUsed : Z;
}.
End GetWorkspaceStorageUsageRow.

Definition GetWorkspaceStorageUsage (env : Env) (st : DB) (id : uuid)
  : dberror + GetWorkspaceStorageUsageRow.t :=
  if fail_GetWorkspaceStorageUsage env then inl (ConnFailure (fault env))
  else match workspaces st !! id with
       | Some w =>
           inr (GetWorkspaceStorageUsageRow.mk
                  (Workspace.StorageLimitBytes w)
                  (Workspace.StorageUsedBytes w)
                  (file_count (files st) id)
                  (actual_storage_used (files st) id))
       | None => inl ErrNoRows
       end.

(** [UPDATE workspaces SET storage_used_bytes = $2, updated_at = NOW()
     WHERE id = $1] *)
Definition UpdateWorkspaceStorageUsed (env : Env) (st : DB) (id : uuid)
    (StorageUsedBytes : option Z) : dberror + DB :=
  if fail_UpdateWorkspaceStorageUsed env then inl (ConnFailure (fault env))
  else inr (set_workspaces st
              (alter (with_usage StorageUsedBytes (now env)) id
                     (workspaces st))).

(** [SELECT * FROM files WHERE workspace_id = $1 AND file_path = $2] *)
Definition GetFile (env : Env) (st : DB) (WorkspaceID : uuid)
    (FilePath : string) : dberror + File.t :=
  if fail_GetFile env then inl (ConnFailure (fault env))
  else match files st !! (WorkspaceID, FilePath) with
       | Some f => inr f
       | None => inl ErrNoRows
       end.

Module UpsertFileParams.
Record t := mk {
  WorkspaceID : uuid;
  FilePath : string;
  ContentHash : string;
  Content : list Byte.byte;
  SizeBytes : Z;
  MimeType : option string;
  LastModified : option Time;
}.
End UpsertFileParams.

(** [INSERT INTO files ... ON CONFLICT (workspace_id, file_path) DO UPDATE SET
     content_hash, content, size_bytes, mime_type, last_modified = EXCLUDED.*,
     updated_at = NOW() RETURNING *] *)
Definition UpsertFile (env : Env) (st : DB) (arg : UpsertFileParams.t)
  : dberror + DB * File.t :=
  let k := (UpsertFileParams.WorkspaceID arg, UpsertFileParams.FilePath arg) in
  if fail_UpsertFile env then inl (ConnFailure (fault env))
  else match files st !! k with
       | Some old =>
           let row :=
             File.mk (File.ID old) (File.WorkspaceID old) (File.FilePath old)
               (UpsertFileParams.ContentHash arg)
               (UpsertFileParams.Content arg)
               (UpsertFileParams.SizeBytes arg)
               (UpsertFileParams.MimeType arg)
               (UpsertFileParams.LastModified arg)
               (File.CreatedAt old) (Some (now env)) in
           inr (set_files st (<[k := row]> (files st)), row)
       | None =>
           if bool_decide (workspaces st !! k.1 = None)
           then inl (ForeignKeyViolation "files_workspace_id_fkey")
           else if bool_decide
                     (map_Exists (λ _ f, File.ID f = uuid_file env) (files st))
           then inl (UniqueViolation "files_pkey")
           else
             let row :=
               File.mk (uuid_file env) k.1 k.2
                 (UpsertFileParams.ContentHash arg)
                 (UpsertFileParams.Content arg)
                 (UpsertFileParams.SizeBytes arg)
                 (UpsertFileParams.MimeType arg)
                 (UpsertFileParams.LastModified arg)
                 (Some (now env)) (Some (now env)) in
             inr (set_files st (<[k := row]> (files st)), row)
       end.

Module ListFilesRow.
Record t := mk {
  ID : uuid;
  WorkspaceID : uuid;
  FilePath : string;
  ContentHash : string;
  SizeBytes : Z;
  MimeType : option string;
  LastModified : option Time;
  UpdatedAt : option Time;
}.
End ListFilesRow.

Definition path_le (a b : ListFilesRow.t) : Prop :=
  String.leb (ListFilesRow.FilePath a) (ListFilesRow.FilePath b) = true.

Global Instance path_le_dec a b : Decision (path_le a b).
Proof. unfold path_le. apply _. Defined.

(** [SELECT id, ..., updated_at FROM files WHERE workspace_id = $1
     ORDER BY file_path], the paths compared byte by byte. *)
Definition ListFiles (env : Env) (st : DB) (WorkspaceID : uuid)
  : dberror + list ListFilesRow.t :=
  if fail_ListFiles env then inl (ConnFailure (fault env))
  else inr (merge_sort path_le
              ((λ kf : uuid * string * File.t,
                  ListFilesRow.mk (File.ID kf.2) (File.WorkspaceID kf.2)
                    (File.FilePath kf.2) (File.ContentHash kf.2)
                    (File.SizeBytes kf.2) (File.MimeType kf.2)
                    (File.LastModified kf.2) (File.UpdatedAt kf.2))
               <$> filter (λ kf : uuid * string * File.t, kf.1.1 = WorkspaceID)
                          (map_to_list (files st)))).

(** [DELETE FROM files WHERE workspace_id = $1 AND file_path = $2]; the
    file's versions go with it ([ON DELETE CASCADE]) and the audit rows that
    name it lose the reference ([ON DELETE SET NULL]). *)
Definition DeleteFile (env : Env) (st : DB) (WorkspaceID : uuid)
    (FilePath : string) : dberror + DB :=
  if fail_DeleteFile env then inl (ConnFailure (fault env))
  else match files st !! (WorkspaceID, FilePath) with
       | None => inr st
       | Some f =>
           inr (mkDB (workspaces st)
                  (delete (WorkspaceID, FilePath) (files st))
                  (filter (λ v, FileVersion.FileID v ≠ File.ID f)
                          (file_versions st))
                  ((λ o, if bool_decide
                              (SyncOperation.FileID o = Some (File.ID f))
                         then SyncOperation.mk (SyncOperation.ID o)
                                (SyncOperation.WorkspaceID o) None
                                (SyncOperation.OperationType o)
                                (SyncOperation.ClientID o)
                                (SyncOperation.Status o)
                                (SyncOperation.ErrorMessage o)
                                (SyncOperation.CreatedAt o)
                         else o) <$> sync_operations st))
       end.

Module CreateSyncOperationParams.
Record t := mk {
  WorkspaceID : uuid;
  FileID : option uuid;
  OperationType : string;
  ClientID : option string;
  Status : string;
}.
End CreateSyncOperationParams.

(** [INSERT INTO sync_operations (...) VALUES (...) RETURNING *] *)
Definition CreateSyncOperation (env : Env) (st : DB)
    (arg : CreateSyncOperationParams.t) : dberror + DB * SyncOperation.t :=
  if fail_CreateSyncOperation env then inl (ConnFailure (fault env))
  else if bool_decide
            (workspaces st !! CreateSyncOperationParams.WorkspaceID arg = None)
  then inl (ForeignKeyViolation "sync_operations_workspace_id_fkey")
  else if bool_decide
            (Exists (λ o, SyncOperation.ID o = uuid_sync_operation env)
                    (sync_operations st))
  then inl (UniqueViolation "sync_operations_pkey")
  else
    let row :=
      SyncOperation.mk (uuid_sync_operation env)
        (CreateSyncOperationParams.WorkspaceID arg)
        (CreateSyncOperationParams.FileID arg)
        (CreateSyncOperationParams.OperationType arg)
        (CreateSyncOperationParams.ClientID arg)
        (CreateSyncOperationParams.Status arg)
        None (Some (now env)) in
    inr (set_sync_operations st (sync_operations st ++ [row]), row).

(** [UPDATE sync_operations SET status = $2, error_message = $3
     WHERE id = $1] *)
Definition UpdateSyncOperationStatus (env : Env) (st : DB) (ID : uuid)
    (Status : string) (ErrorMessage : option string) : dberror + DB :=
  if fail_UpdateSyncOperationStatus env then inl (ConnFailure (fault env))
  else inr (set_sync_operations st
              ((λ o, if bool_decide (SyncOperation.ID o = ID)
                     then SyncOperation.mk (SyncOperation.ID o)
                            (SyncOperation.WorkspaceID o)
                            (SyncOperation.FileID o)
                            (SyncOperation.OperationType o)
                            (SyncOperation.ClientID o)
                            Status ErrorMessage
                            (SyncOperation.CreatedAt o)
                     else o) <$> sync_operations st)).

Module CreateFileVersionParams.
Record t := mk {
  FileID : uuid;
  VersionNumber : Z;
  ContentHash : string;
  Content : list Byte.byte;
}.
End CreateFileVersionParams.

(** [INSERT INTO file_versions (file_id, version_number, content_hash, content)
     VALUES ($1, $2, $3, $4)], under the table's foreign key, primary key and
    [UNIQUE(file_id, version_number)]. *)
Definition CreateFileVersion (env : Env) (st : DB)
    (arg : CreateFileVersionParams.t) : dberror + DB :=
  if fail_CreateFileVersion env then inl (ConnFailure (fault env))
  else if bool_decide
            (¬ map_Exists
                 (λ _ f, File.ID f = CreateFileVersionParams.FileID arg)
                 (files st))
  then inl (ForeignKeyViolation "file_versions_file_id_fkey")
  else if bool_decide
            (Exists (λ v, FileVersion.ID v = uuid_file_version env)
                    (file_versions st))
  then inl (UniqueViolation "file_versions_pkey")
  else if bool_decide
            (Exists (λ v, FileVersion.FileID v
                            = CreateFileVersionParams.FileID arg
                          ∧ FileVersion.VersionNumber v
                            = CreateFileVersionParams.VersionNumber arg)
                    (file_versions st))
  then inl (UniqueViolation "file_versions_file_id_version_number_key")
  else
    inr (set_file_versions st
           (file_versions st ++
            [FileVersion.mk (uuid_file_version env)
               (CreateFileVersionParams.FileID arg)
               (CreateFileVersionParams.VersionNumber arg)
               (CreateFileVersionParams.ContentHash arg)
               (CreateFileVersionParams.Content arg)
               (Some (now env))])).

(** [conn.Begin]: the transaction works on a copy of the store, which
    [tx.Commit] makes the store and [tx.Rollback] drops.  A commit that the
    server refuses, whatever the reason, is a commit under [fail_Commit]. *)
Definition Begin (env : Env) (st : DB) : dberror + DB :=
  if fail_Begin env then inl (ConnFailure (fault env)) else inr st.

Definition Commit (env : Env) (tx : DB) : dberror + DB :=
  if fail_Commit env then inl (ConnFailure (fault env)) else inr tx.

End Queries.

(** ** Domain values of the service ([internal/domain/file.go]) *)
Module FileInfo.
Record t := mk {
  ID : uuid;
  WorkspaceID : uuid;
  FilePath : string;
  ContentHash : string;
  SizeBytes : Z;
  MimeType : string;
  LastModified : Time;
  UpdatedAt : Time;
}.
End FileInfo.

Module FileWithContent.
Record t := mk {
  FileInfo : FileInfo.t;
  Content : list Byte.byte;
}.
End FileWithContent.

Module FileUploadRequest.
Record t := mk {
  WorkspaceID : uuid;
  FilePath : string;
  Content : list Byte.byte;
  LastModified : Time;
  ClientID : string;
}.
End FileUploadRequest.

(** The errors the service returns, one constructor per [fmt.Errorf] site;
    [cause] is the wrapped database error. *)
Inductive error :=
| workspace_not_found (cause : dberror)
| access_denied
| failed_to_get_storage_usage (cause : dberror)
| storage_limit_exceeded (need limit : Z)
| failed_to_create_sync_operation (cause : dberror)
| failed_to_start_transaction (cause : dberror)
| failed_to_upsert_file (cause : dberror)
| failed_to_update_storage_usage (cause : dberror)
| failed_to_commit_transaction (cause : dberror)
| file_not_found (cause : dberror)
| failed_to_list_files (cause : dberror)
| failed_to_delete_file (cause : dberror)
| commit_failed (cause : dberror).

(** [err.Error()] *)
Definition Error (e : error) : string :=
  match e with
  | workspace_not_found c => "workspace not found: " +:+ dberror_Error c
  | access_denied => "access denied: workspace belongs to different user"
  | failed_to_get_storage_usage c =>
      "failed to get storage usage: " +:+ dberror_Error c
  | storage_limit_exceeded need limit =>
      "storage limit exceeded: need " +:+ pretty need +:+ " bytes, limit "
        +:+ pretty limit +:+ " bytes"
  | failed_to_create_sync_operation c =>
      "failed to create sync operation: " +:+ dberror_Error c
  | failed_to_start_transaction c =>
      "failed to start transaction: " +:+ dberror_Error c
  | failed_to_upsert_file c => "failed to upsert file: " +:+ dberror_Error c
  | failed_to_update_storage_usage c =>
      "failed to update storage usage: " +:+ dberror_Error c
  | failed_to_commit_transaction c =>
      "failed to commit transaction: " +:+ dberror_Error c
  | file_not_found c => "file not found: " +:+ dberror_Error c
  | failed_to_list_files c => "failed to list files: " +:+ dberror_Error c
  | failed_to_delete_file c => "failed to delete file: " +:+ dberror_Error c
  | commit_failed c => dberror_Error c
  end.

(** [fmt.Sprintf("%x", hash)]: two lower-case hexadecimal digits per byte. *)
Definition hex_digit (n : N) : ascii :=
  if (n <? 10)%N then Ascii.ascii_of_N (48 + n)
  else Ascii.ascii_of_N (87 + n).

Fixpoint Sprintf_x (hash : list Byte.byte) : string :=
  match hash with
  | [] => ""
  | b :: rest =>
      String (hex_digit (Byte.to_N b / 16))
        (String (hex_digit (Byte.to_N b mod 16)) (Sprintf_x rest))
  end.

(** ** The service ([internal/services/file_service.go])

    Every operation takes the store and returns the store it leaves behind
    together with its Go result.  The detached [parseFileMetadata] task that a
    finished upload may start writes the [file_metadata] cache only and is not
    part of the operation's result. *)
Module FileService.
Section Service.
Import pgconv.

Variable T : Tables.

(** The result of an [:exec] statement whose error the caller drops. *)
Definition ignoring_error (st : DB) (r : dberror + DB) : DB :=
  match r with inr st' => st' | inl _ => st end.

(** The public projection of a file row. *)
Definition projection (file : File.t) : FileInfo.t :=
  FileInfo.mk (File.ID file) (File.WorkspaceID file) (File.FilePath file)
    (File.ContentHash file) (File.SizeBytes file)
    (PgToString (File.MimeType file))
    (PgToTime (File.LastModified file))
    (PgToTime (File.UpdatedAt file)).

Definition mark_failed (env : Env) (st : DB) (syncOp : SyncOperation.t)
    (err : dberror) : DB :=
  ignoring_error st
    (Queries.UpdateSyncOperationStatus env st (SyncOperation.ID syncOp) "failed"
       (StringPtrToPg (Some (dberror_Error err)))).

Definition UploadFile (env : Env) (req : FileUploadRequest.t) (userID : uuid)
    (st : DB) : DB * (error + FileInfo.t) :=
  match Queries.GetWorkspaceByID env st (FileUploadRequest.WorkspaceID req) with
  | inl err => (st, inl (workspace_not_found err))
  | inr workspace =>
  if bool_decide (Workspace.UserID workspace ≠ userID)
  then (st, inl access_denied)
  else
  let hash := sha256.Sum256 (FileUploadRequest.Content req) in
  let contentHash := Sprintf_x hash in
  match Queries.GetWorkspaceStorageUsage env st
          (FileUploadRequest.WorkspaceID req) with
  | inl err => (st, inl (failed_to_get_storage_usage err))
  | inr storageInfo =>
  let currentFileSize :=
    match Queries.GetFile env st (FileUploadRequest.WorkspaceID req)
            (FileUploadRequest.FilePath req) with
    | inr existingFile => File.SizeBytes existingFile
    | inl _ => 0
    end in
  let newStorageUsage :=
    Int64.add
      (Int64.sub
         (PgToInt64
            (Queries.GetWorkspaceStorageUsageRow.StorageUsedBytes storageInfo))
         currentFileSize)
      (Int64.of_len (FileUploadRequest.Content req)) in
  if bool_decide
       (newStorageUsage
        > Queries.GetWorkspaceStorageUsageRow.StorageLimitBytes storageInfo)
  then (st, inl (storage_limit_exceeded newStorageUsage
                   (Queries.GetWorkspaceStorageUsageRow.StorageLimitBytes
                      storageInfo)))
  else
  let mimeType :=
    detectMimeType T
      (FileUploadRequest.FilePath req) (FileUploadRequest.Content req) in
  match Queries.CreateSyncOperation env st
          (Queries.CreateSyncOperationParams.mk
             (FileUploadRequest.WorkspaceID req)
             None "upload" (StringToPg (FileUploadRequest.ClientID req))
             "pending") with
  | inl err => (st, inl (failed_to_create_sync_operation err))
  | inr (st1, syncOp) =>
  match Queries.Begin env st1 with
  | inl err => (st1, inl (failed_to_start_transaction err))
  | inr tx =>
  match Queries.UpsertFile env tx
          (Queries.UpsertFileParams.mk (FileUploadRequest.WorkspaceID req)
             (FileUploadRequest.FilePath req) contentHash
             (FileUploadRequest.Content req)
             (Int64.of_len (FileUploadRequest.Content req))
             (StringToPg mimeType)
             (TimeToPg (FileUploadRequest.LastModified req))) with
  | inl err => (mark_failed env st1 syncOp err, inl (failed_to_upsert_file err))
  | inr (tx1, file) =>
  match Queries.UpdateWorkspaceStorageUsed env tx1
          (FileUploadRequest.WorkspaceID req) (Int64ToPg newStorageUsage) with
  | inl err =>
      (mark_failed env st1 syncOp err, inl (failed_to_update_storage_usage err))
  | inr tx2 =>
  let tx3 :=
    ignoring_error tx2
      (Queries.CreateFileVersion env tx2
         (Queries.CreateFileVersionParams.mk (File.ID file) 1 contentHash
            (FileUploadRequest.Content req))) in
  match Queries.Commit env tx3 with
  | inl err =>
      (mark_failed env st1 syncOp err, inl (failed_to_commit_transaction err))
  | inr st2 =>
  let st3 :=
    ignoring_error st2
      (Queries.UpdateSyncOperationStatus env st2 (SyncOperation.ID syncOp)
         "success" None) in
  (st3, inr (projection file))
  end end end end end end end.

Definition GetFile (env : Env) (workspaceID : uuid) (filePath : string)
    (userID : uuid) (st : DB) : DB * (error + FileInfo.t) :=
  match Queries.GetWorkspaceByID env st workspaceID with
  | inl err => (st, inl (workspace_not_found err))
  | inr workspace =>
  if bool_decide (Workspace.UserID workspace ≠ userID)
  then (st, inl access_denied)
  else
  match Queries.GetFile env st workspaceID filePath with
  | inl err => (st, inl (file_not_found err))
  | inr file => (st, inr (projection file))
  end end.

Definition GetFileContent (env : Env) (workspaceID : uuid)
    (filePath : string) (userID : uuid) (st : DB)
  : DB * (error + FileWithContent.t) :=
  match Queries.GetWorkspaceByID env st workspaceID with
  | inl err => (st, inl (workspace_not_found err))
  | inr workspace =>
  if bool_decide (Workspace.UserID workspace ≠ userID)
  then (st, inl access_denied)
  else
  match Queries.GetFile env st workspaceID filePath with
  | inl err => (st, inl (file_not_found err))
  | inr file =>
      (st, inr (FileWithContent.mk (projection file) (File.Content file)))
  end end.

Definition ListFiles (env : Env) (workspaceID : uuid) (userID : uuid)
    (st : DB) : DB * (error + list FileInfo.t) :=
  match Queries.GetWorkspaceByID env st workspaceID with
  | inl err => (st, inl (workspace_not_found err))
  | inr workspace =>
  if bool_decide (Workspace.UserID workspace ≠ userID)
  then (st, inl access_denied)
  else
  match Queries.ListFiles env st workspaceID with
  | inl err => (st, inl (failed_to_list_files err))
  | inr files =>
      (st, inr ((λ file,
                   FileInfo.mk (Queries.ListFilesRow.ID file)
                     (Queries.ListFilesRow.WorkspaceID file)
                     (Queries.ListFilesRow.FilePath file)
                     (Queries.ListFilesRow.ContentHash file)
                     (Queries.ListFilesRow.SizeBytes file)
                     (PgToString (Queries.ListFilesRow.MimeType file))
                     (PgToTime (Queries.ListFilesRow.LastModified file))
                     (PgToTime (Queries.ListFilesRow.UpdatedAt file)))
                <$> files))
  end end.

Definition DeleteFile (env : Env) (workspaceID : uuid) (filePath : string)
    (userID : uuid) (st : DB) : DB * option error :=
  match Queries.GetWorkspaceByID env st workspaceID with
  | inl err => (st, Some (workspace_not_found err))
  | inr workspace =>
  if bool_decide (Workspace.UserID workspace ≠ userID)
  then (st, Some access_denied)
  else
  match Queries.GetFile env st workspaceID filePath with
  | inl err => (st, Some (file_not_found err))
  | inr file =>
  match Queries.Begin env st with
  | inl err => (st, Some (failed_to_start_transaction err))
  | inr tx =>
  match Queries.DeleteFile env tx workspaceID filePath with
  | inl err => (st, Some (failed_to_delete_file err))
  | inr tx1 =>
  let newUsage :=
    Int64.sub (PgToInt64 (Workspace.StorageUsedBytes workspace))
              (File.SizeBytes file) in
  match Queries.UpdateWorkspaceStorageUsed env tx1 workspaceID
          (Int64ToPg newUsage) with
  | inl err => (st, Some (failed_to_update_storage_usage err))
  | inr tx2 =>
  match Queries.Commit env tx2 with
  | inl err => (st, Some (commit_failed err))
  | inr st1 => (st1, None)
  end end end end end end.
End Service.
End FileService.

(** ** Sequential executions *)
Section Executions.
Variable T : Tables.

(** A mutating request, with the principal who makes it. *)
Inductive request :=
| Upload (req : FileUploadRequest.t) (userID : uuid)
| Delete (workspaceID : uuid) (filePath : string) (userID : uuid).

(** The row of [files] a request is aimed at. *)
Definition target (r : request) : uuid * string :=
  match r with
  | Upload req _ =>
      (FileUploadRequest.WorkspaceID req, FileUploadRequest.FilePath req)
  | Delete workspaceID filePath _ => (workspaceID, filePath)
  end.

(** The store after one request has been served to its end. *)
Definition serve (env : Env) (r : request) (st : DB) : DB :=
  match r with
  | Upload req userID =>
      (FileService.UploadFile T env req userID st).1
  | Delete workspaceID filePath userID =>
      (FileService.DeleteFile env workspaceID filePath userID st).1
  end.

(** Requests served one after the other, each in its own environment. *)
Definition serve_all (rs : list (Env * request)) (st : DB) : DB :=
  foldl (λ st er, serve er.1 er.2 st) st rs.
End Executions.

(** The accounted usage of a workspace, as the service reads it. *)
Definition storage_used_bytes (st : DB) (ws : uuid) : option Z :=
  workspaces st !! ws ≫= Workspace.StorageUsedBytes.


(** A byte slice is a string's bytes: content literals for the examples. *)
Definition bytes_of (s : string) : list Byte.byte :=
  String.list_byte_of_string s.

(** The system of the examples: no cased letter outside ASCII, and an empty
    extension table. *)
Definition plain_tables : Tables := mkTables (λ s, s) (λ _, "").

(** Two stores that differ in the audit log at most. *)
Definition audit_only (st st' : DB) : Prop :=
  workspaces st' = workspaces st ∧ files st' = files st
  ∧ file_versions st' = file_versions st.

(** The size of the file stored at [k], 0 if there is none. *)
Definition existing_size (st : DB) (k : uuid * string) : Z :=
  match files st !! k with
  | Some f => File.SizeBytes f
  | None => 0
  end.

(** The quota formula of the specification, over the integers. *)
Definition projected (currentUsed existingFileSize incomingSize : Z) : Z :=
  currentUsed - existingFileSize + incomingSize.

(** ** A small installation for the examples

    Two principals, and one workspace that belongs to the first. *)
Definition alice : uuid := 1%N.
Definition bob : uuid := 2%N.
Definition notes : uuid := 10%N.

(** The store just after [notes] has been created with quota [limit]. *)
Definition fresh (limit : Z) : DB :=
  mkDB {[ notes := Workspace.mk notes alice "notes" limit (Some 0)
                     (Some 0) (Some 0) ]} ∅ [] [].

(** An upload to [notes] as a client sends it. *)
Definition upload (path : string) (content : list Byte.byte)
  : FileUploadRequest.t :=
  FileUploadRequest.mk notes path content 0 "cli".

(** [n] bytes of content. *)
Definition blob (n : nat) : list Byte.byte := replicate n Byte.x61.

(** The service on that installation. *)
Definition UploadFile0 :=
  FileService.UploadFile plain_tables.

(** The row of [notes] with [used] bytes accounted at instant [t]. *)
Definition notes_row (limit used : Z) (t : Time) : Workspace.t :=
  Workspace.mk notes alice "notes" limit (Some used) (Some 0) (Some t).

(** The store once alice has put the three bytes [abc] at [a.md]. *)
Definition stored : DB :=
  (UploadFile0 (calm 5 100 101 102) (upload "a.md" (bytes_of "abc")) alice
     (fresh 100)).1.

(** What that upload returned. *)
Definition abc_info : FileInfo.t :=
  FileInfo.mk 101 notes "a.md"
    "ba7816bf8f01cfea414140de5dae2223b00361a396177a9cb410ff61f20015ad"
    3 "text/markdown" 0 5.

(** The quota of the free tier, [UserTier.GetStorageLimit]. *)
Definition free_tier : Z := 100 * 1024 * 1024.

(** The outcome of a read or an upload satisfies [P]. *)
Definition returns {A} (r : DB * (error + A)) (P : A → Prop) : Prop :=
  match r.2 with
  | inr a => P a
  | inl _ => False
  end.


(** A day in the life of [notes]: two uploads, an overwrite, an upload over
    the quota, a deletion by a stranger, a deletion by the owner, and an
    upload during which the connection drops at commit. *)
Definition history : list (Env * request) :=
  [ (calm 5 100 101 102, Upload (upload "a.md" (bytes_of "abc")) alice);
    (calm 6 110 111 112, Upload (upload "big.txt" (blob 90)) alice);
    (calm 7 120 121 122, Upload (upload "a.md" (bytes_of "abcde")) alice);
    (calm 8 130 131 132, Upload (upload "c.org" (blob 20)) alice);
    (calm 9 140 141 142, Delete notes "a.md" bob);
    (calm 10 150 151 152, Delete notes "big.txt" alice);
    (mkEnv 11 160 161 162 "conn closed" false false false false false false
       false false false false true false,
     Upload (upload "d.txt" (blob 7)) alice) ].

(** An environment in which the lookup of the stored file fails and every
    other call goes through. *)
Definition lookup_down (t : Time) (u1 u2 u3 : uuid) : Env :=
  mkEnv t u1 u2 u3 "conn busy" false false true false false false false false
        false false false false.

(** Writes that pass [a.md] by. *)
Definition elsewhere : list (Env * request) :=
  [ (calm 6 110 111 112, Upload (upload "b.md" (bytes_of "other")) alice);
    (calm 7 120 121 122, Delete notes "b.md" alice) ].

(** A second upload to [a.md]. *)
Definition again : list (Env * request) :=
  [ (calm 6 110 111 112, Upload (upload "a.md" (bytes_of "XY")) alice) ].

(** A second workspace, which belongs to [bob], beside [notes]. *)
Definition drafts : uuid := 20%N.

Definition two_workspaces : DB :=
  mkDB {[ notes := notes_row 100 0 0;
          drafts := Workspace.mk drafts bob "drafts" 50 (Some 0) (Some 0)
                      (Some 0) ]} ∅ [] [].

(** What [bob] does in [drafts]: two uploads and a deletion. *)
Definition at_drafts : list (Env * request) :=
  [ (calm 5 100 101 102,
     Upload (FileUploadRequest.mk drafts "x.txt" (bytes_of "hello") 0 "cli")
       bob);
    (calm 6 110 111 112,
     Upload (FileUploadRequest.mk drafts "a.md" (bytes_of "draft") 0 "cli")
       bob);
    (calm 7 120 121 122, Delete drafts "x.txt" bob) ].

(** An environment in which the connection drops at commit and every other
    call goes through. *)
Definition commit_down (t : Time) (u1 u2 u3 : uuid) : Env :=
  mkEnv t u1 u2 u3 "conn closed" false false false false false false false
        false false false true false.


(** ** What the claims speak of *)

(** The accounted usage of [ws] is the sum of the sizes of its files. *)
Definition accounted (st : DB) (ws : uuid) : Prop :=
  storage_used_bytes st ws
  = Some (Queries.actual_storage_used (files st) ws).

(** The state of the accounting of [ws] between two requests: the workspace
    is there with its limit, an [int64]; the usage is accounted; it does not
    exceed the limit; and no file of the workspace has a negative size. *)
Definition accounting (st : DB) (ws : uuid) (limit : Z) : Prop :=
  (∃ w, workspaces st !! ws = Some w
        ∧ Workspace.StorageLimitBytes w = limit)
  ∧ limit <= Int64.MaxInt64
  ∧ accounted st ws
  ∧ Queries.actual_storage_used (files st) ws <= Z.max 0 limit
  ∧ ∀ k f, files st !! k = Some f → k.1 = ws → 0 <= File.SizeBytes f.

(** A request does not overflow the accounting of [ws]: an upload to [ws]
    carries content that, added to the limit, still is an [int64], and its
    lookup of the file already stored is not cut short by the connection. *)
Definition fits (ws : uuid) (limit : Z) (er : Env * request) : Prop :=
  match er.2 with
  | Upload req _ =>
      FileUploadRequest.WorkspaceID req = ws →
      fail_GetFile er.1 = false
      ∧ Z.of_nat (length (FileUploadRequest.Content req)) + Z.max 0 limit
        <= Int64.MaxInt64
  | Delete _ _ _ => True
  end.


(** ** What the further properties speak of *)

(** The errors an upload returns once its audit row is open. *)
Definition after_audit_open (e : error) : bool :=
  match e with
  | failed_to_start_transaction _ | failed_to_upsert_file _
  | failed_to_update_storage_usage _ | failed_to_commit_transaction _ => true
  | _ => false
  end.



(** An audit row without its reference to a file. *)
Definition unlinked (o : SyncOperation.t) : SyncOperation.t :=
  SyncOperation.mk (SyncOperation.ID o) (SyncOperation.WorkspaceID o) None
    (SyncOperation.OperationType o) (SyncOperation.ClientID o)
    (SyncOperation.Status o) (SyncOperation.ErrorMessage o)
    (SyncOperation.CreatedAt o).

(** No two rows of [files] share an identifier (the primary key). *)
Definition unique_ids (fs : gmap (uuid * string) File.t) : Prop :=
  ∀ k1 k2 f1 f2, fs !! k1 = Some f1 → fs !! k2 = Some f2 →
                 File.ID f1 = File.ID f2 → k1 = k2.

(** Every version belongs to a file that is there (the foreign key). *)
Definition versions_have_files (st : DB) : Prop :=
  ∀ v, v ∈ file_versions st →
       map_Exists (λ _ f, File.ID f = FileVersion.FileID v) (files st).

(** * The rest of the program

    ** Tiers ([internal/domain/workspace.go], [pkg/auth/middleware.go]) *)
Module UserTier.

Definition TierFree : string := "free".
Definition TierPremium : string := "premium".
Definition TierEnterprise : string := "enterprise".

Definition GetStorageLimit (t : string) : Z :=
  if bool_decide (t = TierFree) then 100 * 1024 * 1024
  else if bool_decide (t = TierPremium) then 10 * 1024 * 1024 * 1024
  else if bool_decide (t = TierEnterprise) then 100 * 1024 * 1024 * 1024
  else 100 * 1024 * 1024.

(** [-1] stands for no limit. *)
Definition GetMaxWorkspaces (t : string) : Z :=
  if bool_decide (t = TierFree) then 1
  else if bool_decide (t = TierPremium) then 10
  else if bool_decide (t = TierEnterprise) then -1
  else 1.

End UserTier.

Definition getTierLevel (tier : string) : Z :=
  if bool_decide (tier = UserTier.TierFree) then 1
  else if bool_decide (tier = UserTier.TierPremium) then 2
  else if bool_decide (tier = UserTier.TierEnterprise) then 3
  else 0.

(** ** The workspace service ([internal/services/workspace_service.go]) *)
Module DomainWorkspace.
Record t := mk {
  ID : uuid;
  UserID : uuid;
  Name : string;
  StorageLimitBytes : Z;
  StorageUsedBytes : Z;
  CreatedAt : Time;
  UpdatedAt : Time;
}.
End DomainWorkspace.

Module CreateWorkspaceRequest.
Record t := mk { Name : string }.
End CreateWorkspaceRequest.

Module WorkspaceStorageInfo.
Record t := mk {
  StorageLimitBytes : Z;
  StorageUsedBytes : Z;
  FileCount : Z;
  ActualStorageUsed : Z;
}.
End WorkspaceStorageInfo.

(** What lies outside the program for one request to the workspace service:
    the environment of the statements it shares with the file service, the
    value [gen_random_uuid()] draws for a new workspace, and whether its two
    own statements fail.  [CreateWorkspace] also fails, like this, when
    [user_id] names no row of [users], a table that is kept apart from
    [DB]. *)
Record WorkspaceEnv := mkWorkspaceEnv {
  statements : Env;
  uuid_workspace : uuid;
  fail_GetWorkspacesByUser : bool;
  fail_CreateWorkspace : bool;
}.

Module WorkspaceQueries.

Module CreateWorkspaceParams.
Record t := mk {
  UserID : uuid;
  Name : string;
  StorageLimitBytes : Z;
}.
End CreateWorkspaceParams.

(** [INSERT INTO workspaces (user_id, name, storage_limit_bytes)
     VALUES ($1, $2, $3) RETURNING *], with the defaults of the schema for
    the other columns and under the primary key. *)
Definition CreateWorkspace (env : WorkspaceEnv) (st : DB)
    (arg : CreateWorkspaceParams.t) : dberror + DB * Workspace.t :=
  if fail_CreateWorkspace env then inl (ConnFailure (fault (statements env)))
  else if bool_decide (is_Some (workspaces st !! uuid_workspace env))
  then inl (UniqueViolation "workspaces_pkey")
  else
    let row :=
      Workspace.mk (uuid_workspace env) (CreateWorkspaceParams.UserID arg)
        (CreateWorkspaceParams.Name arg)
        (CreateWorkspaceParams.StorageLimitBytes arg)
        (Some 0) (Some (now (statements env))) (Some (now (statements env)))
    in
    inr (Queries.set_workspaces st
           (<[uuid_workspace env := row]> (workspaces st)), row).

(** [ORDER BY created_at DESC]: a row without the column comes first. *)
Definition newest_first (a b : Workspace.t) : Prop :=
  match Workspace.CreatedAt a, Workspace.CreatedAt b with
  | None, _ => True
  | Some _, None => False
  | Some x, Some y => y <= x
  end.

Global Instance newest_first_dec a b : Decision (newest_first a b).
Proof. unfold newest_first. repeat case_match; apply _. Defined.

(** [SELECT * FROM workspaces WHERE user_id = $1 ORDER BY created_at DESC] *)
Definition GetWorkspacesByUser (env : WorkspaceEnv) (st : DB) (UserID : uuid)
  : dberror + list Workspace.t :=
  if fail_GetWorkspacesByUser env
  then inl (ConnFailure (fault (statements env)))
  else inr (merge_sort newest_first
              (filter (λ w, Workspace.UserID w = UserID)
                      (map_to_list (workspaces st)).*2)).

End WorkspaceQueries.

(** [pgtype.Numeric.Int64Value] followed by [.Int64], the error dropped: a
    sum that is no [int64] reads as 0. *)
Definition Numeric_Int64Value (z : Z) : Z :=
  if bool_decide (Int64.in_range z) then z else 0.

Module WorkspaceService.
Import pgconv.

(** The errors the service returns, one constructor per [fmt.Errorf] site. *)
Inductive error :=
| failed_to_get_existing_workspaces (cause : dberror)
| workspace_limit_reached (tier : string) (current max : Z)
| failed_to_create_workspace (cause : dberror)
| failed_to_get_workspaces (cause : dberror)
| workspace_not_found (cause : dberror)
| access_denied
| failed_to_get_storage_usage (cause : dberror).

(** [err.Error()] *)
Definition Error (e : error) : string :=
  match e with
  | failed_to_get_existing_workspaces c =>
      "failed to get existing workspaces: " +:+ dberror_Error c
  | workspace_limit_reached tier current max =>
      "workspace limit reached for " +:+ tier +:+ " tier: "
        +:+ pretty current +:+ "/" +:+ pretty max
  | failed_to_create_workspace c =>
      "failed to create workspace: " +:+ dberror_Error c
  | failed_to_get_workspaces c =>
      "failed to get workspaces: " +:+ dberror_Error c
  | workspace_not_found c => "workspace not found: " +:+ dberror_Error c
  | access_denied => "access denied: workspace belongs to different user"
  | failed_to_get_storage_usage c =>
      "failed to get storage usage: " +:+ dberror_Error c
  end.

(** The [domain.Workspace] the service builds from a row. *)
Definition result (workspace : Workspace.t) : DomainWorkspace.t :=
  DomainWorkspace.mk (Workspace.ID workspace) (Workspace.UserID workspace)
    (Workspace.Name workspace) (Workspace.StorageLimitBytes workspace)
    (PgToInt64 (Workspace.StorageUsedBytes workspace))
    (PgToTime (Workspace.CreatedAt workspace))
    (PgToTime (Workspace.UpdatedAt workspace)).

Definition CreateWorkspace (env : WorkspaceEnv)
    (req : CreateWorkspaceRequest.t) (userID : uuid) (userTier : string)
    (st : DB) : DB * (error + DomainWorkspace.t) :=
  match WorkspaceQueries.GetWorkspacesByUser env st userID with
  | inl err => (st, inl (failed_to_get_existing_workspaces err))
  | inr existingWorkspaces =>
  let maxWorkspaces := UserTier.GetMaxWorkspaces userTier in
  if bool_decide
       (maxWorkspaces > 0
        ∧ Z.of_nat (length existingWorkspaces) >= maxWorkspaces)
  then (st, inl (workspace_limit_reached userTier
                   (Z.of_nat (length existingWorkspaces)) maxWorkspaces))
  else
  let storageLimit := UserTier.GetStorageLimit userTier in
  match WorkspaceQueries.CreateWorkspace env st
          (WorkspaceQueries.CreateWorkspaceParams.mk userID
             (CreateWorkspaceRequest.Name req) storageLimit) with
  | inl err => (st, inl (failed_to_create_workspace err))
  | inr (st1, workspace) => (st1, inr (result workspace))
  end end.

Definition GetWorkspacesByUser (env : WorkspaceEnv) (userID : uuid) (st : DB)
  : DB * (error + list DomainWorkspace.t) :=
  match WorkspaceQueries.GetWorkspacesByUser env st userID with
  | inl err => (st, inl (failed_to_get_workspaces err))
  | inr dbWorkspaces => (st, inr (result <$> dbWorkspaces))
  end.

Definition GetWorkspaceByID (env : WorkspaceEnv) (workspaceID userID : uuid)
    (st : DB) : DB * (error + DomainWorkspace.t) :=
  match Queries.GetWorkspaceByID (statements env) st workspaceID with
  | inl err => (st, inl (workspace_not_found err))
  | inr workspace =>
  if bool_decide (Workspace.UserID workspace ≠ userID)
  then (st, inl access_denied)
  else (st, inr (result workspace))
  end.

Definition GetWorkspaceStorageInfo (env : WorkspaceEnv)
    (workspaceID userID : uuid) (st : DB)
  : DB * (error + WorkspaceStorageInfo.t) :=
  match Queries.GetWorkspaceByID (statements env) st workspaceID with
  | inl err => (st, inl (workspace_not_found err))
  | inr workspace =>
  if bool_decide (Workspace.UserID workspace ≠ userID)
  then (st, inl access_denied)
  else
  match Queries.GetWorkspaceStorageUsage (statements env) st workspaceID with
  | inl err => (st, inl (failed_to_get_storage_usage err))
  | inr storageInfo =>
  let actualUsed :=
    Numeric_Int64Value
      (Queries.GetWorkspaceStorageUsageRow.ActualStorageUsed storageInfo) in
  (st, inr (WorkspaceStorageInfo.mk
              (Queries.GetWorkspaceStorageUsageRow.StorageLimitBytes
                 storageInfo)
              (PgToInt64
                 (Queries.GetWorkspaceStorageUsageRow.StorageUsedBytes
                    storageInfo))
              (Queries.GetWorkspaceStorageUsageRow.FileCount storageInfo)
              actualUsed))
  end end.

End WorkspaceService.

(** ** Accounts ([migrations/001_initial_schema.sql]) *)
Module User.
Record t := mk {
  ID : uuid;
  Email : string;
  PasswordHash : string;
  Tier : string;
  StorageUsedBytes : option Z;
  CreatedAt : option Time;
  UpdatedAt : option Time;
}.
End User.

Module ApiToken.
Record t := mk {
  ID : uuid;
  UserID : uuid;
  TokenHash : string;
  Name : string;
  LastUsedAt : option Time;
  ExpiresAt : option Time;
  CreatedAt : option Time;
}.
End ApiToken.

(** [users] is keyed by its primary key; [api_tokens] keeps its rows in
    insertion order. *)
Record Accounts := mkAccounts {
  users : gmap uuid User.t;
  api_tokens : list ApiToken.t;
}.

(** What lies outside the program for one pass through the authentication:
    the clock behind [NOW()], the value [gen_random_uuid()] draws for a new
    token, and which database calls fail for a reason of the connection's
    own. *)
Record AuthEnv := mkAuthEnv {
  auth_now : Time;
  uuid_api_token : uuid;
  auth_fault : string;
  fail_GetTokenByHash : bool;
  fail_UpdateTokenLastUsed : bool;
  fail_CreateAPIToken : bool;
}.

Module AuthQueries.

Module GetTokenByHashRow.
Record t := mk {
  ID : uuid;
  UserID : uuid;
  TokenHash : string;
  Name : string;
  LastUsedAt : option Time;
  ExpiresAt : option Time;
  CreatedAt : option Time;
  UserID_2 : uuid;
  Email : string;
  Tier : string;
}.
End GetTokenByHashRow.

(** [t.expires_at IS NULL OR t.expires_at > NOW()] *)
Definition unexpired (now : Time) (t : ApiToken.t) : bool :=
  match ApiToken.ExpiresAt t with
  | None => true
  | Some e => bool_decide (e > now)
  end.

(** The row of the join for one token, if the token is selected. *)
Definition selected (env : AuthEnv) (acc : Accounts) (TokenHash : string)
    (t : ApiToken.t) : option GetTokenByHashRow.t :=
  if bool_decide (ApiToken.TokenHash t = TokenHash)
     && unexpired (auth_now env) t
  then u ← users acc !! ApiToken.UserID t;
       Some (GetTokenByHashRow.mk (ApiToken.ID t) (ApiToken.UserID t)
               (ApiToken.TokenHash t) (ApiToken.Name t)
               (ApiToken.LastUsedAt t) (ApiToken.ExpiresAt t)
               (ApiToken.CreatedAt t) (User.ID u) (User.Email u)
               (User.Tier u))
  else None.

(** [SELECT t.*, u.id as user_id, u.email, u.tier
     FROM api_tokens t JOIN users u ON t.user_id = u.id
     WHERE t.token_hash = $1
       AND (t.expires_at IS NULL OR t.expires_at > NOW())], [:one]. *)
Definition GetTokenByHash (env : AuthEnv) (acc : Accounts)
    (TokenHash : string) : dberror + GetTokenByHashRow.t :=
  if fail_GetTokenByHash env then inl (ConnFailure (auth_fault env))
  else match head (omap (selected env acc TokenHash) (api_tokens acc)) with
       | Some row => inr row
       | None => inl ErrNoRows
       end.

(** [UPDATE api_tokens SET last_used_at = NOW() WHERE id = $1] *)
Definition UpdateTokenLastUsed (env : AuthEnv) (acc : Accounts) (ID : uuid)
  : dberror + Accounts :=
  if fail_UpdateTokenLastUsed env then inl (ConnFailure (auth_fault env))
  else inr (mkAccounts (users acc)
              ((λ t, if bool_decide (ApiToken.ID t = ID)
                     then ApiToken.mk (ApiToken.ID t) (ApiToken.UserID t)
                            (ApiToken.TokenHash t) (ApiToken.Name t)
                            (Some (auth_now env)) (ApiToken.ExpiresAt t)
                            (ApiToken.CreatedAt t)
                     else t) <$> api_tokens acc)).

Module CreateAPITokenParams.
Record t := mk {
  UserID : uuid;
  TokenHash : string;
  Name : string;
  ExpiresAt : option Time;
}.
End CreateAPITokenParams.

(** [INSERT INTO api_tokens (user_id, token_hash, name, expires_at)
     VALUES ($1, $2, $3, $4) RETURNING *], under the foreign key on
    [users], the primary key and [UNIQUE(token_hash)]. *)
Definition CreateAPIToken (env : AuthEnv) (acc : Accounts)
    (arg : CreateAPITokenParams.t) : dberror + Accounts * ApiToken.t :=
  if fail_CreateAPIToken env then inl (ConnFailure (auth_fault env))
  else if bool_decide (users acc !! CreateAPITokenParams.UserID arg = None)
  then inl (ForeignKeyViolation "api_tokens_user_id_fkey")
  else if bool_decide
            (Exists (λ t, ApiToken.ID t = uuid_api_token env)
                    (api_tokens acc))
  then inl (UniqueViolation "api_tokens_pkey")
  else if bool_decide
            (Exists (λ t, ApiToken.TokenHash t
                          = CreateAPITokenParams.TokenHash arg)
                    (api_tokens acc))
  then inl (UniqueViolation "api_tokens_token_hash_key")
  else
    let row :=
      ApiToken.mk (uuid_api_token env) (CreateAPITokenParams.UserID arg)
        (CreateAPITokenParams.TokenHash arg) (CreateAPITokenParams.Name arg)
        None (CreateAPITokenParams.ExpiresAt arg) (Some (auth_now env)) in
    inr (mkAccounts (users acc) (api_tokens acc ++ [row]), row).

End AuthQueries.

(** ** The authenticated principal ([internal/domain/workspace.go]) *)
Module DomainUser.
Record t := mk {
  ID : uuid;
  Email : string;
  Tier : string;
  StorageUsedBytes : Z;
  CreatedAt : Time;
  UpdatedAt : Time;
}.
End DomainUser.

Module DomainAPIToken.
Record t := mk {
  ID : uuid;
  UserID : uuid;
  TokenHash : string;
  Name : string;
  LastUsedAt : option Time;
  ExpiresAt : option Time;
  CreatedAt : Time;
}.
End DomainAPIToken.

Module AuthContext.
Record t := mk {
  User : DomainUser.t;
  Token : DomainAPIToken.t;
  UserID : uuid;
  UserEmail : string;
  UserTier : string;
}.
End AuthContext.

(** ** Requests and responses ([net/http], as far as the program uses it) *)
Module http.

Definition StatusOK : Z := 200.
Definition StatusCreated : Z := 201.
Definition StatusNoContent : Z := 204.
Definition StatusBadRequest : Z := 400.
Definition StatusUnauthorized : Z := 401.
Definition StatusForbidden : Z := 403.
Definition StatusNotFound : Z := 404.
Definition StatusRequestEntityTooLarge : Z := 413.
Definition StatusInternalServerError : Z := 500.

(** What [r.FormFile("file")] followed by [io.ReadAll] gives. *)
Inductive form_file :=
| NoFile
| Unreadable
| FileBytes (content : list Byte.byte).

(** A request as its handlers read it: the [Authorization] header (empty
    when absent), the value stored under ["auth"] in its context, the
    wildcards of the matched pattern, the query, the multipart form ([None]
    when it cannot be parsed) with its file, and the JSON body decoded as a
    [CreateWorkspaceRequest] ([None] when it cannot be). *)
Record Request := mkRequest {
  Authorization : string;
  auth : option AuthContext.t;
  PathValue : string → string;
  Query : string → string;
  FormValue : option (string → string);
  FormFile : form_file;
  Body : option CreateWorkspaceRequest.t;
}.

(** [r.WithContext(context.WithValue(r.Context(), "auth", authCtx))] *)
Definition WithAuth (r : Request) (authCtx : AuthContext.t) : Request :=
  mkRequest (Authorization r) (Some authCtx) (PathValue r) (Query r)
    (FormValue r) (FormFile r) (Body r).

(** What a handler writes: the text of [http.Error], a value encoded as
    JSON, the bytes of a download with the headers made from the file, or
    nothing. *)
Inductive body :=
| Text (msg : string)
| FileInfoJSON (v : FileInfo.t)
| FileWithContentJSON (v : FileWithContent.t)
| FilesJSON (files : list FileInfo.t) (count : Z)
| WorkspaceJSON (v : DomainWorkspace.t)
| WorkspacesJSON (workspaces : list DomainWorkspace.t) (count : Z)
| StorageJSON (v : WorkspaceStorageInfo.t)
| Attachment (v : FileWithContent.t)
| NoBody.

Record Response := mkResponse {
  StatusCode : Z;
  ResponseBody : body;
}.

(** A handler that returns has written a response; one that panics on the
    missing context value has not. *)
Inductive outcome :=
| Reply (resp : Response)
| Panic.

(** [http.Error(w, msg, code)] *)
Definition Error (msg : string) (code : Z) : outcome :=
  Reply (mkResponse code (Text msg)).

End http.

(** The state the handlers work on: the accounts and the store. *)
Record Server := mkServer {
  accounts : Accounts;
  store : DB;
}.

(** [http.HandlerFunc], with the state passed along. *)
Definition HandlerFunc : Type :=
  http.Request → Server → Server * http.outcome.

(** ** Authentication ([pkg/auth/middleware.go]) *)

(** [strings.HasPrefix] and [strings.TrimPrefix] *)
Definition HasPrefix (s prefix : string) : bool := String.prefix prefix s.

Definition TrimPrefix (s prefix : string) : string :=
  if HasPrefix s prefix
  then String.string_of_list_ascii
         (drop (String.length prefix) (String.list_ascii_of_string s))
  else s.

(** The state after an [:exec] statement whose error the caller drops. *)
Definition dropping_error (acc : Accounts) (r : dberror + Accounts)
  : Accounts :=
  match r with inr acc' => acc' | inl _ => acc end.

Module AuthMiddleware.
Import AuthQueries http.

Definition RequireAuth (env : AuthEnv) (next : HandlerFunc) : HandlerFunc :=
  λ r s,
  let authHeader := Authorization r in
  if bool_decide (authHeader = "")
  then (s, Error "Missing Authorization header" StatusUnauthorized)
  else if negb (HasPrefix authHeader "Bearer ")
  then (s, Error "Invalid Authorization header format" StatusUnauthorized)
  else
  let token := TrimPrefix authHeader "Bearer " in
  if bool_decide (token = "")
  then (s, Error "Missing token" StatusUnauthorized)
  else
  let hash := sha256.Sum256 (bytes_of token) in
  let tokenHash := Sprintf_x hash in
  match GetTokenByHash env (accounts s) tokenHash with
  | inl _ => (s, Error "Invalid token" StatusUnauthorized)
  | inr tokenInfo =>
  let acc1 :=
    dropping_error (accounts s)
      (UpdateTokenLastUsed env (accounts s) (GetTokenByHashRow.ID tokenInfo))
  in
  let authCtx :=
    AuthContext.mk
      (DomainUser.mk (GetTokenByHashRow.UserID tokenInfo)
         (GetTokenByHashRow.Email tokenInfo)
         (GetTokenByHashRow.Tier tokenInfo) 0 0 0)
      (DomainAPIToken.mk (GetTokenByHashRow.ID tokenInfo)
         (GetTokenByHashRow.UserID tokenInfo) ""
         (GetTokenByHashRow.Name tokenInfo)
         (GetTokenByHashRow.LastUsedAt tokenInfo)
         (GetTokenByHashRow.ExpiresAt tokenInfo)
         (pgconv.PgToTime (GetTokenByHashRow.CreatedAt tokenInfo)))
      (GetTokenByHashRow.UserID tokenInfo)
      (GetTokenByHashRow.Email tokenInfo)
      (GetTokenByHashRow.Tier tokenInfo) in
  next (WithAuth r authCtx) (mkServer acc1 (store s))
  end.

Definition OptionalAuth (env : AuthEnv) (next : HandlerFunc) : HandlerFunc :=
  λ r s,
  let authHeader := Authorization r in
  if bool_decide (authHeader = "") || negb (HasPrefix authHeader "Bearer ")
  then next r s
  else
  let token := TrimPrefix authHeader "Bearer " in
  if bool_decide (token = "") then next r s
  else
  let hash := sha256.Sum256 (bytes_of token) in
  let tokenHash := Sprintf_x hash in
  match GetTokenByHash env (accounts s) tokenHash with
  | inl _ => next r s
  | inr tokenInfo =>
  let acc1 :=
    dropping_error (accounts s)
      (UpdateTokenLastUsed env (accounts s) (GetTokenByHashRow.ID tokenInfo))
  in
  let authCtx :=
    AuthContext.mk
      (DomainUser.mk (GetTokenByHashRow.UserID tokenInfo)
         (GetTokenByHashRow.Email tokenInfo)
         (GetTokenByHashRow.Tier tokenInfo) 0 0 0)
      (DomainAPIToken.mk 0%N 0%N "" "" None None 0)
      (GetTokenByHashRow.UserID tokenInfo)
      (GetTokenByHashRow.Email tokenInfo)
      (GetTokenByHashRow.Tier tokenInfo) in
  next (WithAuth r authCtx) (mkServer acc1 (store s))
  end.

Definition RequireTier (tier : string) (next : HandlerFunc) : HandlerFunc :=
  λ r s,
  match auth r with
  | None => (s, Error "Authentication required" StatusUnauthorized)
  | Some auth =>
  let userTierLevel := getTierLevel (AuthContext.UserTier auth) in
  let requiredTierLevel := getTierLevel tier in
  if bool_decide (userTierLevel < requiredTierLevel)
  then (s, Error "Insufficient tier level" StatusForbidden)
  else next r s
  end.

End AuthMiddleware.

(** ** The token the OAuth flow hands out ([internal/api/oauth_handler.go])

    [random] is what [rand.Read] puts into the 32 bytes of [tokenBytes], or
    the text of its error.  The function returns the token, or the text of
    the error it returns instead. *)
Definition hex_EncodeToString (src : list Byte.byte) : string :=
  Sprintf_x src.

Definition generateAPIToken (env : AuthEnv)
    (random : string + list Byte.byte) (userID : uuid) (acc : Accounts)
  : Accounts * (string + string) :=
  match random with
  | inl err => (acc, inl ("failed to generate token: " +:+ err))
  | inr tokenBytes =>
  let tokenString := hex_EncodeToString tokenBytes in
  let hasher := λ data : string, Sprintf_x (bytes_of data) in
  let tokenHash := hasher tokenString in
  match AuthQueries.CreateAPIToken env acc
          (AuthQueries.CreateAPITokenParams.mk userID tokenHash "OAuth Token"
             None) with
  | inl err => (acc, inl ("failed to store token: " +:+ dberror_Error err))
  | inr (acc1, _) => (acc1, inr tokenString)
  end
  end.

(** [hashToken] of the test fixtures ([internal/testutil]): the hash under
    which a token has to be stored for the middleware to find it. *)
Definition hashToken (token : string) : string :=
  Sprintf_x (sha256.Sum256 (bytes_of token)).

(** ** The handlers ([internal/api]) *)

(** What lies outside the program for one request to a handler: the clock
    behind [time.Now()] and the environments of the two services. *)
Record HandlerEnv := mkHandlerEnv {
  clock : Time;
  file_env : Env;
  workspace_env : WorkspaceEnv;
}.

(** A service call on the store of the server. *)
Definition on_store {A} (s : Server) (r : DB * A) : Server * A :=
  (mkServer (accounts s) r.1, r.2).

Section Handlers.

Variable T : Tables.

(** [uuid.Parse] and [time.Parse(time.RFC3339, _)], [None] for an error. *)
Variable uuid_Parse : string → option uuid.
Variable time_Parse_RFC3339 : string → option Time.

Variable env : HandlerEnv.

Definition FileHandler_UploadFile : HandlerFunc := λ r s,
  match http.auth r with
  | None => (s, http.Panic)
  | Some authCtx =>
  match http.FormValue r with
  | None => (s, http.Error "Failed to parse form data" http.StatusBadRequest)
  | Some FormValue =>
  let workspaceIDStr := FormValue "workspace_id" in
  let filePath := FormValue "file_path" in
  let lastModifiedStr := FormValue "last_modified" in
  let clientID := FormValue "client_id" in
  if bool_decide (workspaceIDStr = "" ∨ filePath = "")
  then (s, http.Error "Missing required fields: workspace_id, file_path"
             http.StatusBadRequest)
  else
  match uuid_Parse workspaceIDStr with
  | None => (s, http.Error "Invalid workspace_id format" http.StatusBadRequest)
  | Some workspaceID =>
  match (if bool_decide (lastModifiedStr ≠ "")
         then time_Parse_RFC3339 lastModifiedStr
         else Some (clock env)) with
  | None =>
      (s, http.Error "Invalid last_modified format (use RFC3339)"
            http.StatusBadRequest)
  | Some lastModified =>
  match http.FormFile r with
  | http.NoFile =>
      (s, http.Error "Missing file in form data" http.StatusBadRequest)
  | http.Unreadable =>
      (s, http.Error "Failed to read file content" http.StatusBadRequest)
  | http.FileBytes content =>
  let req :=
    FileUploadRequest.mk workspaceID filePath content lastModified clientID in
  match on_store s
          (FileService.UploadFile T (file_env env) req
             (AuthContext.UserID authCtx) (store s)) with
  | (s1, inl err) =>
      if bool_decide (Error err = "storage limit exceeded")
      then (s1, http.Error (Error err) http.StatusRequestEntityTooLarge)
      else (s1, http.Error (Error err) http.StatusInternalServerError)
  | (s1, inr fileInfo) =>
      (s1, http.Reply
             (http.mkResponse http.StatusCreated
                (http.FileInfoJSON fileInfo)))
  end end end end end end.

Definition FileHandler_GetFile : HandlerFunc := λ r s,
  match http.auth r with
  | None => (s, http.Panic)
  | Some authCtx =>
  let workspaceIDStr := http.PathValue r "workspace_id" in
  let filePath := http.PathValue r "file_path" in
  if bool_decide (workspaceIDStr = "" ∨ filePath = "")
  then (s, http.Error "Missing workspace_id or file_path" http.StatusBadRequest)
  else
  match uuid_Parse workspaceIDStr with
  | None => (s, http.Error "Invalid workspace_id format" http.StatusBadRequest)
  | Some workspaceID =>
  let includeContent := bool_decide (http.Query r "content" = "true") in
  let isDownload := bool_decide (http.Query r "download" = "true") in
  if isDownload then
    match on_store s
            (FileService.GetFileContent (file_env env) workspaceID filePath
               (AuthContext.UserID authCtx) (store s)) with
    | (s1, inl err) => (s1, http.Error (Error err) http.StatusNotFound)
    | (s1, inr fileWithContent) =>
        (s1, http.Reply
               (http.mkResponse http.StatusOK
                  (http.Attachment fileWithContent)))
    end
  else if includeContent then
    match on_store s
            (FileService.GetFileContent (file_env env) workspaceID filePath
               (AuthContext.UserID authCtx) (store s)) with
    | (s1, inl err) => (s1, http.Error (Error err) http.StatusNotFound)
    | (s1, inr fileWithContent) =>
        (s1, http.Reply
               (http.mkResponse http.StatusOK
                  (http.FileWithContentJSON fileWithContent)))
    end
  else
    match on_store s
            (FileService.GetFile (file_env env) workspaceID filePath
               (AuthContext.UserID authCtx) (store s)) with
    | (s1, inl err) => (s1, http.Error (Error err) http.StatusNotFound)
    | (s1, inr fileInfo) =>
        (s1, http.Reply
               (http.mkResponse http.StatusOK (http.FileInfoJSON fileInfo)))
    end
  end end.

Definition FileHandler_ListFiles : HandlerFunc := λ r s,
  match http.auth r with
  | None => (s, http.Panic)
  | Some authCtx =>
  let workspaceIDStr := http.PathValue r "workspace_id" in
  if bool_decide (workspaceIDStr = "")
  then (s, http.Error "Missing workspace_id" http.StatusBadRequest)
  else
  match uuid_Parse workspaceIDStr with
  | None => (s, http.Error "Invalid workspace_id format" http.StatusBadRequest)
  | Some workspaceID =>
  match on_store s
          (FileService.ListFiles (file_env env) workspaceID
             (AuthContext.UserID authCtx) (store s)) with
  | (s1, inl err) => (s1, http.Error (Error err) http.StatusInternalServerError)
  | (s1, inr files) =>
      (s1, http.Reply (http.mkResponse http.StatusOK
                    (http.FilesJSON files (Z.of_nat (length files)))))
  end end end.

Definition FileHandler_DeleteFile : HandlerFunc := λ r s,
  match http.auth r with
  | None => (s, http.Panic)
  | Some authCtx =>
  let workspaceIDStr := http.PathValue r "workspace_id" in
  let filePath := http.PathValue r "file_path" in
  if bool_decide (workspaceIDStr = "" ∨ filePath = "")
  then (s, http.Error "Missing workspace_id or file_path" http.StatusBadRequest)
  else
  match uuid_Parse workspaceIDStr with
  | None => (s, http.Error "Invalid workspace_id format" http.StatusBadRequest)
  | Some workspaceID =>
  match on_store s
          (FileService.DeleteFile (file_env env) workspaceID filePath
             (AuthContext.UserID authCtx) (store s)) with
  | (s1, Some err) =>
      (s1, http.Error (Error err) http.StatusInternalServerError)
  | (s1, None) =>
      (s1, http.Reply (http.mkResponse http.StatusNoContent http.NoBody))
  end end end.

Definition WorkspaceHandler_CreateWorkspace : HandlerFunc := λ r s,
  match http.auth r with
  | None => (s, http.Panic)
  | Some authCtx =>
  match http.Body r with
  | None => (s, http.Error "Invalid JSON" http.StatusBadRequest)
  | Some req =>
  if bool_decide (CreateWorkspaceRequest.Name req = "")
  then (s, http.Error "Missing required field: name" http.StatusBadRequest)
  else
  match on_store s
          (WorkspaceService.CreateWorkspace (workspace_env env) req
             (AuthContext.UserID authCtx) (AuthContext.UserTier authCtx)
             (store s)) with
  | (s1, inl err) =>
      if bool_decide (WorkspaceService.Error err = "workspace limit reached")
      then (s1, http.Error (WorkspaceService.Error err) http.StatusForbidden)
      else (s1, http.Error (WorkspaceService.Error err)
                  http.StatusInternalServerError)
  | (s1, inr workspace) =>
      (s1, http.Reply
             (http.mkResponse http.StatusCreated
                (http.WorkspaceJSON workspace)))
  end end end.

Definition WorkspaceHandler_GetWorkspaces : HandlerFunc := λ r s,
  match http.auth r with
  | None => (s, http.Panic)
  | Some authCtx =>
  match on_store s
          (WorkspaceService.GetWorkspacesByUser (workspace_env env)
             (AuthContext.UserID authCtx) (store s)) with
  | (s1, inl err) =>
      (s1, http.Error (WorkspaceService.Error err)
             http.StatusInternalServerError)
  | (s1, inr workspaces) =>
      (s1, http.Reply (http.mkResponse http.StatusOK
                    (http.WorkspacesJSON workspaces
                       (Z.of_nat (length workspaces)))))
  end end.

Definition WorkspaceHandler_GetWorkspace : HandlerFunc := λ r s,
  match http.auth r with
  | None => (s, http.Panic)
  | Some authCtx =>
  let workspaceIDStr := http.PathValue r "id" in
  if bool_decide (workspaceIDStr = "")
  then (s, http.Error "Missing workspace ID" http.StatusBadRequest)
  else
  match uuid_Parse workspaceIDStr with
  | None => (s, http.Error "Invalid workspace ID format" http.StatusBadRequest)
  | Some workspaceID =>
  match on_store s
          (WorkspaceService.GetWorkspaceByID (workspace_env env) workspaceID
             (AuthContext.UserID authCtx) (store s)) with
  | (s1, inl err) =>
      if bool_decide (WorkspaceService.Error err = "workspace not found")
      then (s1, http.Error (WorkspaceService.Error err) http.StatusNotFound)
      else if bool_decide
                (WorkspaceService.Error err
                 = "access denied: workspace belongs to different user")
      then (s1, http.Error "Workspace not found" http.StatusNotFound)
      else (s1, http.Error (WorkspaceService.Error err)
                  http.StatusInternalServerError)
  | (s1, inr workspace) =>
      (s1, http.Reply
             (http.mkResponse http.StatusOK (http.WorkspaceJSON workspace)))
  end end end.

Definition WorkspaceHandler_GetWorkspaceStorage : HandlerFunc := λ r s,
  match http.auth r with
  | None => (s, http.Panic)
  | Some authCtx =>
  let workspaceIDStr := http.PathValue r "id" in
  if bool_decide (workspaceIDStr = "")
  then (s, http.Error "Missing workspace ID" http.StatusBadRequest)
  else
  match uuid_Parse workspaceIDStr with
  | None => (s, http.Error "Invalid workspace ID format" http.StatusBadRequest)
  | Some workspaceID =>
  match on_store s
          (WorkspaceService.GetWorkspaceStorageInfo (workspace_env env)
             workspaceID (AuthContext.UserID authCtx) (store s)) with
  | (s1, inl err) =>
      if bool_decide (WorkspaceService.Error err = "workspace not found")
      then (s1, http.Error (WorkspaceService.Error err) http.StatusNotFound)
      else if bool_decide
                (WorkspaceService.Error err
                 = "access denied: workspace belongs to different user")
      then (s1, http.Error "Workspace not found" http.StatusNotFound)
      else (s1, http.Error (WorkspaceService.Error err)
                  http.StatusInternalServerError)
  | (s1, inr storageInfo) =>
      (s1, http.Reply
             (http.mkResponse http.StatusOK (http.StorageJSON storageInfo)))
  end end end.

(** ** The routes that are served ([main.go]) *)
Inductive Route :=
| POST_api_files_upload
| GET_api_files
| GET_api_workspaces_files
| DELETE_api_files
| POST_api_workspaces
| GET_api_workspaces
| GET_api_workspaces_id
| GET_api_workspaces_id_storage.

Definition handler (route : Route) : HandlerFunc :=
  match route with
  | POST_api_files_upload => FileHandler_UploadFile
  | GET_api_files => FileHandler_GetFile
  | GET_api_workspaces_files => FileHandler_ListFiles
  | DELETE_api_files => FileHandler_DeleteFile
  | POST_api_workspaces => WorkspaceHandler_CreateWorkspace
  | GET_api_workspaces => WorkspaceHandler_GetWorkspaces
  | GET_api_workspaces_id => WorkspaceHandler_GetWorkspace
  | GET_api_workspaces_id_storage => WorkspaceHandler_GetWorkspaceStorage
  end.

(** The handler [authMux] serves a route of the API with. *)
Definition authMux (aenv : AuthEnv) (route : Route) : HandlerFunc :=
  AuthMiddleware.RequireAuth aenv (handler route).
End Handlers.

(** The number of workspaces a user owns. *)
Definition owned (st : DB) (userID : uuid) : nat :=
  length (filter (λ w, Workspace.UserID w = userID)
                 (map_to_list (workspaces st)).*2).


(** An environment of the workspace service in which no call fails. *)
Definition quiet (t : Time) (u : uuid) : WorkspaceEnv :=
  mkWorkspaceEnv (calm t 0 0 0) u false false.

(** A second workspace of the examples, which [alice] creates through the
    workspace service on the free tier, and what she then does in it. *)
Definition journal : uuid := 30%N.

Definition with_journal : DB :=
  (WorkspaceService.CreateWorkspace (quiet 3 journal)
     (CreateWorkspaceRequest.mk "journal") alice UserTier.TierFree
     emptyDB).1.

Definition journal_info : DomainWorkspace.t :=
  DomainWorkspace.mk journal alice "journal" free_tier 0 3 3.


(** The accounts of the examples: [alice], on the free tier, with one token
    stored the way the test fixtures store it, for the secret [secret]. *)
Definition alice_user : User.t :=
  User.mk alice "alice@example.org" "" UserTier.TierFree (Some 0) (Some 0)
    (Some 0).

Definition secret_token : ApiToken.t :=
  ApiToken.mk 40 alice (hashToken "secret") "cli" None None (Some 1).

Definition office : Accounts :=
  mkAccounts {[ alice := alice_user ]} [secret_token].

(** An environment of the authentication in which no call fails. *)
Definition peaceful (t : Time) (u : uuid) : AuthEnv :=
  mkAuthEnv t u "" false false false.

(** A request that carries nothing but an [Authorization] header. *)
Definition bearer (authHeader : string) : http.Request :=
  http.mkRequest authHeader None (λ _, "") (λ _, "") None http.NoFile None.

(** A handler that answers 200 to everything. *)
Definition ok_handler : HandlerFunc :=
  λ _ s, (s, http.Reply (http.mkResponse http.StatusOK http.NoBody)).

(** A handler whose outcome no middleware produces: it tells the requests
    that are handed on apart from those a middleware answers itself. *)
Definition probe : HandlerFunc := λ _ s, (s, http.Panic).

(** What the gate puts into the context for [secret]. *)
Definition alice_ctx : AuthContext.t :=
  AuthContext.mk (DomainUser.mk alice "alice@example.org" "free" 0 0 0)
    (DomainAPIToken.mk 40 alice "" "cli" None None 1)
    alice "alice@example.org" "free".

(** Parsers that know the identifiers and the date of the examples. *)
Definition toy_uuid_Parse (s : string) : option uuid :=
  if bool_decide (s = "notes") then Some notes
  else if bool_decide (s = "journal") then Some journal
  else None.

Definition toy_time_Parse (s : string) : option Time :=
  if bool_decide (s = "1970-01-01T00:00:00Z") then Some 0 else None.

Definition henv : HandlerEnv :=
  mkHandlerEnv 7 (calm 6 110 111 112) (quiet 6 31).

(** The form of an upload to [notes], sent by [alice]. *)
Definition upload_form (path : string) (content : list Byte.byte)
  : http.Request :=
  http.mkRequest "" (Some alice_ctx) (λ _, "") (λ _, "")
    (Some (λ name, if bool_decide (name = "workspace_id") then "notes"
                   else if bool_decide (name = "file_path") then path
                   else ""))
    (http.FileBytes content) None.

(** A request of [alice] for the workspace named [id], with a JSON body
    that asks for a workspace called [more]. *)
Definition workspace_request (id : string) : http.Request :=
  http.mkRequest "" (Some alice_ctx)
    (λ name, if bool_decide (name = "id") then id else "") (λ _, "") None
    http.NoFile (Some (CreateWorkspaceRequest.mk "more")).

(** * Properties *)

(** ** Strings and extensions *)
Module GoStringsFacts.
Import GoStrings.

Lemma list_ascii_of_string_app (a b : string) :
  String.list_ascii_of_string (a +:+ b)
  = String.list_ascii_of_string a ++ String.list_ascii_of_string b.
Proof. induction a as [|c a IH]; simpl; [done | by rewrite IH]. Qed.

Lemma string_of_list_ascii_inj (l1 l2 : list ascii) :
  String.string_of_list_ascii l1 = String.string_of_list_ascii l2 → l1 = l2.
Proof.
  intros H. apply (f_equal String.list_ascii_of_string) in H.
  by rewrite !String.list_ascii_of_string_of_list_ascii in H.
Qed.

Lemma string_length_list (s : string) :
  String.length s = length (String.list_ascii_of_string s).
Proof. induction s; simpl; congruence. Qed.


Lemma lowerByte_slash (c : ascii) : lowerByte c = "/"%char → c = "/"%char.
Proof.
  destruct c as [[] [] [] [] [] [] [] []]; vm_compute; congruence.
Qed.









End GoStringsFacts.

(** ** Format detection *)
Section DetectFileFormatFacts.
Import GoStrings GoStringsFacts domain.
Variable T : Tables.





End DetectFileFormatFacts.


(** ** The statements of the store, one by one *)
Module QueriesFacts.
Import Queries.

(** The sum over a workspace splits at any of its rows. *)
Lemma actual_storage_used_delete fs k f ws :
  fs !! k = Some f →
  actual_storage_used fs ws
  = (if bool_decide (k.1 = ws) then File.SizeBytes f else 0)
    + actual_storage_used (delete k fs) ws.
Proof.
  intros Hk. unfold actual_storage_used.
  rewrite (map_fold_delete_L _ _ k f fs); [| | done].
  - case_bool_decide; lia.
  - intros. repeat case_bool_decide; lia.
Qed.

Lemma actual_storage_used_insert_None fs k f ws :
  fs !! k = None →
  actual_storage_used (<[k := f]> fs) ws
  = (if bool_decide (k.1 = ws) then File.SizeBytes f else 0)
    + actual_storage_used fs ws.
Proof.
  intros Hk. unfold actual_storage_used.
  rewrite map_fold_insert_L; [| | done].
  - case_bool_decide; lia.
  - intros. repeat case_bool_decide; lia.
Qed.

Lemma actual_storage_used_insert fs k f ws :
  actual_storage_used (<[k := f]> fs) ws
  = (if bool_decide (k.1 = ws) then File.SizeBytes f else 0)
    + actual_storage_used (delete k fs) ws.
Proof.
  rewrite <- insert_delete_eq.
  apply actual_storage_used_insert_None, lookup_delete_eq.
Qed.

Lemma actual_storage_used_empty ws : actual_storage_used ∅ ws = 0.
Proof. unfold actual_storage_used. by rewrite map_fold_empty. Qed.

(** The sum over a workspace splits at any key. *)
Lemma actual_storage_used_split fs k ws :
  actual_storage_used fs ws
  = (if bool_decide (k.1 = ws)
     then match fs !! k with Some f => File.SizeBytes f | None => 0 end
     else 0)
    + actual_storage_used (delete k fs) ws.
Proof.
  destruct (fs !! k) as [f|] eqn:Hk.
  - by apply actual_storage_used_delete.
  - rewrite delete_id by done. case_bool_decide; lia.
Qed.

(** Rows of size zero or more add up to zero or more. *)
Lemma actual_storage_used_nonneg fs ws :
  (∀ k f, fs !! k = Some f → k.1 = ws → 0 <= File.SizeBytes f) →
  0 <= actual_storage_used fs ws.
Proof.
  unfold actual_storage_used.
  induction fs as [|k f fs Hk Hfold IH] using map_first_key_ind; intros Hpos.
  - by rewrite map_fold_empty.
  - rewrite map_fold_insert_first_key by done.
    assert (0 <= map_fold
                    (λ k f acc, if bool_decide (k.1 = ws)
                                then File.SizeBytes f + acc else acc) 0 fs).
    { apply IH. intros k' f' Hk'. apply (Hpos k').
      rewrite lookup_insert_ne; [done | congruence]. }
    case_bool_decide as Hws; [| done].
    assert (0 <= File.SizeBytes f)
      by (apply (Hpos k); [apply lookup_insert_eq | done]).
    lia.
Qed.

(** A workspace without files has nothing to sum. *)
Lemma actual_storage_used_none fs ws :
  (∀ path, fs !! (ws, path) = None) → actual_storage_used fs ws = 0.
Proof.
  unfold actual_storage_used.
  induction fs as [|k f fs Hk Hfold IH] using map_first_key_ind; intros Hnone.
  - by rewrite map_fold_empty.
  - rewrite map_fold_insert_first_key by done.
    rewrite IH.
    + case_bool_decide as Hws; [| done]. exfalso.
      specialize (Hnone k.2). destruct k as [ws' path]. simpl in *. subst ws'.
      by rewrite lookup_insert_eq in Hnone.
    + intros path. specialize (Hnone path).
      destruct (decide (k = (ws, path))) as [-> | Hne]; [done |].
      by rewrite lookup_insert_ne in Hnone.
Qed.

End QueriesFacts.

(** ** Arithmetic on [int64] *)
Module Int64Facts.
Import Int64.

Lemma wrap_in_range (z : Z) : in_range z → wrap z = z.
Proof.
  unfold in_range, wrap, MinInt64, MaxInt64. intros H.
  rewrite Z.mod_small; lia.
Qed.


Lemma of_len_small {A} (l : list A) :
  Z.of_nat (length l) <= MaxInt64 → of_len l = Z.of_nat (length l).
Proof.
  intros H. apply wrap_in_range. unfold in_range, MinInt64, MaxInt64 in *. lia.
Qed.

End Int64Facts.

Module StatementFacts.
Import Queries.

Lemma GetWorkspaceByID_inr env st id w :
  GetWorkspaceByID env st id = inr w →
  fail_GetWorkspaceByID env = false ∧ workspaces st !! id = Some w.
Proof.
  unfold GetWorkspaceByID. destruct (fail_GetWorkspaceByID env); [done |].
  destruct (workspaces st !! id); naive_solver.
Qed.

Lemma GetWorkspaceByID_found env st id w :
  fail_GetWorkspaceByID env = false → workspaces st !! id = Some w →
  GetWorkspaceByID env st id = inr w.
Proof. unfold GetWorkspaceByID. by intros -> ->. Qed.

Lemma GetWorkspaceStorageUsage_inr env st id row :
  GetWorkspaceStorageUsage env st id = inr row →
  ∃ w, workspaces st !! id = Some w
       ∧ GetWorkspaceStorageUsageRow.StorageLimitBytes row
         = Workspace.StorageLimitBytes w
       ∧ GetWorkspaceStorageUsageRow.StorageUsedBytes row
         = Workspace.StorageUsedBytes w
       ∧ GetWorkspaceStorageUsageRow.ActualStorageUsed row
         = actual_storage_used (files st) id.
Proof.
  unfold GetWorkspaceStorageUsage.
  destruct (fail_GetWorkspaceStorageUsage env); [done |].
  destruct (workspaces st !! id) as [w|]; [| done].
  intros [= <-]. by exists w.
Qed.

Lemma GetFile_inr env st ws path f :
  GetFile env st ws path = inr f →
  fail_GetFile env = false ∧ files st !! (ws, path) = Some f.
Proof.
  unfold GetFile. destruct (fail_GetFile env); [done |].
  destruct (files st !! (ws, path)); naive_solver.
Qed.


Lemma Begin_inr env st tx : Begin env st = inr tx → tx = st.
Proof. unfold Begin. destruct (fail_Begin env); naive_solver. Qed.

Lemma Commit_inr env tx st : Commit env tx = inr st → st = tx.
Proof. unfold Commit. destruct (fail_Commit env); naive_solver. Qed.

Lemma CreateSyncOperation_inr env st arg st' op :
  CreateSyncOperation env st arg = inr (st', op) → audit_only st st'.
Proof.
  unfold CreateSyncOperation. repeat case_match; try done.
  by intros [= <- <-].
Qed.

Lemma UpdateSyncOperationStatus_audit env st id status msg :
  audit_only st
    (FileService.ignoring_error st
       (UpdateSyncOperationStatus env st id status msg)).
Proof.
  unfold UpdateSyncOperationStatus.
  by destruct (fail_UpdateSyncOperationStatus env).
Qed.

Lemma mark_failed_audit env st op err :
  audit_only st (FileService.mark_failed env st op err).
Proof. apply UpdateSyncOperationStatus_audit. Qed.

Lemma UpsertFile_inr env st arg st' file :
  UpsertFile env st arg = inr (st', file) →
  let k := (UpsertFileParams.WorkspaceID arg, UpsertFileParams.FilePath arg) in
  st' = set_files st (<[k := file]> (files st))
  ∧ File.ContentHash file = UpsertFileParams.ContentHash arg
  ∧ File.Content file = UpsertFileParams.Content arg
  ∧ File.SizeBytes file = UpsertFileParams.SizeBytes arg
  ∧ File.ID file = match files st !! k with
                   | Some old => File.ID old
                   | None => uuid_file env
                   end.
Proof.
  unfold UpsertFile. repeat case_match; try done; by intros [= <- <-].
Qed.

Lemma UpdateWorkspaceStorageUsed_inr env st id used st' :
  UpdateWorkspaceStorageUsed env st id used = inr st' →
  st' = set_workspaces st
          (alter (with_usage used (now env)) id (workspaces st)).
Proof.
  unfold UpdateWorkspaceStorageUsed.
  destruct (fail_UpdateWorkspaceStorageUsed env); naive_solver.
Qed.

(** A version insert whose error is dropped leaves every table but
    [file_versions] alone, appends at most the row asked for, and, unless the
    connection fails or the drawn identifier is taken, leaves a row with the
    number asked for in the history of a file that exists. *)
Lemma CreateFileVersion_ignoring_error env st arg :
  let st' := FileService.ignoring_error st (CreateFileVersion env st arg) in
  workspaces st' = workspaces st ∧ files st' = files st
  ∧ sync_operations st' = sync_operations st
  ∧ (file_versions st' = file_versions st
     ∨ file_versions st'
       = file_versions st ++
         [FileVersion.mk (uuid_file_version env)
            (CreateFileVersionParams.FileID arg)
            (CreateFileVersionParams.VersionNumber arg)
            (CreateFileVersionParams.ContentHash arg)
            (CreateFileVersionParams.Content arg) (Some (now env))])
  ∧ (fail_CreateFileVersion env = false →
     ¬ Exists (λ v, FileVersion.ID v = uuid_file_version env)
              (file_versions st) →
     map_Exists (λ _ f, File.ID f = CreateFileVersionParams.FileID arg)
                (files st) →
     Exists (λ v, FileVersion.FileID v = CreateFileVersionParams.FileID arg
                  ∧ FileVersion.VersionNumber v
                    = CreateFileVersionParams.VersionNumber arg)
            (file_versions st')).
Proof.
  unfold CreateFileVersion. repeat case_bool_decide; destruct
    (fail_CreateFileVersion env); simpl; repeat split; auto; try done.
  intros _ _ _. apply Exists_app. right. by constructor.
Qed.

End StatementFacts.

(** ** The upload pipeline, outcome by outcome *)
Section UploadFacts.
Import StatementFacts.
Variable T : Tables.


Lemma audit_only_refl st : audit_only st st.
Proof. by repeat split. Qed.

Lemma audit_only_trans st1 st2 st3 :
  audit_only st1 st2 → audit_only st2 st3 → audit_only st1 st3.
Proof. intros (? & ? & ?) (? & ? & ?). repeat split; congruence. Qed.

(** An upload that returns an error has changed the audit log at most. *)
Lemma UploadFile_inl env req userID st st' e :
  FileService.UploadFile T env req userID st = (st', inl e) →
  audit_only st st'.
Proof.
  unfold FileService.UploadFile. intros H.
  repeat (case_match; simplify_eq; try apply audit_only_refl).
  all: match goal with
       | H : Queries.CreateSyncOperation _ _ _ = inr _ |- _ =>
           apply CreateSyncOperation_inr in H
       end.
  all: try done.
  all: eapply audit_only_trans; [eassumption | apply mark_failed_audit].
Qed.

(** What a successful upload has done. *)
Lemma UploadFile_inr env req userID st st' info :
  FileService.UploadFile T env req userID st = (st', inr info) →
  let ws := FileUploadRequest.WorkspaceID req in
  let k := (ws, FileUploadRequest.FilePath req) in
  let content := FileUploadRequest.Content req in
  ∃ w file,
    fail_GetWorkspaceByID env = false
    ∧ workspaces st !! ws = Some w ∧ Workspace.UserID w = userID
    ∧ let newStorageUsage :=
        Int64.add
          (Int64.sub (pgconv.PgToInt64 (Workspace.StorageUsedBytes w))
             match Queries.GetFile env st ws (FileUploadRequest.FilePath req)
             with inr f => File.SizeBytes f | inl _ => 0 end)
          (Int64.of_len content) in
      newStorageUsage <= Workspace.StorageLimitBytes w
      ∧ workspaces st'
        = alter (Queries.with_usage (Some newStorageUsage) (now env)) ws
            (workspaces st)
    ∧ info = FileService.projection file
    ∧ File.Content file = content
    ∧ File.ContentHash file = Sprintf_x (sha256.Sum256 content)
    ∧ File.SizeBytes file = Int64.of_len content
    ∧ File.ID file = match files st !! k with
                     | Some old => File.ID old
                     | None => uuid_file env
                     end
    ∧ files st' = <[k := file]> (files st)
    ∧ (file_versions st' = file_versions st
       ∨ ∃ v, file_versions st' = file_versions st ++ [v]
              ∧ FileVersion.FileID v = File.ID file
              ∧ FileVersion.VersionNumber v = 1)
    ∧ (fail_CreateFileVersion env = false →
       ¬ Exists (λ v, FileVersion.ID v = uuid_file_version env)
                (file_versions st) →
       Exists (λ v, FileVersion.FileID v = File.ID file
                    ∧ FileVersion.VersionNumber v = 1)
              (file_versions st')).
Proof.
  intros H ws k content. unfold FileService.UploadFile in H.
  fold ws content in H.
  destruct (Queries.GetWorkspaceByID env st ws) as [|w] eqn:Hw; [done |].
  apply GetWorkspaceByID_inr in Hw as [Hfw Hw].
  case_bool_decide as Howner; [done |].
  destruct (Queries.GetWorkspaceStorageUsage env st ws) as [|row] eqn:Hrow;
    [done |].
  apply GetWorkspaceStorageUsage_inr in Hrow as (w' & Hw' & Hlimit & Hused & _).
  rewrite Hw in Hw'. injection Hw' as <-. rewrite Hlimit, Hused in H.
  case_bool_decide as Hquota; [done |].
  destruct (Queries.CreateSyncOperation env st _) as [|[st1 syncOp]] eqn:Hop;
    [done |].
  apply CreateSyncOperation_inr in Hop as (Hw1 & Hf1 & Hv1).
  destruct (Queries.Begin env st1) as [|tx] eqn:Htx; [done |].
  apply Begin_inr in Htx as ->.
  destruct (Queries.UpsertFile env st1 _) as [|[tx1 file]] eqn:Hup; [done |].
  apply UpsertFile_inr in Hup as (-> & Hhash & Hcontent & Hsize & Hid).
  simpl in Hhash, Hcontent, Hsize, Hid.
  destruct (Queries.UpdateWorkspaceStorageUsed env _ _ _) as [|tx2] eqn:Hupd;
    [done |].
  apply UpdateWorkspaceStorageUsed_inr in Hupd as ->.
  match type of H with
  | context [Queries.CreateFileVersion env ?s ?a] =>
      pose proof (CreateFileVersion_ignoring_error env s a) as Hcv;
      set (tx3 := FileService.ignoring_error s
                    (Queries.CreateFileVersion env s a)) in *
  end.
  simpl in Hcv. destruct Hcv as (Hw3 & Hf3 & _ & Hv3 & Hrow). clearbody tx3.
  destruct (Queries.Commit env tx3) as [|st2] eqn:Hc; [done |].
  apply Commit_inr in Hc as ->.
  match type of H with
  | (FileService.ignoring_error ?s ?r, _) = _ =>
      pose proof (UpdateSyncOperationStatus_audit env s
                    (SyncOperation.ID syncOp) "success" None)
        as (Hw4 & Hf4 & Hv4);
      set (st3 := FileService.ignoring_error s r) in *
  end.
  clearbody st3. injection H as <- <-.
  rewrite Hf1 in Hid, Hf3, Hrow. rewrite Hv1 in Hv3, Hrow.
  exists w, file. rewrite Hw4, Hf4, Hv4, Hw3, Hf3. simpl. rewrite Hw1.
  split_and!; try done.
  - destruct Hv3 as [-> | ->]; [by left | right]. eauto.
  - intros Hfault Hfresh. apply Hrow; [done | done |].
    exists k, file. split; [apply lookup_insert_eq | done].
Qed.
End UploadFacts.

(** ** Deletion, outcome by outcome *)
Module DeleteFacts.
Import StatementFacts.

(** A deletion that returns an error has changed nothing. *)
Lemma DeleteFile_Some env ws path userID st st' e :
  FileService.DeleteFile env ws path userID st = (st', Some e) → st' = st.
Proof.
  unfold FileService.DeleteFile. intros H.
  by repeat (case_match; simplify_eq).
Qed.

(** What a successful deletion has done. *)
Lemma DeleteFile_None env ws path userID st st' :
  FileService.DeleteFile env ws path userID st = (st', None) →
  ∃ w f,
    workspaces st !! ws = Some w ∧ Workspace.UserID w = userID
    ∧ files st !! (ws, path) = Some f
    ∧ files st' = delete (ws, path) (files st)
    ∧ workspaces st'
      = alter (Queries.with_usage
                 (Some (Int64.sub
                          (pgconv.PgToInt64 (Workspace.StorageUsedBytes w))
                          (File.SizeBytes f)))
                 (now env)) ws (workspaces st)
    ∧ file_versions st'
      = filter (λ v, FileVersion.FileID v ≠ File.ID f) (file_versions st).
Proof.
  unfold FileService.DeleteFile. intros H.
  destruct (Queries.GetWorkspaceByID env st ws) as [|w] eqn:Hw; [done |].
  apply GetWorkspaceByID_inr in Hw as [_ Hw].
  case_bool_decide as Howner; [done |].
  destruct (Queries.GetFile env st ws path) as [|f] eqn:Hf; [done |].
  apply GetFile_inr in Hf as [_ Hf].
  destruct (Queries.Begin env st) as [|tx] eqn:Htx; [done |].
  apply Begin_inr in Htx as ->.
  destruct (Queries.DeleteFile env st ws path) as [|tx1] eqn:Hdel; [done |].
  unfold Queries.DeleteFile in Hdel. rewrite Hf in Hdel.
  destruct (fail_DeleteFile env); [done |]. injection Hdel as <-.
  destruct (Queries.UpdateWorkspaceStorageUsed env _ _ _) as [|tx2] eqn:Hupd;
    [done |].
  apply UpdateWorkspaceStorageUsed_inr in Hupd as ->.
  destruct (Queries.Commit env _) as [|st1] eqn:Hc; [done |].
  apply Commit_inr in Hc as ->. injection H as <-.
  exists w, f. by split_and!.
Qed.

(** With the connection up, the owner's deletion of a stored file succeeds. *)
Lemma DeleteFile_succeeds env ws path userID st w f :
  fail_GetWorkspaceByID env = false → fail_GetFile env = false →
  fail_Begin env = false → fail_DeleteFile env = false →
  fail_UpdateWorkspaceStorageUsed env = false → fail_Commit env = false →
  workspaces st !! ws = Some w → Workspace.UserID w = userID →
  files st !! (ws, path) = Some f →
  (FileService.DeleteFile env ws path userID st).2 = None.
Proof.
  intros H1 H2 H3 H4 H5 H6 Hw Howner Hf.
  unfold FileService.DeleteFile, Queries.GetWorkspaceByID, Queries.GetFile,
    Queries.Begin, Queries.DeleteFile, Queries.UpdateWorkspaceStorageUsed,
    Queries.Commit.
  rewrite H1, H2, H3, H4, H5, H6, Hw, Hf.
  by rewrite bool_decide_eq_false_2 by (by intros ?).
Qed.

End DeleteFacts.

(** ** The claims about single requests *)
Section Requests.
Import StatementFacts DeleteFacts.
Variable T : Tables.


(** C3. An upload that the quota precheck rejects returns its error before
    the audit row is created and before the transaction is opened: the store
    it leaves behind is the store it found (files, usage, audit log and
    versions alike), and the outcome is the same whatever the creation of the
    audit row, the transaction or any later statement would have done. *)
Theorem UploadFile_quota_rejection_changes_nothing env req userID st
    need limit :
  (FileService.UploadFile T env req userID st).2
  = inl (storage_limit_exceeded need limit) →
  (FileService.UploadFile T env req userID st).1 = st
  ∧ ∀ env', fail_GetWorkspaceByID env' = fail_GetWorkspaceByID env →
            fail_GetWorkspaceStorageUsage env'
            = fail_GetWorkspaceStorageUsage env →
            fail_GetFile env' = fail_GetFile env →
            FileService.UploadFile T env' req userID st
            = (st, inl (storage_limit_exceeded need limit)).
Proof.
  unfold FileService.UploadFile, Queries.GetWorkspaceByID,
    Queries.GetWorkspaceStorageUsage, Queries.GetFile.
  intros H. split.
  - repeat (case_match; simplify_eq; simpl in *; try done).
  - intros env' -> -> ->.
    repeat (case_match; simplify_eq; simpl in *; try done).
Qed.

(** C4. A successful upload returns a [FileInfo] whose size is the byte
    length of the submitted content and whose content hash is the lower-case
    hexadecimal SHA-256 digest of the submitted bytes. *)
Theorem UploadFile_returns_size_and_digest env req userID st st' info :
  Z.of_nat (length (FileUploadRequest.Content req)) <= Int64.MaxInt64 →
  FileService.UploadFile T env req userID st = (st', inr info) →
  FileInfo.SizeBytes info = Z.of_nat (length (FileUploadRequest.Content req))
  ∧ FileInfo.ContentHash info
    = Sprintf_x (sha256.Sum256 (FileUploadRequest.Content req)).
Proof.
  intros Hlen H.
  apply UploadFile_inr in H
    as (w & file & _ & _ & _ & _ & _ & -> & _ & Hhash & Hsize & _).
  simpl. rewrite Hhash, Hsize. split; [| done].
  by apply Int64Facts.of_len_small.
Qed.

(** C5. Whatever a principal who does not own the workspace asks of it
    (upload, get, get with content, list, delete, at any path), the request
    is answered with an error and the store is left as it was; the error is
    [access_denied] whenever the workspace lookup itself goes through. *)
Theorem non_owner_is_denied env st ws w userID :
  workspaces st !! ws = Some w → Workspace.UserID w ≠ userID →
  (∀ req, FileUploadRequest.WorkspaceID req = ws →
     ∃ e, FileService.UploadFile T env req userID st = (st, inl e)
          ∧ (fail_GetWorkspaceByID env = false → e = access_denied))
  ∧ (∀ path,
     ∃ e, FileService.GetFile env ws path userID st = (st, inl e)
          ∧ (fail_GetWorkspaceByID env = false → e = access_denied))
  ∧ (∀ path,
     ∃ e, FileService.GetFileContent env ws path userID st = (st, inl e)
          ∧ (fail_GetWorkspaceByID env = false → e = access_denied))
  ∧ (∃ e, FileService.ListFiles env ws userID st = (st, inl e)
          ∧ (fail_GetWorkspaceByID env = false → e = access_denied))
  ∧ (∀ path,
     ∃ e, FileService.DeleteFile env ws path userID st = (st, Some e)
          ∧ (fail_GetWorkspaceByID env = false → e = access_denied)).
Proof.
  intros Hw Howner.
  unfold FileService.UploadFile, FileService.GetFile,
    FileService.GetFileContent, FileService.ListFiles,
    FileService.DeleteFile, Queries.GetWorkspaceByID.
  split_and!; [intros req -> | intros path | intros path | | intros path].
  all: rewrite Hw; destruct (fail_GetWorkspaceByID env);
    [eexists; split; [reflexivity | done] |].
  all: rewrite bool_decide_eq_true_2 by done; by eexists.
Qed.

(** C6. A deletion that succeeds found a file at the path; afterwards that
    row is gone, every other row is as before, and the workspace's accounted
    usage is what it was minus the size of the deleted file (in [int64]
    arithmetic, which is the plain difference whenever that is an [int64]). *)
Theorem DeleteFile_reverses_accounting env ws path userID st st' :
  FileService.DeleteFile env ws path userID st = (st', None) →
  ∃ w f,
    workspaces st !! ws = Some w ∧ files st !! (ws, path) = Some f
    ∧ files st' !! (ws, path) = None
    ∧ (∀ k, k ≠ (ws, path) → files st' !! k = files st !! k)
    ∧ let used_before := pgconv.PgToInt64 (Workspace.StorageUsedBytes w) in
      storage_used_bytes st' ws
      = Some (Int64.sub used_before (File.SizeBytes f))
      ∧ (Int64.in_range (used_before - File.SizeBytes f) →
         storage_used_bytes st' ws = Some (used_before - File.SizeBytes f)).
Proof.
  intros H. apply DeleteFile_None in H
    as (w & f & Hw & _ & Hf & Hfiles & Hws & _).
  exists w, f. rewrite Hfiles. split_and!; try done.
  - apply lookup_delete_eq.
  - intros k Hk. by apply lookup_delete_ne.
  - assert (storage_used_bytes st' ws
            = Some (Int64.sub (pgconv.PgToInt64 (Workspace.StorageUsedBytes w))
                      (File.SizeBytes f))) as Hused.
    { unfold storage_used_bytes. by rewrite Hws, lookup_alter_eq, Hw. }
    simpl. split; [done |]. intros Hrange. rewrite Hused.
    unfold Int64.sub. by rewrite Int64Facts.wrap_in_range.
Qed.

(** C8. The owner's deletion of a path at which the workspace stores no file
    is answered with [file_not_found], not with success, and changes
    nothing. *)
Theorem DeleteFile_of_missing_file env ws path userID st w :
  fail_GetWorkspaceByID env = false →
  workspaces st !! ws = Some w → Workspace.UserID w = userID →
  files st !! (ws, path) = None →
  ∃ cause,
    FileService.DeleteFile env ws path userID st
    = (st, Some (file_not_found cause))
    ∧ (fail_GetFile env = false → cause = ErrNoRows).
Proof.
  intros Hfault Hw Howner Hf.
  unfold FileService.DeleteFile, Queries.GetWorkspaceByID, Queries.GetFile.
  rewrite Hfault, Hw, Hf, bool_decide_eq_false_2 by (by intros ?).
  destruct (fail_GetFile env); by eexists.
Qed.
End Requests.

(** *** The single-request claims on the example installation *)

(** The upload that [stored] comes from returned [abc_info]. *)
Lemma stored_abc :
  UploadFile0 (calm 5 100 101 102) (upload "a.md" (bytes_of "abc")) alice
    (fresh 100)
  = (stored, inr abc_info).
Proof. vm_compute. reflexivity. Qed.

(** C3 at work: 200 bytes against a quota of 100. *)
Lemma UploadFile_quota_rejection_changes_nothing_witness :
  (UploadFile0 (calm 6 110 111 112) (upload "b.md" (blob 200)) alice stored).2
  = inl (storage_limit_exceeded 203 100)
  ∧ (UploadFile0 (calm 6 110 111 112) (upload "b.md" (blob 200)) alice
       stored).1 = stored.
Proof.
  assert ((UploadFile0 (calm 6 110 111 112) (upload "b.md" (blob 200)) alice
             stored).2 = inl (storage_limit_exceeded 203 100)) as H
    by (vm_compute; reflexivity).
  split; [exact H |].
  exact (proj1 (UploadFile_quota_rejection_changes_nothing
                  plain_tables (calm 6 110 111 112)
                  (upload "b.md" (blob 200)) alice stored 203 100 H)).
Defined.

(** C4 at work: the three bytes [abc]. *)
Lemma UploadFile_returns_size_and_digest_witness :
  FileInfo.SizeBytes abc_info = 3
  ∧ FileInfo.ContentHash abc_info
    = Sprintf_x (sha256.Sum256 (bytes_of "abc")).
Proof.
  apply (UploadFile_returns_size_and_digest plain_tables
           (calm 5 100 101 102) (upload "a.md" (bytes_of "abc")) alice
           (fresh 100) stored abc_info).
  - vm_compute. discriminate.
  - exact stored_abc.
Defined.

(** C5 at work: bob asks for, and tries to delete, alice's file. *)
Lemma non_owner_is_denied_witness :
  (∃ e, FileService.GetFileContent (calm 6 110 111 112) notes "a.md" bob
          stored
        = (stored, inl e)
        ∧ (fail_GetWorkspaceByID (calm 6 110 111 112) = false
           → e = access_denied))
  ∧ (∃ e, FileService.DeleteFile (calm 6 110 111 112) notes "a.md" bob
            stored
          = (stored, Some e)
          ∧ (fail_GetWorkspaceByID (calm 6 110 111 112) = false
             → e = access_denied)).
Proof.
  pose proof (non_owner_is_denied plain_tables
                (calm 6 110 111 112) stored notes (notes_row 100 3 5) bob)
    as H.
  destruct H as (_ & _ & Hget & _ & Hdel).
  - vm_compute. reflexivity.
  - vm_compute. discriminate.
  - split; [apply Hget | apply Hdel].
Defined.

(** C6 at work: alice deletes her three bytes. *)
Lemma DeleteFile_reverses_accounting_witness :
  storage_used_bytes stored notes = Some 3
  ∧ ∃ w f,
      workspaces stored !! notes = Some w
      ∧ files stored !! (notes, "a.md") = Some f
      ∧ files (FileService.DeleteFile (calm 6 110 111 112) notes "a.md" alice
                 stored).1 !! (notes, "a.md") = None
      ∧ (∀ k, k ≠ (notes, "a.md") →
           files (FileService.DeleteFile (calm 6 110 111 112) notes "a.md"
                    alice stored).1 !! k = files stored !! k)
      ∧ let used_before := pgconv.PgToInt64 (Workspace.StorageUsedBytes w) in
        storage_used_bytes
          (FileService.DeleteFile (calm 6 110 111 112) notes "a.md" alice
             stored).1 notes
        = Some (Int64.sub used_before (File.SizeBytes f))
        ∧ (Int64.in_range (used_before - File.SizeBytes f) →
           storage_used_bytes
             (FileService.DeleteFile (calm 6 110 111 112) notes "a.md" alice
                stored).1 notes
           = Some (used_before - File.SizeBytes f)).
Proof.
  split; [vm_compute; reflexivity |].
  apply (DeleteFile_reverses_accounting (calm 6 110 111 112) notes "a.md"
           alice stored).
  vm_compute. reflexivity.
Defined.

(** C8 at work: alice deletes a path she never wrote. *)
Lemma DeleteFile_of_missing_file_witness :
  ∃ cause,
    FileService.DeleteFile (calm 6 110 111 112) notes "nonexistent.txt" alice
      stored
    = (stored, Some (file_not_found cause))
    ∧ (fail_GetFile (calm 6 110 111 112) = false → cause = ErrNoRows).
Proof.
  apply (DeleteFile_of_missing_file (calm 6 110 111 112) notes
           "nonexistent.txt" alice stored (notes_row 100 3 5)).
  - reflexivity.
  - vm_compute. reflexivity.
  - reflexivity.
  - vm_compute. reflexivity.
Defined.

(** ** The claims about sequences of requests *)
Section Sequences.
Import StatementFacts DeleteFacts QueriesFacts.
Variable T : Tables.


(** [UpdateWorkspaceStorageUsed] keeps every workspace, its owner and its
    limit. *)
Lemma alter_with_usage_lookup used t ws (m : gmap N Workspace.t) ws' w :
  m !! ws' = Some w →
  ∃ w', alter (Queries.with_usage used t) ws m !! ws' = Some w'
        ∧ Workspace.UserID w' = Workspace.UserID w
        ∧ Workspace.StorageLimitBytes w' = Workspace.StorageLimitBytes w.
Proof.
  intros Hw. destruct (decide (ws = ws')) as [-> | Hne].
  - rewrite lookup_alter_eq, Hw. by eexists.
  - rewrite lookup_alter_ne by done. by exists w.
Qed.

(** Serving a request leaves every row of [files] it is not aimed at. *)
Lemma serve_frame env r st k :
  target r ≠ k → files (serve T env r st) !! k = files st !! k.
Proof.
  intros Hk. destruct r as [req userID | ws path userID]; simpl in *.
  - destruct (FileService.UploadFile T env req userID st)
      as [st' [e | info]] eqn:H; simpl.
    + apply UploadFile_inl in H as (_ & Hf & _). by rewrite Hf.
    + apply UploadFile_inr in H
        as (w & file & _ & _ & _ & _ & _ & _ & _ & _ & _ & _ & Hf & _).
      rewrite Hf. by apply lookup_insert_ne.
  - destruct (FileService.DeleteFile env ws path userID st)
      as [st' [e |]] eqn:H; simpl.
    + by apply DeleteFile_Some in H as ->.
    + apply DeleteFile_None in H as (w & f & _ & _ & _ & Hf & _).
      rewrite Hf. by apply lookup_delete_ne.
Qed.

(** Serving a request keeps every workspace, its owner and its limit. *)
Lemma serve_workspace env r st ws w :
  workspaces st !! ws = Some w →
  ∃ w', workspaces (serve T env r st) !! ws = Some w'
        ∧ Workspace.UserID w' = Workspace.UserID w
        ∧ Workspace.StorageLimitBytes w' = Workspace.StorageLimitBytes w.
Proof.
  intros Hw. destruct r as [req userID | ws0 path userID]; simpl in *.
  - destruct (FileService.UploadFile T env req userID st)
      as [st' [e | info]] eqn:H; simpl.
    + apply UploadFile_inl in H as (Hws & _). rewrite Hws. by exists w.
    + apply UploadFile_inr in H
        as (w0 & file & _ & _ & _ & _ & Hws & _).
      rewrite Hws. by apply alter_with_usage_lookup.
  - destruct (FileService.DeleteFile env ws0 path userID st)
      as [st' [e |]] eqn:H; simpl.
    + apply DeleteFile_Some in H as ->. by exists w.
    + apply DeleteFile_None in H as (w0 & f & _ & _ & _ & _ & Hws & _).
      rewrite Hws. by apply alter_with_usage_lookup.
Qed.

Lemma serve_all_cons env r rs st :
  serve_all T ((env, r) :: rs) st = serve_all T rs (serve T env r st).
Proof. reflexivity. Qed.

Lemma serve_all_frame rs st k :
  Forall (λ er : Env * request, target er.2 ≠ k) rs →
  files (serve_all T rs st) !! k = files st !! k.
Proof.
  revert st. induction rs as [|[env r] rs IH]; intros st Hrs; [done |].
  apply Forall_cons in Hrs as [Hr Hrs].
  rewrite serve_all_cons, IH by done. by apply serve_frame.
Qed.

Lemma serve_all_workspace rs st ws w :
  workspaces st !! ws = Some w →
  ∃ w', workspaces (serve_all T rs st) !! ws = Some w'
        ∧ Workspace.UserID w' = Workspace.UserID w
        ∧ Workspace.StorageLimitBytes w' = Workspace.StorageLimitBytes w.
Proof.
  revert st w. induction rs as [|[env r] rs IH]; intros st w Hw.
  - by exists w.
  - rewrite serve_all_cons.
    destruct (serve_workspace env r st ws w Hw) as (w1 & Hw1 & <- & <-).
    apply (IH _ _ Hw1).
Qed.

(** C10. Once an upload has succeeded, and as long as no later upload or
    deletion is aimed at the same path of the same workspace, the owner's
    [GetFileContent] for that path returns the uploaded bytes, byte for byte,
    under the very [FileInfo] the upload returned: the size is the number of
    bytes and the digest is their SHA-256. *)
Theorem upload_then_GetFileContent env req userID st st' info rs env' :
  let ws := FileUploadRequest.WorkspaceID req in
  let path := FileUploadRequest.FilePath req in
  let content := FileUploadRequest.Content req in
  Z.of_nat (length content) <= Int64.MaxInt64 →
  FileService.UploadFile T env req userID st = (st', inr info) →
  Forall (λ er : Env * request, target er.2 ≠ (ws, path)) rs →
  fail_GetWorkspaceByID env' = false → fail_GetFile env' = false →
  ∃ fwc,
    FileService.GetFileContent env' ws path userID (serve_all T rs st')
    = (serve_all T rs st', inr fwc)
    ∧ FileWithContent.Content fwc = content
    ∧ FileWithContent.FileInfo fwc = info
    ∧ FileInfo.SizeBytes (FileWithContent.FileInfo fwc)
      = Z.of_nat (length content)
    ∧ FileInfo.ContentHash (FileWithContent.FileInfo fwc)
      = Sprintf_x (sha256.Sum256 content).
Proof.
  intros ws path content Hlen Hup Hrs Hfw Hff.
  apply UploadFile_inr in Hup
    as (w & file & _ & Hw & Howner & _ & Hws & -> & Hcontent & Hhash & Hsize
        & _ & Hfiles & _).
  fold ws path content in Hw, Hws, Hcontent, Hhash, Hsize, Hfiles.
  assert (files (serve_all T rs st') !! (ws, path) = Some file) as Hfile.
  { rewrite serve_all_frame by done. rewrite Hfiles. apply lookup_insert_eq. }
  assert (∃ w1, workspaces st' !! ws = Some w1
                ∧ Workspace.UserID w1 = userID) as (w1 & Hw1 & Howner1).
  { rewrite Hws, lookup_alter_eq, Hw. by eexists. }
  destruct (serve_all_workspace rs st' ws w1 Hw1) as (w2 & Hw2 & Howner2 & _).
  exists (FileWithContent.mk (FileService.projection file) (File.Content file)).
  unfold FileService.GetFileContent, Queries.GetWorkspaceByID, Queries.GetFile.
  rewrite Hfw, Hff, Hw2, Hfile.
  rewrite bool_decide_eq_false_2 by (intros H; apply H; congruence).
  simpl. rewrite Hhash, Hsize. split_and!; try done.
  by apply Int64Facts.of_len_small.
Qed.

(** *** The quota invariant *)

(** The usage written by an upload or a deletion is accounted, whatever was
    there, when the arithmetic does not wrap. *)
Lemma accounting_alter st st' ws limit used env fs :
  accounting st ws limit →
  workspaces st' = alter (Queries.with_usage (Some used) (now env)) ws
                     (workspaces st) →
  files st' = fs →
  used = Queries.actual_storage_used fs ws →
  used <= Z.max 0 limit →
  (∀ k f, fs !! k = Some f → k.1 = ws → 0 <= File.SizeBytes f) →
  accounting st' ws limit.
Proof.
  intros ((w & Hw & Hlimit) & Hint & _) Hws Hfs Hused Hmax Hpos.
  unfold accounting, accounted, storage_used_bytes.
  rewrite Hws, Hfs, lookup_alter_eq, Hw. simpl. split_and!; try done.
  - by eexists.
  - by rewrite Hused.
  - by rewrite <- Hused.
Qed.

(** A write aimed at another workspace leaves the accounting of this one. *)
Lemma accounting_other st st' ws limit used t ws' fs path :
  accounting st ws limit → ws' ≠ ws →
  workspaces st' = alter (Queries.with_usage used t) ws' (workspaces st) →
  files st' = fs →
  (∀ k, k ≠ (ws', path) → fs !! k = files st !! k) →
  accounting st' ws limit.
Proof.
  intros (Hw & Hint & Hacc & Hmax & Hpos) Hne Hws Hfs Hframe.
  assert (Queries.actual_storage_used fs ws
          = Queries.actual_storage_used (files st) ws) as Hsum.
  { rewrite (actual_storage_used_split fs (ws', path)),
      (actual_storage_used_split (files st) (ws', path)).
    rewrite !bool_decide_eq_false_2 by done.
    f_equal. f_equal. apply map_eq. intros k.
    destruct (decide (k = (ws', path))) as [-> | Hk].
    - by rewrite !lookup_delete_eq.
    - rewrite !lookup_delete_ne by done. by apply Hframe. }
  unfold accounting, accounted, storage_used_bytes in *.
  rewrite Hws, Hfs, lookup_alter_ne, Hsum by done. split_and!; try done.
  intros k f Hk Hkws. apply (Hpos k); [| done].
  rewrite <- Hframe; [done |]. intros ->. by apply Hne.
Qed.

Lemma accounting_same st st' ws limit :
  accounting st ws limit → workspaces st' = workspaces st →
  files st' = files st → accounting st' ws limit.
Proof.
  unfold accounting, accounted, storage_used_bytes.
  by intros H -> ->.
Qed.

(** Serving one request that fits keeps the accounting. *)
Lemma serve_accounting env r st ws limit :
  fits ws limit (env, r) → accounting st ws limit →
  accounting (serve T env r st) ws limit.
Proof.
  intros Hfits Hacc.
  pose proof Hacc as ((w & Hw & Hlimit) & Hint & Hused & Hmax & Hpos).
  unfold accounted, storage_used_bytes in Hused. rewrite Hw in Hused.
  simpl in Hused.
  destruct r as [req userID | ws' path userID]; simpl in *.
  - destruct (FileService.UploadFile T env req userID st)
      as [st' [e | info]] eqn:H; simpl.
    { apply UploadFile_inl in H as (Hws & Hfs & _).
      by apply (accounting_same st). }
    apply UploadFile_inr in H
      as (w' & file & _ & Hw' & _ & Hquota & Hws & _ & _ & _ & Hsize & _
          & Hfs & _).
    set (ws' := FileUploadRequest.WorkspaceID req) in *.
    set (path := FileUploadRequest.FilePath req) in *.
    destruct (decide (ws' = ws)) as [Heq | Hne].
    2: { eapply (accounting_other st st' ws limit _ _ ws' _ path);
           [done | done | exact Hws | exact Hfs |].
         intros k Hk. by apply lookup_insert_ne. }
    unfold fits in Hfits. simpl in Hfits. destruct (Hfits Heq) as [Hff Hlen].
    rewrite Heq in *. rewrite Hw in Hw'. injection Hw' as <-.
    rewrite Hused, Hlimit in Hquota. rewrite Hused in Hws. simpl in Hquota, Hws.
    pose proof (actual_storage_used_split (files st) (ws, path) ws) as Hsplit.
    rewrite bool_decide_eq_true_2 in Hsplit by done.
    assert (match Queries.GetFile env st ws path with
            | inl _ => 0
            | inr f => File.SizeBytes f
            end
            = match files st !! (ws, path) with
              | Some f => File.SizeBytes f
              | None => 0
              end) as Hcur.
    { unfold Queries.GetFile. rewrite Hff.
      by destruct (files st !! (ws, path)). }
    rewrite Hcur in Hquota, Hws.
    set (cur := match files st !! (ws, path) with
                | Some f => File.SizeBytes f
                | None => 0
                end) in *.
    set (rest := Queries.actual_storage_used (delete (ws, path) (files st)) ws)
      in *.
    assert (0 <= rest).
    { apply actual_storage_used_nonneg. intros k f Hk Hkws.
      apply lookup_delete_Some in Hk as [_ Hk]. by apply (Hpos k). }
    assert (0 <= cur).
    { unfold cur. destruct (files st !! (ws, path)) as [f|] eqn:Hf; [| done].
      by apply (Hpos (ws, path)). }
    assert (Int64.of_len (FileUploadRequest.Content req)
            = Z.of_nat (length (FileUploadRequest.Content req))) as Hof.
    { apply Int64Facts.of_len_small. lia. }
    rewrite Hof in Hquota, Hws, Hsize.
    set (n := Z.of_nat (length (FileUploadRequest.Content req))) in *.
    assert (Int64.add (Int64.sub (Queries.actual_storage_used (files st) ws)
                         cur) n = rest + n) as Hnew.
    { unfold Int64.add, Int64.sub. rewrite Hsplit.
      replace (cur + rest - cur) with rest by lia.
      rewrite (Int64Facts.wrap_in_range rest)
        by (unfold Int64.in_range, Int64.MinInt64, Int64.MaxInt64 in *; lia).
      apply Int64Facts.wrap_in_range.
      unfold Int64.in_range, Int64.MinInt64, Int64.MaxInt64 in *. lia. }
    rewrite Hnew in Hquota, Hws.
    eapply (accounting_alter st st' ws limit);
      [done | exact Hws | exact Hfs | | |].
    + rewrite actual_storage_used_insert, bool_decide_eq_true_2 by done.
      rewrite Hsize. fold rest. lia.
    + lia.
    + intros k f Hk Hkws.
      destruct (decide (k = (ws, path))) as [-> | Hk'].
      * rewrite lookup_insert_eq in Hk. injection Hk as <-. rewrite Hsize.
        unfold n. lia.
      * rewrite lookup_insert_ne in Hk by done. by apply (Hpos k).
  - destruct (FileService.DeleteFile env ws' path userID st)
      as [st' [e |]] eqn:H; simpl.
    { by apply DeleteFile_Some in H as ->. }
    apply DeleteFile_None in H as (w' & f & Hw' & _ & Hf & Hfs & Hws & _).
    destruct (decide (ws' = ws)) as [Heq | Hne].
    2: { eapply (accounting_other st st' ws limit _ _ ws' _ path);
           [done | done | exact Hws | exact Hfs |].
         intros k Hk. by apply lookup_delete_ne. }
    rewrite Heq in *. rewrite Hw in Hw'. injection Hw' as <-.
    rewrite Hused in Hws. simpl in Hws.
    pose proof (actual_storage_used_delete (files st) (ws, path) f ws Hf)
      as Hsplit.
    rewrite bool_decide_eq_true_2 in Hsplit by done.
    set (rest := Queries.actual_storage_used (delete (ws, path) (files st)) ws)
      in *.
    assert (0 <= rest).
    { apply actual_storage_used_nonneg. intros k f' Hk Hkws.
      apply lookup_delete_Some in Hk as [_ Hk]. by apply (Hpos k). }
    assert (0 <= File.SizeBytes f) by by apply (Hpos (ws, path)).
    assert (Int64.sub (Queries.actual_storage_used (files st) ws)
              (File.SizeBytes f) = rest) as Hnew.
    { unfold Int64.sub. rewrite Hsplit.
      replace (File.SizeBytes f + rest - File.SizeBytes f) with rest by lia.
      apply Int64Facts.wrap_in_range.
      unfold Int64.in_range, Int64.MinInt64, Int64.MaxInt64 in *. lia. }
    rewrite Hnew in Hws.
    eapply (accounting_alter st st' ws limit);
      [done | exact Hws | exact Hfs | | |].
    + done.
    + lia.
    + intros k f' Hk Hkws.
      apply lookup_delete_Some in Hk as [_ Hk]. by apply (Hpos k).
Qed.

Lemma serve_all_accounting rs st ws limit :
  Forall (fits ws limit) rs → accounting st ws limit →
  accounting (serve_all T rs st) ws limit.
Proof.
  revert st. induction rs as [|[env r] rs IH]; intros st Hrs Hacc; [done |].
  apply Forall_cons in Hrs as [Hr Hrs]. rewrite serve_all_cons.
  apply IH; [done |]. by apply serve_accounting.
Qed.


(** *** The version history *)



End Sequences.

(** ** The quota precheck *)
Section Quota.
Import StatementFacts.
Variable T : Tables.


(** What the precheck computes is the formula of the specification, as long
    as neither the subtraction nor the addition leaves [int64]. *)
Lemma newStorageUsage_projected env st ws path used
    (content : list Byte.byte) :
  fail_GetFile env = false →
  let existing := existing_size st (ws, path) in
  let incoming := Z.of_nat (length content) in
  Int64.in_range incoming →
  Int64.in_range (used - existing) →
  Int64.in_range (used - existing + incoming) →
  Int64.add
    (Int64.sub used
       match Queries.GetFile env st ws path with
       | inr existingFile => File.SizeBytes existingFile
       | inl _ => 0
       end)
    (Int64.of_len content)
  = projected used existing incoming.
Proof.
  intros Hff existing incoming Hin Hsub Hadd.
  assert (match Queries.GetFile env st ws path with
          | inr existingFile => File.SizeBytes existingFile
          | inl _ => 0
          end = existing) as ->.
  { unfold Queries.GetFile, existing, existing_size. rewrite Hff.
    by destruct (files st !! (ws, path)). }
  unfold Int64.add, Int64.sub, Int64.of_len, projected. fold incoming.
  by rewrite (Int64Facts.wrap_in_range incoming),
    (Int64Facts.wrap_in_range (used - existing)), Int64Facts.wrap_in_range.
Qed.

(** With the connection up and unused identifiers drawn, the owner's upload
    within the quota succeeds. *)
Lemma UploadFile_succeeds t u1 u2 u3 req userID st w :
  let env := calm t u1 u2 u3 in
  let ws := FileUploadRequest.WorkspaceID req in
  let path := FileUploadRequest.FilePath req in
  let used := pgconv.PgToInt64 (Workspace.StorageUsedBytes w) in
  let existing := existing_size st (ws, path) in
  let incoming := Z.of_nat (length (FileUploadRequest.Content req)) in
  workspaces st !! ws = Some w → Workspace.UserID w = userID →
  Int64.in_range incoming →
  Int64.in_range (used - existing) →
  Int64.in_range (used - existing + incoming) →
  projected used existing incoming <= Workspace.StorageLimitBytes w →
  ¬ Exists (λ o, SyncOperation.ID o = u1) (sync_operations st) →
  ¬ map_Exists (λ _ f, File.ID f = u2) (files st) →
  ∃ st' info, FileService.UploadFile T env req userID st = (st', inr info).
Proof.
  intros env ws path used existing incoming Hw Howner Hin Hsub Hadd Hfit
    Hop Hfile.
  pose proof (newStorageUsage_projected env st ws path used
                (FileUploadRequest.Content req) eq_refl Hin Hsub Hadd) as Hnew.
  fold existing incoming in Hnew.
  unfold FileService.UploadFile, Queries.GetWorkspaceByID,
    Queries.GetWorkspaceStorageUsage.
  fold ws path. simpl. rewrite Hw. simpl.
  rewrite bool_decide_eq_false_2 by (by intros ?).
  fold used. rewrite Hnew. rewrite bool_decide_eq_false_2 by lia.
  unfold Queries.CreateSyncOperation. simpl. fold ws.
  rewrite bool_decide_eq_false_2 by (by rewrite Hw).
  rewrite bool_decide_eq_false_2 by done. simpl.
  unfold Queries.UpsertFile. simpl. fold ws path.
  destruct (files st !! (ws, path)) as [old|] eqn:Hold; simpl.
  - by eexists _, _.
  - rewrite bool_decide_eq_false_2 by (by rewrite Hw).
    rewrite bool_decide_eq_false_2 by done. by eexists _, _.
Qed.
End Quota.

(** *** The remaining claims on the example installation *)




(** C10 at work: [abc] comes back from [a.md] after writes elsewhere. *)
Lemma upload_then_GetFileContent_witness :
  ∃ fwc,
    FileService.GetFileContent (calm 8 130 131 132) notes "a.md" alice
      (serve_all plain_tables elsewhere stored)
    = (serve_all plain_tables elsewhere stored, inr fwc)
    ∧ FileWithContent.Content fwc = bytes_of "abc"
    ∧ FileWithContent.FileInfo fwc = abc_info
    ∧ FileInfo.SizeBytes (FileWithContent.FileInfo fwc) = 3
    ∧ FileInfo.ContentHash (FileWithContent.FileInfo fwc)
      = Sprintf_x (sha256.Sum256 (bytes_of "abc")).
Proof.
  apply (upload_then_GetFileContent plain_tables
           (calm 5 100 101 102) (upload "a.md" (bytes_of "abc")) alice
           (fresh 100) stored abc_info elsewhere (calm 8 130 131 132)).
  - vm_compute. discriminate.
  - exact stored_abc.
  - repeat constructor; discriminate.
  - reflexivity.
  - reflexivity.
Defined.

(** ** The embedding against known answers *)

(** The test vectors of FIPS 180-4 for SHA-256, through [%x]. *)
Lemma Sum256_abc :
  Sprintf_x (sha256.Sum256 (bytes_of "abc"))
  = "ba7816bf8f01cfea414140de5dae2223b00361a396177a9cb410ff61f20015ad".
Proof. vm_compute. reflexivity. Qed.

Lemma Sum256_empty :
  Sprintf_x (sha256.Sum256 [])
  = "e3b0c44298fc1c149afbf4c8996fb92427ae41e4649b934ca495991b7852b855".
Proof. vm_compute. reflexivity. Qed.

Lemma Sum256_two_blocks :
  Sprintf_x
    (sha256.Sum256
       (bytes_of "abcdbcdecdefdefgefghfghighijhijkijkljklmklmnlmnomnopnopq"))
  = "248d6a61d20638b8e5c026930c3e6039a33ce45964ff2167f6ecedd419db06c1".
Proof. vm_compute. reflexivity. Qed.

(** [filepath.Ext] on a few paths. *)
Lemma Ext_examples :
  GoStrings.Ext "note.md" = ".md" ∧ GoStrings.Ext "a.b/c" = ""
  ∧ GoStrings.Ext "dir/archive.tar.gz" = ".gz" ∧ GoStrings.Ext ".md" = ".md"
  ∧ GoStrings.Ext "README" = "" ∧ GoStrings.Ext "trailing." = ".".
Proof. vm_compute. done. Qed.

(** The cases of [file_service_test.go], on the free-tier workspace of its
    fixtures: an upload returns the path, the size and the media type. *)
Lemma test_UploadFile_successful :
  returns
    (UploadFile0 (calm 5 100 101 102)
       (upload "test.md" (bytes_of "# Test Note")) alice (fresh free_tier))
    (λ fileInfo,
       FileInfo.WorkspaceID fileInfo = notes
       ∧ FileInfo.FilePath fileInfo = "test.md"
       ∧ FileInfo.SizeBytes fileInfo = 11
       ∧ FileInfo.MimeType fileInfo = "text/markdown").
Proof. vm_compute. done. Qed.

(** A listing is empty before the first upload and has one entry after. *)
Lemma test_ListFiles :
  returns (FileService.ListFiles (calm 5 100 101 102) notes alice
             (fresh free_tier)) (λ files, files = [])
  ∧ returns
      (FileService.ListFiles (calm 6 110 111 112) notes alice
         (UploadFile0 (calm 5 100 101 102)
            (upload "test.txt" (bytes_of "test content")) alice
            (fresh free_tier)).1)
      (λ files, FileInfo.FilePath <$> files = ["test.txt"]).
Proof. vm_compute. done. Qed.

(** A file that was never uploaded is not found; one that was is found by
    its owner and denied to anybody else. *)
Lemma test_GetFile :
  (FileService.GetFile (calm 6 110 111 112) notes "nonexistent.txt" alice
     stored).2 = inl (file_not_found ErrNoRows)
  ∧ returns
      (FileService.GetFile (calm 6 110 111 112) notes "a.md" alice stored)
      (λ fileInfo, FileInfo.SizeBytes fileInfo = 3)
  ∧ (FileService.GetFile (calm 6 110 111 112) notes "a.md" bob stored).2
    = inl access_denied
  ∧ Error access_denied
    = "access denied: workspace belongs to different user".
Proof. vm_compute. done. Qed.

(** The content read back is the content uploaded. *)
Lemma test_GetFileContent :
  returns
    (FileService.GetFileContent (calm 6 110 111 112) notes "a.md" alice stored)
    (λ fileContent, FileWithContent.Content fileContent = bytes_of "abc")
  ∧ (FileService.GetFileContent (calm 6 110 111 112) notes "a.md" bob
       stored).2 = inl access_denied.
Proof. vm_compute. done. Qed.

(** A deleted file is not found afterwards; a stranger's deletion is denied
    and leaves the file to its owner. *)
Lemma test_DeleteFile :
  (FileService.DeleteFile (calm 6 110 111 112) notes "nonexistent.txt" alice
     stored).2 = Some (file_not_found ErrNoRows)
  ∧ (FileService.DeleteFile (calm 6 110 111 112) notes "a.md" alice stored).2
    = None
  ∧ (FileService.GetFile (calm 7 120 121 122) notes "a.md" alice
       (FileService.DeleteFile (calm 6 110 111 112) notes "a.md" alice
          stored).1).2 = inl (file_not_found ErrNoRows)
  ∧ FileService.DeleteFile (calm 6 110 111 112) notes "a.md" bob stored
    = (stored, Some access_denied).
Proof. vm_compute. done. Qed.

(** The media types of the upload pipeline. *)
Lemma test_detectMimeType :
  detectMimeType plain_tables "a.MD" [] = "text/markdown"
  ∧ detectMimeType plain_tables "a.org" [] = "text/org"
  ∧ detectMimeType plain_tables "a.txt" [] = "text/plain"
  ∧ detectMimeType plain_tables "a.bin" [] = "text/plain"
  ∧ detectMimeType (mkTables (λ s, s) (λ _, "application/json")) "a.json" []
    = "application/json".
Proof. vm_compute. done. Qed.

(** ** Two remarks on the hypotheses above *)

(** The upload reads any error of its lookup of the stored file as "no file".
    When that lookup fails on an overwrite, the old size is not subtracted
    and the accounted usage leaves the sum of the sizes: here 8 against 5. *)
Lemma lookup_failure_counts_twice :
  let st := (UploadFile0 (lookup_down 6 110 111 112)
               (upload "a.md" (bytes_of "abcde")) alice stored).1 in
  storage_used_bytes st notes = Some 8
  ∧ Queries.actual_storage_used (files st) notes = 5
  ∧ ¬ accounted st notes.
Proof. vm_compute. split_and!; [done | done | discriminate]. Qed.

(** A second upload to a path asks again for version 1 of the same file; the
    table's [UNIQUE(file_id, version_number)] refuses the row, the error is
    dropped, and the history keeps the first upload's snapshot. *)
Lemma second_upload_adds_no_version :
  file_versions (serve_all plain_tables again stored) = file_versions stored
  ∧ (FileVersion.Content
       <$> file_versions (serve_all plain_tables again stored))
    = [bytes_of "abc"]
  ∧ (File.Content <$> files (serve_all plain_tables again stored)
                        !! (notes, "a.md"))
    = Some (bytes_of "XY").
Proof. vm_compute. done. Qed.

(** * Further properties of the code *)

(** ** The file service beyond the claims *)
Section FileServiceMore.
Import StatementFacts DeleteFacts QueriesFacts.
Variable T : Tables.

(** A workspace that has just been created is accounted. *)
Lemma fresh_workspace_accounting st0 ws w :
  workspaces st0 !! ws = Some w →
  Workspace.StorageUsedBytes w = Some 0 →
  Workspace.StorageLimitBytes w <= Int64.MaxInt64 →
  (∀ path, files st0 !! (ws, path) = None) →
  accounting st0 ws (Workspace.StorageLimitBytes w).
Proof.
  intros Hw Hused Hint Hnone.
  pose proof (actual_storage_used_none (files st0) ws Hnone) as Hsum.
  unfold accounting, accounted, storage_used_bytes.
  rewrite Hw, Hsum. simpl. split_and!; try done.
  - by eexists.
  - lia.
  - intros [ws' path] f Hf. simpl. intros ->. by rewrite Hnone in Hf.
Qed.

(** X1. From its creation on, whatever uploads and deletions are served, the
    accounted usage of a workspace stays between zero and its limit (zero
    when the limit is negative), under the same conditions on the requests
    as for the quota invariant. *)
Theorem quota_is_never_exceeded ws w st0 rs :
  workspaces st0 !! ws = Some w →
  Workspace.StorageUsedBytes w = Some 0 →
  Workspace.StorageLimitBytes w <= Int64.MaxInt64 →
  (∀ path, files st0 !! (ws, path) = None) →
  Forall (fits ws (Workspace.StorageLimitBytes w)) rs →
  ∀ n, ∃ used,
    storage_used_bytes (serve_all T (take n rs) st0) ws = Some used
    ∧ 0 <= used <= Z.max 0 (Workspace.StorageLimitBytes w).
Proof.
  intros Hw Hused Hint Hnone Hrs n.
  pose proof (fresh_workspace_accounting st0 ws w Hw Hused Hint Hnone) as Hacc.
  apply (serve_all_accounting T (take n rs)) in Hacc; [| by apply Forall_take].
  destruct Hacc as (_ & _ & Hacc & Hmax & Hpos).
  eexists. split; [exact Hacc |]. split; [| done].
  by apply actual_storage_used_nonneg.
Qed.

(** Serving a request leaves the row of every workspace it is not aimed
    at. *)
Lemma serve_other_workspace env r st ws :
  (target r).1 ≠ ws →
  workspaces (serve T env r st) !! ws = workspaces st !! ws.
Proof.
  intros Hne. destruct r as [req userID | ws' path userID]; simpl in *.
  - destruct (FileService.UploadFile T env req userID st)
      as [st' [e | info]] eqn:H; simpl.
    + apply UploadFile_inl in H as (Hws & _). by rewrite Hws.
    + apply UploadFile_inr in H as (w0 & file & _ & _ & _ & _ & Hws & _).
      rewrite Hws. by apply lookup_alter_ne.
  - destruct (FileService.DeleteFile env ws' path userID st)
      as [st' [e |]] eqn:H; simpl.
    + by apply DeleteFile_Some in H as ->.
    + apply DeleteFile_None in H as (w0 & f & _ & _ & _ & _ & Hws & _).
      rewrite Hws. by apply lookup_alter_ne.
Qed.

(** X2. Uploads and deletions aimed at other workspaces, however many and by
    whomever, leave a workspace's row (owner, limit, accounted usage,
    timestamps) and every one of its files exactly as they were. *)
Theorem other_workspaces_are_untouched rs st ws :
  Forall (λ er : Env * request, (target er.2).1 ≠ ws) rs →
  workspaces (serve_all T rs st) !! ws = workspaces st !! ws
  ∧ ∀ path, files (serve_all T rs st) !! (ws, path) = files st !! (ws, path).
Proof.
  revert st. induction rs as [|[env r] rs IH]; intros st Hrs; [done |].
  apply Forall_cons in Hrs as [Hr Hrs]. rewrite serve_all_cons.
  destruct (IH (serve T env r st) Hrs) as [Hws Hfs]. split.
  - rewrite Hws. by apply serve_other_workspace.
  - intros path. rewrite Hfs. apply serve_frame.
    intros Heq. apply Hr. simpl. by rewrite Heq.
Qed.

(** X3. An upload that returns an error has changed neither a file, nor a
    version, nor a workspace row: the transaction is rolled back on every
    path.  Unless the error comes after the audit row was opened, the store
    is the one the upload found. *)
Theorem failed_upload_keeps_the_data env req userID st st' e :
  FileService.UploadFile T env req userID st = (st', inl e) →
  workspaces st' = workspaces st ∧ files st' = files st
  ∧ file_versions st' = file_versions st
  ∧ (after_audit_open e = false → st' = st).
Proof.
  intros H. pose proof (UploadFile_inl T env req userID st st' e H)
    as (Hws & Hfs & Hvs).
  split_and!; try done.
  revert H. unfold FileService.UploadFile. intros H Hearly.
  by repeat (case_match; simplify_eq).
Qed.


(** The row an upsert writes. *)
Lemma UpsertFile_row env st arg st' file :
  Queries.UpsertFile env st arg = inr (st', file) →
  let k := (Queries.UpsertFileParams.WorkspaceID arg,
            Queries.UpsertFileParams.FilePath arg) in
  match files st !! k with
  | Some old =>
      File.ID file = File.ID old ∧ File.CreatedAt file = File.CreatedAt old
      ∧ File.WorkspaceID file = File.WorkspaceID old
      ∧ File.FilePath file = File.FilePath old
  | None =>
      File.ID file = uuid_file env ∧ File.CreatedAt file = Some (now env)
      ∧ File.WorkspaceID file = k.1 ∧ File.FilePath file = k.2
      ∧ ¬ map_Exists (λ _ f, File.ID f = uuid_file env) (files st)
  end
  ∧ File.UpdatedAt file = Some (now env)
  ∧ File.LastModified file = Queries.UpsertFileParams.LastModified arg
  ∧ File.MimeType file = Queries.UpsertFileParams.MimeType arg.
Proof.
  intros H k. unfold Queries.UpsertFile in H. fold k in H.
  destruct (fail_UpsertFile env); [done |].
  destruct (files st !! k) as [old|].
  - by injection H as <- <-.
  - repeat case_bool_decide; try done. by injection H as <- <-.
Qed.

(** The statements a successful upload has run, with their results. *)
Lemma UploadFile_steps env req userID st st' info :
  FileService.UploadFile T env req userID st = (st', inr info) →
  let ws := FileUploadRequest.WorkspaceID req in
  let k := (ws, FileUploadRequest.FilePath req) in
  let content := FileUploadRequest.Content req in
  ∃ st1 file used,
    audit_only st st1
    ∧ Queries.UpsertFile env st1
        (Queries.UpsertFileParams.mk ws (FileUploadRequest.FilePath req)
           (Sprintf_x (sha256.Sum256 content)) content (Int64.of_len content)
           (Some (detectMimeType T (FileUploadRequest.FilePath req) content))
           (Some (FileUploadRequest.LastModified req)))
      = inr (Queries.set_files st1 (<[k := file]> (files st1)), file)
    ∧ info = FileService.projection file
    ∧ files st' = <[k := file]> (files st)
    ∧ let tx2 :=
        Queries.set_workspaces
          (Queries.set_files st1 (<[k := file]> (files st1)))
          (alter (Queries.with_usage used (now env)) ws (workspaces st1)) in
      file_versions st'
      = file_versions
          (FileService.ignoring_error tx2
             (Queries.CreateFileVersion env tx2
                (Queries.CreateFileVersionParams.mk (File.ID file) 1
                   (Sprintf_x (sha256.Sum256 content)) content))).
Proof.
  intros H ws k content. unfold FileService.UploadFile in H.
  fold ws content in H.
  destruct (Queries.GetWorkspaceByID env st ws) as [|w]; [done |].
  case_bool_decide; [done |].
  destruct (Queries.GetWorkspaceStorageUsage env st ws) as [|row]; [done |].
  case_bool_decide; [done |].
  destruct (Queries.CreateSyncOperation env st _) as [|[st1 syncOp]] eqn:Hop;
    [done |].
  apply CreateSyncOperation_inr in Hop.
  destruct (Queries.Begin env st1) as [|tx] eqn:Htx; [done |].
  apply Begin_inr in Htx as ->.
  destruct (Queries.UpsertFile env st1 _) as [|[tx1 file]] eqn:Hup; [done |].
  pose proof Hup as Hup'. apply UpsertFile_inr in Hup' as (-> & _).
  destruct (Queries.UpdateWorkspaceStorageUsed env _ _ _) as [|tx2] eqn:Hupd;
    [done |].
  apply UpdateWorkspaceStorageUsed_inr in Hupd as ->.
  match type of H with
  | context [Queries.CreateFileVersion env ?s ?a] =>
      pose proof (CreateFileVersion_ignoring_error env s a) as Hcv;
      set (tx3 := FileService.ignoring_error s
                    (Queries.CreateFileVersion env s a)) in *
  end.
  simpl in Hcv. destruct Hcv as (_ & Hf3 & _).
  destruct (Queries.Commit env tx3) as [|st2] eqn:Hc; [done |].
  apply Commit_inr in Hc as ->.
  match type of H with
  | (FileService.ignoring_error ?s ?r, _) = _ =>
      pose proof (UpdateSyncOperationStatus_audit env s
                    (SyncOperation.ID syncOp) "success" None)
        as (_ & Hf4 & Hv4)
  end.
  injection H as <- <-. eexists st1, file, _.
  split_and!; [done | exact Hup | done | |].
  - rewrite Hf4, Hf3. destruct Hop as (_ & -> & _). done.
  - simpl. rewrite Hv4. done.
Qed.




(** The file a successful upload has written, with where its identifier
    comes from. *)
Lemma UploadFile_file env req userID st st' info :
  FileService.UploadFile T env req userID st = (st', inr info) →
  let k := (FileUploadRequest.WorkspaceID req, FileUploadRequest.FilePath req)
  in
  ∃ file,
    files st' = <[k := file]> (files st)
    ∧ info = FileService.projection file
    ∧ match files st !! k with
      | Some old => File.ID file = File.ID old
      | None => File.ID file = uuid_file env
                ∧ ¬ map_Exists (λ _ f, File.ID f = uuid_file env) (files st)
      end
    ∧ (file_versions st' = file_versions st
       ∨ ∃ v, file_versions st' = file_versions st ++ [v]
              ∧ FileVersion.FileID v = File.ID file).
Proof.
  intros H k.
  pose proof (UploadFile_inr T env req userID st st' info H) as Hx.
  cbv zeta in Hx. fold k in Hx.
  destruct Hx as (_ & file0 & _ & _ & _ & _ & _ & Hinfo0 & _ & _ & _ & _ & Hfs0
                  & Hvs & _).
  apply UploadFile_steps in H
    as (st1 & file & used & (_ & Hfs1 & _) & Hup & Hinfo & Hfs & _).
  fold k in Hfs, Hup.
  assert (file0 = file) as ->.
  { assert (<[k := file0]> (files st) !! k = <[k := file]> (files st) !! k)
      as Heq by (by rewrite <- Hfs0, <- Hfs).
    rewrite !lookup_insert_eq in Heq. by injection Heq. }
  apply UpsertFile_row in Hup as (Hrow & _). simpl in Hrow. fold k in Hrow.
  rewrite Hfs1 in Hrow. exists file. split_and!; try done.
  - destruct (files st !! k) as [old|].
    + by destruct Hrow as (? & _).
    + by destruct Hrow as (? & _ & _ & _ & ?).
  - destruct Hvs as [? | (v & ? & ? & _)]; [by left | right; by exists v].
Qed.

(** The constraints of the schema are kept by every request. *)
Lemma serve_constraints env r st :
  unique_ids (files st) → versions_have_files st →
  unique_ids (files (serve T env r st))
  ∧ versions_have_files (serve T env r st).
Proof.
  intros Huniq Hfk. destruct r as [req userID | ws path userID]; simpl.
  - destruct (FileService.UploadFile T env req userID st)
      as [st' [e | info]] eqn:H; simpl.
    + apply UploadFile_inl in H as (_ & Hfs & Hvs).
      unfold versions_have_files. by rewrite Hfs, Hvs.
    + apply UploadFile_file in H as (file & Hfs & _ & Hid & Hvs).
      set (k := (FileUploadRequest.WorkspaceID req,
                 FileUploadRequest.FilePath req)) in *.
      assert (∀ k' f', files st !! k' = Some f' → File.ID f' = File.ID file →
                       k' = k) as Hkey.
      { intros k' f' Hf' Heq. destruct (files st !! k) as [old|] eqn:Hold.
        - apply (Huniq k' k f' old); [done | done | congruence].
        - destruct Hid as [Hid Hnew]. exfalso. apply Hnew.
          exists k', f'. split; [done | congruence]. }
      split.
      * intros k1 k2 f1 f2. rewrite Hfs.
        destruct (decide (k1 = k)) as [-> | Hk1];
          destruct (decide (k2 = k)) as [-> | Hk2]; try done.
        -- rewrite lookup_insert_eq, lookup_insert_ne by done.
           intros [= <-] Hf2 Heq. symmetry. by apply (Hkey k2 f2).
        -- rewrite lookup_insert_eq, lookup_insert_ne by done.
           intros Hf1 [= <-] Heq. by apply (Hkey k1 f1).
        -- rewrite !lookup_insert_ne by done. apply Huniq.
      * intros v Hv. unfold versions_have_files in Hfk. rewrite Hfs.
        assert (v ∈ file_versions st ∨ FileVersion.FileID v = File.ID file)
          as [Hold | Hnew].
        { destruct Hvs as [Heq | (v' & Heq & Hv')]; rewrite Heq in Hv;
            [by left |].
          apply elem_of_app in Hv as [? | ->%list_elem_of_singleton];
            [by left | by right]. }
        -- destruct (Hfk v Hold) as (k' & f' & Hf' & Hid').
           destruct (decide (k' = k)) as [-> | Hne].
           ++ exists k, file. split; [apply lookup_insert_eq |].
              rewrite Hf' in Hid. congruence.
           ++ exists k', f'. by rewrite lookup_insert_ne.
        -- exists k, file. split; [apply lookup_insert_eq | done].
  - destruct (FileService.DeleteFile env ws path userID st)
      as [st' [e |]] eqn:H; simpl.
    + by apply DeleteFile_Some in H as ->.
    + apply DeleteFile_None in H as (w & f & _ & _ & Hf & Hfs & _ & Hvs).
      split.
      * intros k1 k2 f1 f2. rewrite Hfs.
        intros [_ Hf1]%lookup_delete_Some [_ Hf2]%lookup_delete_Some.
        by apply Huniq.
      * intros v. rewrite Hvs, Hfs.
        intros [Hid Hv]%list_elem_of_filter.
        destruct (Hfk v Hv) as (k' & f' & Hf' & Hid').
        exists k', f'. split; [| done]. apply lookup_delete_Some.
        split; [| done]. intros <-. rewrite Hf in Hf'. congruence.
Qed.

(** X7. The constraints of the schema hold between requests: if no two
    files share an identifier and every version belongs to a stored file,
    the same is true after any sequence of uploads and deletions, failed
    ones included. *)
Theorem constraints_are_kept rs st :
  unique_ids (files st) → versions_have_files st →
  unique_ids (files (serve_all T rs st))
  ∧ versions_have_files (serve_all T rs st).
Proof.
  revert st. induction rs as [|[env r] rs IH]; intros st Huniq Hfk; [done |].
  rewrite serve_all_cons.
  destruct (serve_constraints env r st Huniq Hfk) as [Huniq' Hfk'].
  by apply IH.
Qed.

(** X8. The first upload to a path records the uploaded bytes as version 1
    of the new file: when the insertion of the version is not cut short, its
    identifier is free and every older version belongs to a stored file,
    the history grows by exactly one row, which carries the identifier the
    upload returned, the number 1, the digest and the content. *)
Theorem first_upload_records_its_content env req userID st st' info :
  let k := (FileUploadRequest.WorkspaceID req, FileUploadRequest.FilePath req)
  in
  FileService.UploadFile T env req userID st = (st', inr info) →
  files st !! k = None →
  fail_CreateFileVersion env = false →
  ¬ Exists (λ v, FileVersion.ID v = uuid_file_version env) (file_versions st) →
  versions_have_files st →
  file_versions st'
  = file_versions st
    ++ [FileVersion.mk (uuid_file_version env) (FileInfo.ID info) 1
          (FileInfo.ContentHash info) (FileUploadRequest.Content req)
          (Some (now env))].
Proof.
  intros k H Hnone Hcv Hfresh Hfk.
  apply UploadFile_steps in H
    as (st1 & file & used & (_ & Hfs1 & Hvs1) & Hup & -> & _ & Hvs).
  fold k in Hup, Hvs.
  pose proof (UpsertFile_inr _ _ _ _ _ Hup) as (_ & Hhash & _).
  apply UpsertFile_row in Hup as (Hrow & _).
  simpl in Hrow, Hhash. fold k in Hrow.
  rewrite Hfs1, Hnone in Hrow. destruct Hrow as (Hid & _ & _ & _ & Hnew).
  rewrite Hvs. unfold Queries.CreateFileVersion. rewrite Hcv. simpl.
  rewrite bool_decide_eq_false_2.
  2:{ intros Hno. apply Hno. exists k, file.
      split; [apply lookup_insert_eq | done]. }
  rewrite Hvs1. rewrite bool_decide_eq_false_2 by done.
  rewrite bool_decide_eq_false_2.
  2:{ intros (v & Hv & Hvid & _)%Exists_exists.
      destruct (Hfk v Hv) as (k' & f' & Hf' & Hid').
      apply Hnew. exists k', f'. split; [done | congruence]. }
  simpl. by rewrite Hhash.
Qed.
(** X9. A successful deletion takes the file's history along: the path is
    free again, no stored file carries the identifier any more, the
    versions that are left are exactly those of the other files, and every
    other file is as it was. *)
Theorem delete_takes_the_history_along env ws path userID st st' :
  FileService.DeleteFile env ws path userID st = (st', None) →
  unique_ids (files st) →
  ∃ f, files st !! (ws, path) = Some f
       ∧ files st' !! (ws, path) = None
       ∧ ¬ map_Exists (λ _ g, File.ID g = File.ID f) (files st')
       ∧ (∀ v, v ∈ file_versions st'
               ↔ v ∈ file_versions st ∧ FileVersion.FileID v ≠ File.ID f)
       ∧ ∀ k, k ≠ (ws, path) → files st' !! k = files st !! k.
Proof.
  intros H Huniq.
  apply DeleteFile_None in H as (w & f & _ & _ & Hf & Hfs & _ & Hvs).
  exists f. rewrite Hfs, Hvs. split_and!.
  - done.
  - apply lookup_delete_eq.
  - intros (k & g & [Hk Hg]%lookup_delete_Some & Hid).
    apply Hk. symmetry. by apply (Huniq k (ws, path) g f).
  - intros v. rewrite list_elem_of_filter. tauto.
  - intros k Hk. by apply lookup_delete_ne.
Qed.

(** X10. No deletion is written to the audit log: whatever [DeleteFile]
    returns, the log holds the same rows in the same order, with the same
    kind, status and message each (a row can only lose its reference to the
    deleted file).  A deletion that returns an error has changed nothing at
    all. *)
Theorem delete_is_not_audited env ws path userID st st' r :
  FileService.DeleteFile env ws path userID st = (st', r) →
  unlinked <$> sync_operations st' = unlinked <$> sync_operations st
  ∧ (is_Some r → st' = st).
Proof.
  intros H. destruct r as [e|].
  { apply DeleteFile_Some in H as ->. done. }
  split; [| by intros [? ?]].
  unfold FileService.DeleteFile in H.
  destruct (Queries.GetWorkspaceByID env st ws) as [|w]; [done |].
  case_bool_decide; [done |].
  destruct (Queries.GetFile env st ws path) as [|f] eqn:Hf; [done |].
  apply GetFile_inr in Hf as [_ Hf].
  destruct (Queries.Begin env st) as [|tx] eqn:Htx; [done |].
  apply Begin_inr in Htx as ->.
  destruct (Queries.DeleteFile env st ws path) as [|tx1] eqn:Hdel; [done |].
  unfold Queries.DeleteFile in Hdel. rewrite Hf in Hdel.
  destruct (fail_DeleteFile env); [done |]. injection Hdel as <-.
  destruct (Queries.UpdateWorkspaceStorageUsed env _ _ _) as [|tx2] eqn:Hupd;
    [done |].
  apply UpdateWorkspaceStorageUsed_inr in Hupd as ->.
  destruct (Queries.Commit env _) as [|st1] eqn:Hc; [done |].
  apply Commit_inr in Hc as ->. injection H as <-. simpl.
  rewrite <- list_fmap_compose. apply list_fmap_ext.
  intros i o _. simpl. by case_bool_decide.
Qed.

(** The rows of one workspace, as [map_to_list] enumerates them. *)
Lemma file_count_length (fs : gmap (N * string) File.t) ws :
  Z.of_nat (length (filter (λ kf : N * string * File.t, kf.1.1 = ws)
                           (map_to_list fs)))
  = Queries.file_count fs ws.
Proof.
  unfold Queries.file_count.
  induction fs as [|k f fs Hk Hfold IH] using map_first_key_ind.
  - by rewrite map_to_list_empty, map_fold_empty.
  - rewrite map_to_list_insert_first_key, map_fold_insert_first_key by done.
    rewrite filter_cons. simpl. rewrite <- IH.
    destruct (decide (k.1 = ws)) as [Hws | Hws].
    + rewrite bool_decide_eq_true_2 by done. simpl length. lia.
    + by rewrite bool_decide_eq_false_2 by done.
Qed.

Lemma actual_storage_used_sum (fs : gmap (N * string) File.t) ws :
  foldr Z.add 0
    ((λ kf : N * string * File.t, File.SizeBytes kf.2)
     <$> filter (λ kf : N * string * File.t, kf.1.1 = ws) (map_to_list fs))
  = Queries.actual_storage_used fs ws.
Proof.
  unfold Queries.actual_storage_used.
  induction fs as [|k f fs Hk Hfold IH] using map_first_key_ind.
  - by rewrite map_to_list_empty, map_fold_empty.
  - rewrite map_to_list_insert_first_key, map_fold_insert_first_key by done.
    rewrite filter_cons. simpl. rewrite <- IH.
    destruct (decide (k.1 = ws)) as [Hws | Hws].
    + by rewrite bool_decide_eq_true_2 by done.
    + by rewrite bool_decide_eq_false_2 by done.
Qed.

Lemma sum_Permutation (l1 l2 : list Z) :
  l1 ≡ₚ l2 → foldr Z.add 0 l1 = foldr Z.add 0 l2.
Proof. induction 1; simpl; lia. Qed.

(** What a successful listing returns, up to the order. *)
Lemma ListFiles_inr env ws userID st st' infos :
  FileService.ListFiles env ws userID st = (st', inr infos) →
  st' = st
  ∧ infos ≡ₚ (λ kf : N * string * File.t, FileService.projection kf.2)
             <$> filter (λ kf : N * string * File.t, kf.1.1 = ws)
                        (map_to_list (files st)).
Proof.
  unfold FileService.ListFiles. intros H.
  destruct (Queries.GetWorkspaceByID env st ws) as [|w]; [done |].
  case_bool_decide; [done |].
  destruct (Queries.ListFiles env st ws) as [|rows] eqn:Hrows; [done |].
  injection H as <- <-. split; [done |].
  unfold Queries.ListFiles in Hrows.
  destruct (fail_ListFiles env); [done |]. injection Hrows as <-.
  rewrite merge_sort_Permutation, <- list_fmap_compose. done.
Qed.

(** X11. A successful listing changes nothing and returns exactly the files
    of the workspace, each once, as [GetFile] would describe them: an entry
    is listed if and only if it is the projection of a stored file of the
    workspace; the number of entries is the file count of the usage query,
    and their sizes add up to the actual usage that query computes. *)
Theorem ListFiles_lists_the_workspace env ws userID st st' infos :
  FileService.ListFiles env ws userID st = (st', inr infos) →
  st' = st
  ∧ (∀ info, info ∈ infos
             ↔ ∃ path f, files st !! (ws, path) = Some f
                         ∧ info = FileService.projection f)
  ∧ Z.of_nat (length infos) = Queries.file_count (files st) ws
  ∧ foldr Z.add 0 (FileInfo.SizeBytes <$> infos)
    = Queries.actual_storage_used (files st) ws.
Proof.
  intros H. apply ListFiles_inr in H as [-> Hperm]. split_and!.
  - done.
  - intros info. rewrite Hperm, list_elem_of_fmap. split.
    + intros ([[ws' path] f] & -> & [Hws Hin]%list_elem_of_filter).
      simpl in Hws. subst ws'. apply elem_of_map_to_list in Hin.
      by exists path, f.
    + intros (path & f & Hf & ->). exists ((ws, path), f).
      split; [done |]. apply list_elem_of_filter. split; [done |].
      by apply elem_of_map_to_list.
  - rewrite Hperm, length_fmap. apply file_count_length.
  - rewrite <- actual_storage_used_sum.
    apply sum_Permutation. rewrite Hperm, <- list_fmap_compose. done.
Qed.

(** X12. The three reads agree and change nothing.  [GetFileContent]
    succeeds exactly when [GetFile] does, under the same description and
    with the content of the stored row, and the file [GetFile] describes is
    among those a successful [ListFiles] returns. *)
Theorem reads_agree env ws path userID st :
  (FileService.GetFile env ws path userID st).1 = st
  ∧ (FileService.GetFileContent env ws path userID st).1 = st
  ∧ (FileService.ListFiles env ws userID st).1 = st
  ∧ (∀ info, (FileService.GetFile env ws path userID st).2 = inr info ↔
       ∃ content,
         (FileService.GetFileContent env ws path userID st).2
         = inr (FileWithContent.mk info content))
  ∧ (∀ fc, (FileService.GetFileContent env ws path userID st).2 = inr fc →
       ∃ f, files st !! (ws, path) = Some f
            ∧ FileWithContent.Content fc = File.Content f)
  ∧ (∀ info infos,
       (FileService.GetFile env ws path userID st).2 = inr info →
       (FileService.ListFiles env ws userID st).2 = inr infos →
       info ∈ infos).
Proof.
  split_and!.
  - unfold FileService.GetFile. by repeat case_match.
  - unfold FileService.GetFileContent. by repeat case_match.
  - unfold FileService.ListFiles. by repeat case_match.
  - intros info. unfold FileService.GetFile, FileService.GetFileContent.
    destruct (Queries.GetWorkspaceByID env st ws) as [|w];
      [simpl; split; [done | by intros (? & ?)] |].
    case_bool_decide; [simpl; split; [done | by intros (? & ?)] |].
    destruct (Queries.GetFile env st ws path) as [|f];
      simpl; [split; [done | by intros (? & ?)] |].
    split; [intros [= <-]; by eexists | by intros (? & [= <- _])].
  - intros fc. unfold FileService.GetFileContent.
    destruct (Queries.GetWorkspaceByID env st ws) as [|w]; [done |].
    case_bool_decide; [done |].
    destruct (Queries.GetFile env st ws path) as [|f] eqn:Hf; [done |].
    apply GetFile_inr in Hf as [_ Hf]. simpl. intros [= <-]. by exists f.
  - intros info infos Hget Hlist.
    destruct (FileService.ListFiles env ws userID st) as [st' r] eqn:Hl.
    simpl in Hlist. subst r.
    apply ListFiles_inr in Hl as [_ Hperm]. rewrite Hperm.
    unfold FileService.GetFile in Hget.
    destruct (Queries.GetWorkspaceByID env st ws) as [|w]; [done |].
    case_bool_decide; [done |].
    destruct (Queries.GetFile env st ws path) as [|f] eqn:Hf; [done |].
    apply GetFile_inr in Hf as [_ Hf]. simpl in Hget. injection Hget as <-.
    apply list_elem_of_fmap. exists ((ws, path), f). split; [done |].
    apply list_elem_of_filter. split; [done |].
    by apply elem_of_map_to_list.
Qed.
End FileServiceMore.

(** *** The further properties on the example installation *)

(** The constraints of the schema hold in [stored]. *)
Lemma stored_constraints :
  unique_ids (files stored) ∧ versions_have_files stored.
Proof.
  apply (serve_constraints plain_tables (calm 5 100 101 102)
           (Upload (upload "a.md" (bytes_of "abc")) alice) (fresh 100)).
  - intros k1 k2 f1 f2 H. vm_compute in H. discriminate.
  - intros v Hv. by apply elem_of_nil in Hv.
Defined.

(** X1 at work: the usage after four requests of [history]. *)
Lemma quota_is_never_exceeded_witness :
  ∃ used,
    storage_used_bytes (serve_all plain_tables (take 4 history) (fresh 100))
      notes = Some used
    ∧ 0 <= used <= Z.max 0 (Workspace.StorageLimitBytes (notes_row 100 0 0)).
Proof.
  apply (quota_is_never_exceeded plain_tables notes (notes_row 100 0 0)
           (fresh 100) history); try reflexivity.
  - vm_compute. discriminate.
  - repeat constructor; try (intros _; split; [reflexivity |]);
      vm_compute; discriminate.
Defined.

(** X2 at work: what [bob] does in [drafts] passes [notes] by. *)
Lemma other_workspaces_are_untouched_witness :
  workspaces (serve_all plain_tables at_drafts two_workspaces) !! notes
  = workspaces two_workspaces !! notes
  ∧ ∀ path,
      files (serve_all plain_tables at_drafts two_workspaces) !! (notes, path)
      = files two_workspaces !! (notes, path).
Proof.
  apply (other_workspaces_are_untouched plain_tables at_drafts two_workspaces
           notes).
  repeat (apply List.Forall_cons; [vm_compute; discriminate |]).
  apply List.Forall_nil.
Defined.

(** X3 at work: an upload whose commit fails. *)
Lemma failed_upload_keeps_the_data_witness :
  workspaces
    (UploadFile0 (commit_down 6 110 111 112) (upload "d.txt" (blob 7)) alice
       stored).1 = workspaces stored
  ∧ files
      (UploadFile0 (commit_down 6 110 111 112) (upload "d.txt" (blob 7)) alice
         stored).1 = files stored
  ∧ file_versions
      (UploadFile0 (commit_down 6 110 111 112) (upload "d.txt" (blob 7)) alice
         stored).1 = file_versions stored
  ∧ (after_audit_open (failed_to_commit_transaction (ConnFailure "conn closed"))
     = false →
     (UploadFile0 (commit_down 6 110 111 112) (upload "d.txt" (blob 7)) alice
        stored).1 = stored).
Proof.
  apply (failed_upload_keeps_the_data plain_tables (commit_down 6 110 111 112)
           (upload "d.txt" (blob 7)) alice stored).
  vm_compute. reflexivity.
Defined.




(** X7 at work: the constraints after the whole of [history]. *)
Lemma constraints_are_kept_witness :
  unique_ids (files (serve_all plain_tables history (fresh 100)))
  ∧ versions_have_files (serve_all plain_tables history (fresh 100)).
Proof.
  apply (constraints_are_kept plain_tables history (fresh 100)).
  - intros k1 k2 f1 f2 H. vm_compute in H. discriminate.
  - intros v Hv. by apply elem_of_nil in Hv.
Defined.

(** X8 at work: the history of [a.md] in [stored]. *)
Lemma first_upload_records_its_content_witness :
  file_versions stored
  = file_versions (fresh 100)
    ++ [FileVersion.mk 102 (FileInfo.ID abc_info) 1
          (FileInfo.ContentHash abc_info) (bytes_of "abc") (Some 5)].
Proof.
  apply (first_upload_records_its_content plain_tables (calm 5 100 101 102)
           (upload "a.md" (bytes_of "abc")) alice (fresh 100) stored abc_info
           stored_abc).
  - reflexivity.
  - reflexivity.
  - intros H. by apply Exists_nil in H.
  - intros v Hv. by apply elem_of_nil in Hv.
Defined.

(** X9 at work: the owner deletes [a.md] from [stored]. *)
Lemma delete_takes_the_history_along_witness :
  ∃ f, files stored !! (notes, "a.md") = Some f
       ∧ files (FileService.DeleteFile (calm 6 110 111 112) notes "a.md" alice
                  stored).1 !! (notes, "a.md") = None
       ∧ ¬ map_Exists (λ _ g, File.ID g = File.ID f)
             (files (FileService.DeleteFile (calm 6 110 111 112) notes "a.md"
                       alice stored).1)
       ∧ (∀ v, v ∈ file_versions
                     (FileService.DeleteFile (calm 6 110 111 112) notes "a.md"
                        alice stored).1
               ↔ v ∈ file_versions stored
                 ∧ FileVersion.FileID v ≠ File.ID f)
       ∧ ∀ k, k ≠ (notes, "a.md") →
              files (FileService.DeleteFile (calm 6 110 111 112) notes "a.md"
                       alice stored).1 !! k = files stored !! k.
Proof.
  apply (delete_takes_the_history_along (calm 6 110 111 112) notes "a.md" alice
           stored).
  - vm_compute. reflexivity.
  - apply stored_constraints.
Defined.

(** X10 at work: the audit log of [stored] after the deletion of [a.md]. *)
Lemma delete_is_not_audited_witness :
  unlinked
  <$> sync_operations
        (FileService.DeleteFile (calm 6 110 111 112) notes "a.md" alice
           stored).1
  = unlinked <$> sync_operations stored
  ∧ (is_Some (None : option error) →
     (FileService.DeleteFile (calm 6 110 111 112) notes "a.md" alice stored).1
     = stored).
Proof.
  apply (delete_is_not_audited (calm 6 110 111 112) notes "a.md" alice stored).
  vm_compute. reflexivity.
Defined.

(** X11 at work: the listing of [notes] in [stored]. *)
Lemma ListFiles_lists_the_workspace_witness :
  stored = stored
  ∧ (∀ info, info ∈ [abc_info]
             ↔ ∃ path f, files stored !! (notes, path) = Some f
                         ∧ info = FileService.projection f)
  ∧ Z.of_nat (length [abc_info]) = Queries.file_count (files stored) notes
  ∧ foldr Z.add 0 (FileInfo.SizeBytes <$> [abc_info])
    = Queries.actual_storage_used (files stored) notes.
Proof.
  apply (ListFiles_lists_the_workspace (calm 6 110 111 112) notes alice stored).
  vm_compute. reflexivity.
Defined.

(** ** Detection beyond the claims *)
Section DetectionMore.
Import GoStrings GoStringsFacts domain.
Variable T : Tables.

(** The scan for the extension never crosses a path separator. *)
Lemma ext_loop_separator (a b visited : list ascii) :
  ext_loop (a ++ "/"%char :: b) visited = ext_loop a visited.
Proof.
  revert visited. induction a as [|c a IH]; intros visited; simpl; [done |].
  destruct (isPathSeparator c); [done |]. case_bool_decide; [done |].
  apply IH.
Qed.

Lemma Ext_base (dir name : string) :
  Ext (dir +:+ String "/" name) = Ext name.
Proof.
  unfold Ext. rewrite list_ascii_of_string_app. simpl.
  rewrite reverse_app, reverse_cons, <- app_assoc. simpl.
  by rewrite ext_loop_separator.
Qed.

(** X13. Detection looks at the last element of the path only: a dot in
    the name of a directory is never taken for the start of an extension,
    so a file has the format and the media type of its base name, whatever
    directory it lies in and whatever it contains. *)
Theorem detection_reads_the_base_name (dir name : string)
    (content content' : list Byte.byte) :
  Ext (dir +:+ String "/" name) = Ext name
  ∧ DetectFileFormat T (dir +:+ String "/" name) content
    = DetectFileFormat T name content'
  ∧ detectMimeType T (dir +:+ String "/" name) content
    = detectMimeType T name content'.
Proof.
  unfold DetectFileFormat, detectMimeType. by rewrite Ext_base.
Qed.

(** X14. The media type [detectMimeType] gives is never empty, and it
    agrees with [DetectFileFormat]: a markdown file is [text/markdown], an
    org-mode file is [text/org], and for a plain-text file it is
    [text/plain] unless the extension table of the system knows the
    extension. *)
Theorem detectMimeType_agrees_with_DetectFileFormat (path : string)
    (content : list Byte.byte) :
  detectMimeType T path content ≠ ""
  ∧ match DetectFileFormat T path content with
    | FormatMarkdown => detectMimeType T path content = "text/markdown"
    | FormatOrgMode => detectMimeType T path content = "text/org"
    | FormatPlainText =>
        detectMimeType T path content = "text/plain"
        ∨ detectMimeType T path content
          = TypeByExtension T (ToLower (MapUnicodeToLower T) (Ext path))
    end.
Proof.
  unfold DetectFileFormat, detectMimeType.
  repeat case_bool_decide; split; try done; try (by left); by right.
Qed.
End DetectionMore.

(** ** Tiers *)

(** Every storage limit is a positive [int64]. *)
Lemma tiers_limits (t : string) :
  0 < UserTier.GetStorageLimit t <= Int64.MaxInt64.
Proof.
  unfold UserTier.GetStorageLimit, Int64.MaxInt64.
  repeat case_bool_decide; lia.
Qed.

(** X15. The tiers are ordered the way [getTierLevel] ranks them: a tier of
    a higher level has at least the storage limit of a lower one, and is
    never refused a workspace that the lower one would be granted.  Every
    storage limit is a positive [int64], and no tier, known or not, has less
    than the free tier. *)
Theorem tiers_are_ordered (t1 t2 : string) :
  0 < UserTier.GetStorageLimit t1 <= Int64.MaxInt64
  ∧ UserTier.GetStorageLimit UserTier.TierFree <= UserTier.GetStorageLimit t1
  ∧ (getTierLevel t1 <= getTierLevel t2 →
     UserTier.GetStorageLimit t1 <= UserTier.GetStorageLimit t2
     ∧ ∀ n : Z,
         ¬ (UserTier.GetMaxWorkspaces t1 > 0
            ∧ n >= UserTier.GetMaxWorkspaces t1) →
         ¬ (UserTier.GetMaxWorkspaces t2 > 0
            ∧ n >= UserTier.GetMaxWorkspaces t2)).
Proof.
  split; [apply tiers_limits |].
  unfold UserTier.GetStorageLimit, UserTier.GetMaxWorkspaces, getTierLevel.
  rewrite (bool_decide_eq_true_2 (UserTier.TierFree = UserTier.TierFree))
    by done.
  destruct (bool_decide (t1 = UserTier.TierFree));
    destruct (bool_decide (t1 = UserTier.TierPremium));
    destruct (bool_decide (t1 = UserTier.TierEnterprise));
    destruct (bool_decide (t2 = UserTier.TierFree));
    destruct (bool_decide (t2 = UserTier.TierPremium));
    destruct (bool_decide (t2 = UserTier.TierEnterprise));
    (split; [lia |]); intros Hle; (split; [lia |]); intros n; lia.
Qed.

(** ** The workspace service *)
Section WorkspaceServiceFacts.
Import StatementFacts QueriesFacts.
Variable T : Tables.

Lemma GetWorkspacesByUser_inr env st userID rows :
  WorkspaceQueries.GetWorkspacesByUser env st userID = inr rows →
  rows ≡ₚ filter (λ w, Workspace.UserID w = userID)
                 (map_to_list (workspaces st)).*2.
Proof.
  unfold WorkspaceQueries.GetWorkspacesByUser.
  destruct (fail_GetWorkspacesByUser env); [done |].
  intros [= <-]. apply merge_sort_Permutation.
Qed.

Lemma owned_insert st id row userID :
  workspaces st !! id = None →
  owned (Queries.set_workspaces st (<[id := row]> (workspaces st))) userID
  = if bool_decide (Workspace.UserID row = userID)
    then S (owned st userID) else owned st userID.
Proof.
  intros Hnone. unfold owned. simpl.
  rewrite map_to_list_insert by done. rewrite fmap_cons, filter_cons. simpl.
  destruct (decide (Workspace.UserID row = userID)) as [Hu | Hu].
  - by rewrite bool_decide_eq_true_2 by done.
  - by rewrite bool_decide_eq_false_2 by done.
Qed.

(** What a successful creation has done. *)
Lemma CreateWorkspace_inr env req userID tier st st' w :
  WorkspaceService.CreateWorkspace env req userID tier st = (st', inr w) →
  let row :=
    Workspace.mk (uuid_workspace env) userID (CreateWorkspaceRequest.Name req)
      (UserTier.GetStorageLimit tier) (Some 0) (Some (now (statements env)))
      (Some (now (statements env))) in
  w = WorkspaceService.result row
  ∧ workspaces st !! uuid_workspace env = None
  ∧ st' = Queries.set_workspaces st
            (<[uuid_workspace env := row]> (workspaces st))
  ∧ (UserTier.GetMaxWorkspaces tier > 0 →
     Z.of_nat (owned st userID) < UserTier.GetMaxWorkspaces tier).
Proof.
  intros H row. unfold WorkspaceService.CreateWorkspace in H.
  destruct (WorkspaceQueries.GetWorkspacesByUser env st userID)
    as [|existing] eqn:Hex; [done |].
  apply GetWorkspacesByUser_inr in Hex. apply Permutation_length in Hex.
  fold (owned st userID) in Hex. rewrite Hex in H.
  case_bool_decide as Hcap; [done |].
  unfold WorkspaceQueries.CreateWorkspace in H.
  destruct (fail_CreateWorkspace env); [done |].
  case_bool_decide as Hpk; [done |]. simpl in H. injection H as <- <-.
  split_and!; try done.
  - by apply eq_None_not_Some.
  - intros Hmax. lia.
Qed.

(** X16. [CreateWorkspace] enforces the tier's cap.  A creation that fails
    leaves the store as it was, and it fails with the limit error exactly
    on a capped tier whose user already owns the cap or more.  A creation
    that succeeds was below the cap, adds one workspace to those of the user
    and none to anybody else's, so the user still is within the cap; the new
    workspace has an identifier that was free, the storage limit of the tier
    and a usage of zero, and files, versions and audit log are untouched. *)
Theorem CreateWorkspace_respects_the_cap env req userID tier st st' r :
  WorkspaceService.CreateWorkspace env req userID tier st = (st', r) →
  match r with
  | inl e =>
      st' = st
      ∧ ∀ t n m, e = WorkspaceService.workspace_limit_reached t n m →
                 t = tier ∧ n = Z.of_nat (owned st userID)
                 ∧ m = UserTier.GetMaxWorkspaces tier ∧ 0 < m <= n
  | inr w =>
      (UserTier.GetMaxWorkspaces tier > 0 →
       Z.of_nat (owned st' userID) <= UserTier.GetMaxWorkspaces tier)
      ∧ owned st' userID = S (owned st userID)
      ∧ (∀ u, u ≠ userID → owned st' u = owned st u)
      ∧ workspaces st !! DomainWorkspace.ID w = None
      ∧ (∃ row, workspaces st' !! DomainWorkspace.ID w = Some row
                ∧ w = WorkspaceService.result row
                ∧ Workspace.UserID row = userID
                ∧ Workspace.StorageUsedBytes row = Some 0)
      ∧ DomainWorkspace.StorageLimitBytes w = UserTier.GetStorageLimit tier
      ∧ DomainWorkspace.StorageUsedBytes w = 0
      ∧ files st' = files st ∧ file_versions st' = file_versions st
      ∧ sync_operations st' = sync_operations st
  end.
Proof.
  intros H. destruct r as [e | w].
  - unfold WorkspaceService.CreateWorkspace in H.
    destruct (WorkspaceQueries.GetWorkspacesByUser env st userID)
      as [|existing] eqn:Hex; [by injection H as <- <- |].
    apply GetWorkspacesByUser_inr in Hex. apply Permutation_length in Hex.
    fold (owned st userID) in Hex. rewrite Hex in H.
    case_bool_decide as Hcap.
    + injection H as <- <-. split; [done |]. intros t n m [= <- <- <-].
      split_and!; try done; lia.
    + destruct (WorkspaceQueries.CreateWorkspace env st _) as [|[st1 row]];
        [| done].
      by injection H as <- <-.
  - apply CreateWorkspace_inr in H as (-> & Hfree & -> & Hcap).
    pose proof (owned_insert st (uuid_workspace env)
                  (Workspace.mk (uuid_workspace env) userID
                     (CreateWorkspaceRequest.Name req)
                     (UserTier.GetStorageLimit tier) (Some 0)
                     (Some (now (statements env)))
                     (Some (now (statements env)))) userID Hfree) as Hme.
    simpl in Hme. rewrite bool_decide_eq_true_2 in Hme by done.
    split_and!; try done.
    + intros Hmax. specialize (Hcap Hmax). rewrite Hme. lia.
    + intros u Hu. rewrite owned_insert by done. simpl.
      by rewrite bool_decide_eq_false_2 by done.
    + eexists. split; [apply lookup_insert_eq | done].
Qed.


(** X18. The workspace service shows a workspace to its owner only, and
    reading changes nothing.  [GetWorkspaceByID] and
    [GetWorkspaceStorageInfo] return the stored row of the workspace, and
    only to the user who owns it; anybody else is denied by both, with the
    same error, whenever the row can be read. *)
Theorem workspace_reads_are_for_the_owner env ws userID st :
  (WorkspaceService.GetWorkspaceByID env ws userID st).1 = st
  ∧ (WorkspaceService.GetWorkspaceStorageInfo env ws userID st).1 = st
  ∧ (∀ w, (WorkspaceService.GetWorkspaceByID env ws userID st).2 = inr w →
       ∃ row, workspaces st !! ws = Some row
              ∧ Workspace.UserID row = userID
              ∧ w = WorkspaceService.result row)
  ∧ (∀ info,
       (WorkspaceService.GetWorkspaceStorageInfo env ws userID st).2
       = inr info →
       ∃ row, workspaces st !! ws = Some row
              ∧ Workspace.UserID row = userID
              ∧ WorkspaceStorageInfo.StorageLimitBytes info
                = Workspace.StorageLimitBytes row
              ∧ WorkspaceStorageInfo.StorageUsedBytes info
                = pgconv.PgToInt64 (Workspace.StorageUsedBytes row)
              ∧ WorkspaceStorageInfo.FileCount info
                = Queries.file_count (files st) ws)
  ∧ (∀ row, workspaces st !! ws = Some row →
       Workspace.UserID row ≠ userID →
       fail_GetWorkspaceByID (statements env) = false →
       (WorkspaceService.GetWorkspaceByID env ws userID st).2
       = inl WorkspaceService.access_denied
       ∧ (WorkspaceService.GetWorkspaceStorageInfo env ws userID st).2
         = inl WorkspaceService.access_denied).
Proof.
  unfold WorkspaceService.GetWorkspaceByID,
    WorkspaceService.GetWorkspaceStorageInfo.
  destruct (Queries.GetWorkspaceByID (statements env) st ws) as [|row] eqn:Hw.
  - split_and!; try done. intros row Hrow _ Hup.
    by rewrite (GetWorkspaceByID_found _ _ _ _ Hup Hrow) in Hw.
  - apply GetWorkspaceByID_inr in Hw as [_ Hw].
    case_bool_decide as Howner; [by split_and! |].
    assert (∀ row', workspaces st !! ws = Some row' →
                    Workspace.UserID row' ≠ userID → False) as Hmine.
    { intros row' Hrow' Hne. congruence. }
    destruct (Queries.GetWorkspaceStorageUsage (statements env) st ws)
      as [|usage] eqn:Hu; simpl.
    + split_and!; try done.
      * intros w [= <-]. by exists row.
      * intros row' Hrow' Hne. by destruct (Hmine row').
    + unfold Queries.GetWorkspaceStorageUsage in Hu. rewrite Hw in Hu.
      destruct (fail_GetWorkspaceStorageUsage (statements env)); [done |].
      injection Hu as <-.
      split_and!; try done.
      * intros w [= <-]. by exists row.
      * intros info [= <-]. by exists row.
      * intros row' Hrow'' Hne. by destruct (Hmine row').
Qed.
(** X19. [GetWorkspacesByUser] changes nothing and returns exactly the
    workspaces the user owns, each once and as [GetWorkspaceByID] shows it:
    a workspace is listed if and only if it is the stored row of a
    workspace of the user.  In particular a workspace the user has just
    created is listed. *)
Theorem GetWorkspacesByUser_lists_the_owned env userID st st' l :
  WorkspaceService.GetWorkspacesByUser env userID st = (st', inr l) →
  st' = st
  ∧ (∀ w, w ∈ l ↔ ∃ id row, workspaces st !! id = Some row
                             ∧ Workspace.UserID row = userID
                             ∧ w = WorkspaceService.result row)
  ∧ length l = owned st userID
  ∧ (∀ env0 req tier st0 w,
       WorkspaceService.CreateWorkspace env0 req userID tier st0
       = (st, inr w) → w ∈ l).
Proof.
  unfold WorkspaceService.GetWorkspacesByUser. intros H.
  destruct (WorkspaceQueries.GetWorkspacesByUser env st userID)
    as [|rows] eqn:Hrows; [done |].
  injection H as <- <-. apply GetWorkspacesByUser_inr in Hrows.
  assert (∀ w, w ∈ WorkspaceService.result <$> rows
               ↔ ∃ id row, workspaces st !! id = Some row
                           ∧ Workspace.UserID row = userID
                           ∧ w = WorkspaceService.result row) as Hin.
  { intros w. rewrite Hrows, list_elem_of_fmap. split.
    - intros (row & -> & [Hu Hrow]%list_elem_of_filter).
      apply list_elem_of_fmap in Hrow as ([id row'] & -> & Hrow).
      apply elem_of_map_to_list in Hrow. by exists id, row'.
    - intros (id & row & Hrow & Hu & ->). exists row. split; [done |].
      apply list_elem_of_filter. split; [done |].
      apply list_elem_of_fmap. exists (id, row). split; [done |].
      by apply elem_of_map_to_list. }
  split_and!; try done.
  - rewrite length_fmap. by apply Permutation_length in Hrows.
  - intros env0 req tier st0 w Hcreate. apply Hin.
    apply CreateWorkspace_inr in Hcreate as (-> & _ & -> & _).
    eexists _, _. split; [apply lookup_insert_eq | done].
Qed.

End WorkspaceServiceFacts.

(** *** The workspace service on the example installation *)

(** The creation behind [with_journal] returned [journal_info]. *)
Lemma with_journal_created :
  WorkspaceService.CreateWorkspace (quiet 3 journal)
    (CreateWorkspaceRequest.mk "journal") alice UserTier.TierFree emptyDB
  = (with_journal, inr journal_info).
Proof. vm_compute. reflexivity. Qed.

(** A second workspace is refused to a user of the free tier, a first one
    is granted on any tier, and the enterprise tier has no cap. *)
Lemma test_CreateWorkspace :
  (WorkspaceService.CreateWorkspace (quiet 4 31)
     (CreateWorkspaceRequest.mk "more") alice UserTier.TierFree with_journal).2
  = inl (WorkspaceService.workspace_limit_reached "free" 1 1)
  ∧ WorkspaceService.Error
      (WorkspaceService.workspace_limit_reached "free" 1 1)
    = "workspace limit reached for free tier: 1/1"
  ∧ (WorkspaceService.CreateWorkspace (quiet 4 31)
       (CreateWorkspaceRequest.mk "more") alice UserTier.TierEnterprise
       with_journal).2
    = inr (DomainWorkspace.mk 31 alice "more" (100 * 1024 * 1024 * 1024) 0 4 4).
Proof. vm_compute. done. Qed.

(** X16 at work: the creation of [journal]. *)
Lemma CreateWorkspace_respects_the_cap_witness :
  (UserTier.GetMaxWorkspaces UserTier.TierFree > 0 →
   Z.of_nat (owned with_journal alice)
   <= UserTier.GetMaxWorkspaces UserTier.TierFree)
  ∧ owned with_journal alice = S (owned emptyDB alice)
  ∧ (∀ u, u ≠ alice → owned with_journal u = owned emptyDB u)
  ∧ workspaces emptyDB !! DomainWorkspace.ID journal_info = None
  ∧ (∃ row, workspaces with_journal !! DomainWorkspace.ID journal_info
            = Some row
            ∧ journal_info = WorkspaceService.result row
            ∧ Workspace.UserID row = alice
            ∧ Workspace.StorageUsedBytes row = Some 0)
  ∧ DomainWorkspace.StorageLimitBytes journal_info
    = UserTier.GetStorageLimit UserTier.TierFree
  ∧ DomainWorkspace.StorageUsedBytes journal_info = 0
  ∧ files with_journal = files emptyDB
  ∧ file_versions with_journal = file_versions emptyDB
  ∧ sync_operations with_journal = sync_operations emptyDB.
Proof.
  apply (CreateWorkspace_respects_the_cap (quiet 3 journal)
           (CreateWorkspaceRequest.mk "journal") alice UserTier.TierFree
           emptyDB with_journal (inr journal_info)).
  vm_compute. reflexivity.
Defined.


(** X19 at work: the workspaces of [alice] once [journal] is there. *)
Lemma GetWorkspacesByUser_lists_the_owned_witness :
  with_journal = with_journal
  ∧ (∀ w, w ∈ [journal_info]
          ↔ ∃ id row, workspaces with_journal !! id = Some row
                      ∧ Workspace.UserID row = alice
                      ∧ w = WorkspaceService.result row)
  ∧ length [journal_info] = owned with_journal alice
  ∧ (∀ env0 req tier st0 w,
       WorkspaceService.CreateWorkspace env0 req alice tier st0
       = (with_journal, inr w) → w ∈ [journal_info]).
Proof.
  apply (GetWorkspacesByUser_lists_the_owned (quiet 4 0) alice with_journal).
  vm_compute. reflexivity.
Defined.


(** ** Digests and tokens *)
Section DigestFacts.
Import GoStringsFacts.
Variable T : Tables.

Lemma round_length s kw : length (sha256.round s kw) = length s.
Proof.
  destruct s as [|a [|b [|c [|d [|e [|f [|g [|h [|i s]]]]]]]]]; reflexivity.
Qed.

Lemma rounds_length l s : length (foldl sha256.round s l) = length s.
Proof.
  revert s. induction l as [|kw l IH]; intros s; simpl; [done |].
  by rewrite IH, round_length.
Qed.

Lemma block_length H bytes : length (sha256.block H bytes) = length H.
Proof.
  unfold sha256.block. rewrite length_zip_with, rounds_length. lia.
Qed.

Lemma blocks_length l H : length (foldl sha256.block H l) = length H.
Proof.
  revert H. induction l as [|b l IH]; intros H; simpl; [done |].
  by rewrite IH, block_length.
Qed.

Lemma be_bytes_bind (l : list N) :
  length (l ≫= sha256.be_bytes 4) = (4 * length l)%nat.
Proof.
  induction l as [|x l IH]; [done |].
  rewrite bind_cons, length_app, IH. simpl. lia.
Qed.

(** A digest has 32 bytes. *)
Lemma Sum256_length data : length (sha256.Sum256 data) = 32%nat.
Proof.
  unfold sha256.Sum256, sha256.digest.
  by rewrite length_fmap, be_bytes_bind, blocks_length.
Qed.

Lemma bytes_of_length (s : string) : length (bytes_of s) = String.length s.
Proof.
  unfold bytes_of, String.list_byte_of_string.
  by rewrite length_map, string_length_list.
Qed.

(** [%x] writes two digits for a byte. *)
Lemma Sprintf_x_length l : String.length (Sprintf_x l) = (2 * length l)%nat.
Proof. induction l as [|b l IH]; simpl; [done |]. rewrite IH. lia. Qed.

Lemma hex_digit_is_hex n :
  (n < 16)%N →
  hex_digit n ∈ String.list_ascii_of_string "0123456789abcdef".
Proof.
  intros Hn.
  assert (n ∈ [0; 1; 2; 3; 4; 5; 6; 7; 8; 9; 10; 11; 12; 13; 14; 15]%N)
    as Hin.
  { rewrite !elem_of_cons. lia. }
  apply list_elem_of_lookup. exists (N.to_nat n).
  repeat (apply elem_of_cons in Hin as [-> | Hin]; [reflexivity |]).
  by apply elem_of_nil in Hin.
Qed.

Lemma Sprintf_x_is_hex l :
  Forall (λ c, c ∈ String.list_ascii_of_string "0123456789abcdef")
         (String.list_ascii_of_string (Sprintf_x l)).
Proof.
  induction l as [|b l IH]; simpl; [constructor |].
  assert (Byte.to_N b < 256)%N as Hb.
  { pose proof (Byte.to_N_bounded b). lia. }
  apply Forall_cons. split; [| apply Forall_cons; split; [| done]];
    apply hex_digit_is_hex.
  - apply N.Div0.div_lt_upper_bound. lia.
  - by apply N.mod_lt.
Qed.

(** X21. The digest of an upload fits its column: the [content_hash] a
    successful upload returns and stores has exactly the 64 characters of
    [VARCHAR(64)], all of them lower-case hexadecimal digits, and so has the
    hash under which the middleware looks a token up. *)
Theorem content_hash_fits_its_column env req userID st st' info token :
  FileService.UploadFile T env req userID st = (st', inr info) →
  String.length (FileInfo.ContentHash info) = 64%nat
  ∧ Forall (λ c, c ∈ String.list_ascii_of_string "0123456789abcdef")
           (String.list_ascii_of_string (FileInfo.ContentHash info))
  ∧ (∃ f, files st' !! (FileUploadRequest.WorkspaceID req,
                        FileUploadRequest.FilePath req) = Some f
          ∧ File.ContentHash f = FileInfo.ContentHash info)
  ∧ String.length (hashToken token) = 64%nat.
Proof.
  intros H.
  pose proof (UploadFile_inr T env req userID st st' info H) as Hx.
  cbv zeta in Hx.
  destruct Hx as (w & file & _ & _ & _ & _ & _ & -> & _ & Hh & _ & _ & Hfs & _).
  simpl. rewrite Hh. split_and!.
  - by rewrite Sprintf_x_length, Sum256_length.
  - apply Sprintf_x_is_hex.
  - exists file. by rewrite Hfs, lookup_insert_eq.
  - unfold hashToken. by rewrite Sprintf_x_length, Sum256_length.
Qed.
End DigestFacts.

(** ** Authentication *)
Section AuthFacts.
Import GoStringsFacts AuthQueries.

Lemma prefix_split (p s : string) :
  String.prefix p s = true →
  s = p +:+ String.string_of_list_ascii
              (drop (String.length p) (String.list_ascii_of_string s)).
Proof.
  revert s. induction p as [|a p IH]; intros s H.
  - cbn. rewrite drop_0. symmetry.
    apply String.string_of_list_ascii_of_string.
  - destruct s as [|b s]; [done |]. simpl in H.
    destruct (Ascii.ascii_dec a b) as [-> |]; [| done].
    simpl. rewrite (IH s H) at 1. reflexivity.
Qed.

Lemma prefix_app (p s : string) : String.prefix p (p +:+ s) = true.
Proof.
  induction p as [|a p IH]; simpl; [by destruct s |].
  by destruct (Ascii.ascii_dec a a).
Qed.

Lemma TrimPrefix_app (p s : string) : TrimPrefix (p +:+ s) p = s.
Proof.
  unfold TrimPrefix, HasPrefix. rewrite prefix_app.
  rewrite list_ascii_of_string_app, string_length_list, drop_app_length.
  apply String.string_of_list_ascii_of_string.
Qed.

(** The token a header carries, where [RequireAuth] gets as far as the
    lookup. *)
Lemma Bearer_token (authHeader : string) :
  HasPrefix authHeader "Bearer " = true →
  authHeader = "Bearer " +:+ TrimPrefix authHeader "Bearer ".
Proof.
  intros H. unfold TrimPrefix. rewrite H. by apply prefix_split.
Qed.

(** The row [GetTokenByHash] returns is the join of a stored, unexpired
    token of that hash with its user. *)
Lemma GetTokenByHash_inr env acc hash row :
  GetTokenByHash env acc hash = inr row →
  ∃ t u, t ∈ api_tokens acc ∧ ApiToken.TokenHash t = hash
         ∧ unexpired (auth_now env) t = true
         ∧ users acc !! ApiToken.UserID t = Some u
         ∧ GetTokenByHashRow.ID row = ApiToken.ID t
         ∧ GetTokenByHashRow.UserID row = ApiToken.UserID t
         ∧ GetTokenByHashRow.Email row = User.Email u
         ∧ GetTokenByHashRow.Tier row = User.Tier u.
Proof.
  unfold GetTokenByHash. destruct (fail_GetTokenByHash env); [done |].
  destruct (head _) as [row'|] eqn:Hhead; [| done]. intros [= ->].
  apply head_Some_elem_of, list_elem_of_omap in Hhead as (t & Ht & Hsel).
  unfold selected in Hsel.
  destruct (bool_decide (ApiToken.TokenHash t = hash)) eqn:Hhash; [| done].
  apply bool_decide_eq_true in Hhash.
  destruct (unexpired (auth_now env) t) eqn:Hexp; [| done]. simpl in Hsel.
  destruct (users acc !! ApiToken.UserID t) as [u|] eqn:Hu; [| done].
  simpl in Hsel. injection Hsel as <-. by exists t, u.
Qed.

(** With the connection up, a stored token that is the only one of its
    hash is found. *)
Lemma GetTokenByHash_found env acc t u :
  fail_GetTokenByHash env = false →
  t ∈ api_tokens acc →
  unexpired (auth_now env) t = true →
  users acc !! ApiToken.UserID t = Some u →
  (∀ t', t' ∈ api_tokens acc →
         ApiToken.TokenHash t' = ApiToken.TokenHash t → t' = t) →
  ∃ row, GetTokenByHash env acc (ApiToken.TokenHash t) = inr row
         ∧ GetTokenByHashRow.ID row = ApiToken.ID t
         ∧ GetTokenByHashRow.UserID row = ApiToken.UserID t
         ∧ GetTokenByHashRow.Email row = User.Email u
         ∧ GetTokenByHashRow.Tier row = User.Tier u.
Proof.
  intros Hup Hin Hexp Hu Huniq. unfold GetTokenByHash. rewrite Hup.
  assert (∀ t' row, t' ∈ api_tokens acc →
            selected env acc (ApiToken.TokenHash t) t' = Some row →
            t' = t) as Hsel.
  { intros t' row Ht'. unfold selected.
    destruct (bool_decide (ApiToken.TokenHash t' = ApiToken.TokenHash t))
      eqn:Hhash; [| done].
    apply bool_decide_eq_true in Hhash. intros _. by apply Huniq. }
  assert (selected env acc (ApiToken.TokenHash t) t
          = Some (GetTokenByHashRow.mk (ApiToken.ID t) (ApiToken.UserID t)
                    (ApiToken.TokenHash t) (ApiToken.Name t)
                    (ApiToken.LastUsedAt t) (ApiToken.ExpiresAt t)
                    (ApiToken.CreatedAt t) (User.ID u) (User.Email u)
                    (User.Tier u))) as Ht.
  { unfold selected. rewrite bool_decide_eq_true_2 by done.
    rewrite Hexp. simpl. by rewrite Hu. }
  revert Hin Hsel. generalize (api_tokens acc).
  induction l as [|t0 l IH]; intros Hin Hsel.
  { by apply elem_of_nil in Hin. }
  simpl.
  destruct (selected env acc (ApiToken.TokenHash t) t0) as [row0|] eqn:H0.
  - assert (t0 = t) as -> by (apply (Hsel t0 row0); [left | done]).
    rewrite Ht in H0. injection H0 as <-. simpl. by eexists.
  - apply IH.
    + apply elem_of_cons in Hin as [-> | Hin]; [congruence | done].
    + intros t' row Ht'. apply Hsel. by right.
Qed.

Lemma UpdateTokenLastUsed_dropping_error env acc id :
  let acc' := dropping_error acc (UpdateTokenLastUsed env acc id) in
  users acc' = users acc
  ∧ ApiToken.TokenHash <$> api_tokens acc'
    = ApiToken.TokenHash <$> api_tokens acc
  ∧ ApiToken.UserID <$> api_tokens acc' = ApiToken.UserID <$> api_tokens acc
  ∧ ApiToken.ExpiresAt <$> api_tokens acc'
    = ApiToken.ExpiresAt <$> api_tokens acc.
Proof.
  unfold UpdateTokenLastUsed.
  destruct (fail_UpdateTokenLastUsed env); simpl; [done |].
  split_and!; try done; rewrite <- list_fmap_compose; apply list_fmap_ext;
    intros i t _; simpl; by case_bool_decide.
Qed.

(** X22. [RequireAuth] is a gate.  Whatever handler it protects, either it
    answers 401 itself, without calling the handler and without changing
    anything, or the header is [Bearer] followed by a token that is not
    empty and whose SHA-256 digest, in hexadecimal, is the hash of a stored
    token that has not expired and belongs to a stored user; then the
    handler is called, once, with the identity, the address and the tier of
    that user in the context, on a state in which nothing has changed but
    the time the token was last used. *)
Theorem RequireAuth_is_a_gate env r s :
  (∃ msg, ∀ next,
     AuthMiddleware.RequireAuth env next r s
     = (s, http.Error msg http.StatusUnauthorized))
  ∨ (∃ token t u ctx s',
       http.Authorization r = "Bearer " +:+ token ∧ token ≠ ""
       ∧ t ∈ api_tokens (accounts s)
       ∧ ApiToken.TokenHash t = hashToken token
       ∧ unexpired (auth_now env) t = true
       ∧ users (accounts s) !! ApiToken.UserID t = Some u
       ∧ AuthContext.UserID ctx = ApiToken.UserID t
       ∧ AuthContext.UserEmail ctx = User.Email u
       ∧ AuthContext.UserTier ctx = User.Tier u
       ∧ store s' = store s
       ∧ users (accounts s') = users (accounts s)
       ∧ ApiToken.TokenHash <$> api_tokens (accounts s')
         = ApiToken.TokenHash <$> api_tokens (accounts s)
       ∧ ∀ next,
           AuthMiddleware.RequireAuth env next r s
           = next (http.WithAuth r ctx) s').
Proof.
  unfold AuthMiddleware.RequireAuth.
  case_bool_decide as Hempty; [left; by eexists |].
  destruct (HasPrefix (http.Authorization r) "Bearer ") eqn:Hprefix;
    simpl; [| left; by eexists].
  case_bool_decide as Htoken; [left; by eexists |].
  destruct (GetTokenByHash env (accounts s) _) as [|row] eqn:Hrow;
    [left; by eexists |].
  apply GetTokenByHash_inr in Hrow
    as (t & u & Ht & Hhash & Hexp & Hu & Hid & Huser & Hemail & Htier).
  pose proof (UpdateTokenLastUsed_dropping_error env (accounts s)
                (GetTokenByHashRow.ID row)) as (Husers & Hhashes & _).
  right. eexists (TrimPrefix (http.Authorization r) "Bearer "), t, u, _, _.
  split_and!; [by apply Bearer_token | done | done | done | done | done
               | | | | | | | reflexivity]; simpl; done.
Qed.

(** X23. A token stored under its SHA-256 digest opens the gate: with the
    connection up, a request whose header is [Bearer] followed by a token
    that is not empty is handed to the handler, for the user of the token,
    whenever a stored token that has not expired carries the digest of the
    token as its hash, belongs to a stored user, and is the only one with
    that hash. *)
Theorem a_stored_token_authenticates env next r s token t u :
  http.Authorization r = "Bearer " +:+ token →
  token ≠ "" →
  fail_GetTokenByHash env = false →
  t ∈ api_tokens (accounts s) →
  ApiToken.TokenHash t = hashToken token →
  unexpired (auth_now env) t = true →
  users (accounts s) !! ApiToken.UserID t = Some u →
  (∀ t', t' ∈ api_tokens (accounts s) →
         ApiToken.TokenHash t' = ApiToken.TokenHash t → t' = t) →
  ∃ ctx s',
    AuthMiddleware.RequireAuth env next r s = next (http.WithAuth r ctx) s'
    ∧ AuthContext.UserID ctx = ApiToken.UserID t
    ∧ AuthContext.UserEmail ctx = User.Email u
    ∧ AuthContext.UserTier ctx = User.Tier u
    ∧ DomainAPIToken.ID (AuthContext.Token ctx) = ApiToken.ID t
    ∧ store s' = store s.
Proof.
  intros Hheader Htoken Hup Ht Hhash Hexp Hu Huniq.
  destruct (GetTokenByHash_found env (accounts s) t u Hup Ht Hexp Hu Huniq)
    as (row & Hrow & Hid & Huser & Hemail & Htier).
  unfold AuthMiddleware.RequireAuth. rewrite Hheader.
  rewrite bool_decide_eq_false_2 by done.
  unfold HasPrefix at 1. rewrite prefix_app. simpl negb. cbv iota.
  rewrite TrimPrefix_app. rewrite bool_decide_eq_false_2 by done.
  fold (hashToken token). rewrite <- Hhash, Hrow.
  eexists _, _. split; [reflexivity |]. by simpl.
Qed.

(** X24. The tokens the OAuth flow hands out never open the gate.
    [generateAPIToken] stores a token of 64 characters under the
    hexadecimal writing of the token itself, 128 characters, and not under
    its SHA-256 digest, which is what [RequireAuth] looks up.  So as long as
    every stored token comes from this flow (no hash has 64 characters)
    [RequireAuth] answers 401 to every request, the one that carries the
    token just handed out included. *)
Theorem oauth_tokens_never_authenticate env random userID acc acc' token :
  generateAPIToken env (inr random) userID acc = (acc', inr token) →
  length random = 32%nat →
  (∃ row, api_tokens acc' = api_tokens acc ++ [row]
          ∧ ApiToken.UserID row = userID
          ∧ ApiToken.ExpiresAt row = None
          ∧ String.length (ApiToken.TokenHash row) = 128%nat
          ∧ ApiToken.TokenHash row ≠ hashToken token)
  ∧ String.length token = 64%nat
  ∧ (Forall (λ t, String.length (ApiToken.TokenHash t) ≠ 64%nat)
            (api_tokens acc) →
     ∀ aenv r db, ∃ msg, ∀ next,
       AuthMiddleware.RequireAuth aenv next r (mkServer acc' db)
       = (mkServer acc' db, http.Error msg http.StatusUnauthorized)).
Proof.
  intros H Hlen. unfold generateAPIToken in H.
  destruct (CreateAPIToken env acc _) as [|[acc1 row]] eqn:Hcreate; [done |].
  injection H as <- <-.
  unfold CreateAPIToken in Hcreate.
  destruct (fail_CreateAPIToken env); [done |].
  repeat case_bool_decide; try done. simpl in Hcreate.
  injection Hcreate as <- <-. simpl.
  assert (String.length (hex_EncodeToString random) = 64%nat) as Htoken.
  { unfold hex_EncodeToString. rewrite Sprintf_x_length. lia. }
  assert (String.length
            (Sprintf_x (bytes_of (hex_EncodeToString random))) = 128%nat)
    as Hhash.
  { rewrite Sprintf_x_length, bytes_of_length. lia. }
  split_and!.
  - eexists. split_and!; try done.
    intros Heq. simpl in Heq. rewrite Heq in Hhash. unfold hashToken in Hhash.
    rewrite Sprintf_x_length, Sum256_length in Hhash. lia.
  - done.
  - intros Hold aenv r db. unfold AuthMiddleware.RequireAuth. simpl.
    case_bool_decide; [by eexists |].
    destruct (HasPrefix (http.Authorization r) "Bearer "); simpl;
      [| by eexists].
    case_bool_decide; [by eexists |].
    destruct (GetTokenByHash aenv _ _) as [|row] eqn:Hrow; [by eexists |].
    apply GetTokenByHash_inr in Hrow as (t & u & Ht & Hh & _). exfalso.
    assert (String.length (ApiToken.TokenHash t) = 64%nat) as H64.
    { rewrite Hh. by rewrite Sprintf_x_length, Sum256_length. }
    simpl in Ht. apply elem_of_app in Ht as [Ht | Ht%list_elem_of_singleton].
    + by apply (proj1 (Forall_forall _ _) Hold t Ht).
    + subst t. simpl in H64. rewrite Hhash in H64. lia.
Qed.
End AuthFacts.

(** ** The other middlewares *)
Section MiddlewareFacts.
Import GoStringsFacts AuthQueries.

(** X25. [RequireTier] admits by level.  It hands the request on, whatever
    the handler, exactly when the request is authenticated and the level of
    the user's tier is at least the level of the required tier; otherwise
    it answers 401 or 403 itself and changes nothing.  So a requirement that
    a lower tier meets is met by every higher tier; a required tier that is
    none of the three known ones admits everybody who is authenticated; and
    a user whose tier is none of the three is admitted under such a
    requirement only. *)
Theorem RequireTier_admits_by_level tier r s :
  ((∀ next, AuthMiddleware.RequireTier tier next r s = next r s)
   ↔ ∃ a, http.auth r = Some a
          ∧ getTierLevel tier <= getTierLevel (AuthContext.UserTier a))
  ∧ ((∀ next, AuthMiddleware.RequireTier tier next r s = next r s)
     ∨ ∃ msg code,
         (code = http.StatusUnauthorized ∨ code = http.StatusForbidden)
         ∧ ∀ next, AuthMiddleware.RequireTier tier next r s
                   = (s, http.Error msg code))
  ∧ (∀ tier',
       getTierLevel tier' <= getTierLevel tier →
       (∀ next, AuthMiddleware.RequireTier tier next r s = next r s) →
       ∀ next, AuthMiddleware.RequireTier tier' next r s = next r s)
  ∧ (getTierLevel tier = 0 → is_Some (http.auth r) →
     ∀ next, AuthMiddleware.RequireTier tier next r s = next r s)
  ∧ (∀ a, http.auth r = Some a → getTierLevel (AuthContext.UserTier a) = 0 →
          (∀ next, AuthMiddleware.RequireTier tier next r s = next r s) →
          getTierLevel tier = 0).
Proof.
  assert (0 <= getTierLevel tier) as Hpos.
  { unfold getTierLevel. repeat case_bool_decide; lia. }
  assert ((∀ next, AuthMiddleware.RequireTier tier next r s = next r s)
          ↔ ∃ a, http.auth r = Some a
                 ∧ getTierLevel tier <= getTierLevel (AuthContext.UserTier a))
    as Hiff.
  { unfold AuthMiddleware.RequireTier. split.
    - intros H. specialize (H probe). unfold probe in H.
      destruct (http.auth r) as [a|]; [| done].
      case_bool_decide; [done |]. exists a. split; [done | lia].
    - intros (a & -> & Hle) next. rewrite bool_decide_eq_false_2; [done | lia].
  }
  split_and!.
  - exact Hiff.
  - unfold AuthMiddleware.RequireTier. destruct (http.auth r) as [a|].
    + case_bool_decide; [| by left].
      right. eexists _, _. split; [by right | done].
    + right. eexists _, _. split; [by left | done].
  - intros tier' Hle H. apply Hiff in H as (a & Ha & Hlevel).
    unfold AuthMiddleware.RequireTier. rewrite Ha. intros next.
    rewrite bool_decide_eq_false_2; [done | lia].
  - intros Hzero [a Ha]. unfold AuthMiddleware.RequireTier. rewrite Ha.
    intros next. rewrite bool_decide_eq_false_2; [done |].
    assert (0 <= getTierLevel (AuthContext.UserTier a)).
    { unfold getTierLevel. repeat case_bool_decide; lia. }
    lia.
  - intros a Ha Hzero H. apply Hiff in H as (a' & Ha' & Hlevel).
    assert (a' = a) as -> by congruence. lia.
Qed.

(** X26. [OptionalAuth] never rejects, and it agrees with [RequireAuth] on
    who is asking: where [RequireAuth] answers 401, [OptionalAuth] hands
    the request on as it came; where [RequireAuth] admits the request for
    a user, [OptionalAuth] hands it on for the same user, address and tier,
    on the same state. *)
Theorem OptionalAuth_never_rejects env r s :
  (∃ msg,
     (∀ next, AuthMiddleware.RequireAuth env next r s
              = (s, http.Error msg http.StatusUnauthorized))
     ∧ ∀ next, AuthMiddleware.OptionalAuth env next r s = next r s)
  ∨ (∃ ctx ctx' s',
       (∀ next, AuthMiddleware.RequireAuth env next r s
                = next (http.WithAuth r ctx) s')
       ∧ (∀ next, AuthMiddleware.OptionalAuth env next r s
                  = next (http.WithAuth r ctx') s')
       ∧ AuthContext.User ctx' = AuthContext.User ctx
       ∧ AuthContext.UserID ctx' = AuthContext.UserID ctx
       ∧ AuthContext.UserEmail ctx' = AuthContext.UserEmail ctx
       ∧ AuthContext.UserTier ctx' = AuthContext.UserTier ctx
       ∧ store s' = store s).
Proof.
  unfold AuthMiddleware.RequireAuth, AuthMiddleware.OptionalAuth.
  case_bool_decide as Hempty; [left; by eexists |].
  destruct (HasPrefix (http.Authorization r) "Bearer "); simpl;
    [| left; by eexists].
  case_bool_decide as Htoken; [left; by eexists |].
  destruct (GetTokenByHash env (accounts s) _) as [|row];
    [left; by eexists |].
  right. by eexists _, _, _.
Qed.
End MiddlewareFacts.

(** ** The handlers and the routes *)
Section HandlerFacts.
Import GoStringsFacts AuthQueries.

Variable T : Tables.
Variable uuid_Parse : string → option N.
Variable time_Parse_RFC3339 : string → option Z.
Variable env : HandlerEnv.

(** No error of an upload reads as the bare text the handler compares it
    with. *)
Lemma UploadFile_Error fenv req userID st st' e :
  FileService.UploadFile T fenv req userID st = (st', inl e) →
  Error e ≠ "storage limit exceeded".
Proof.
  unfold FileService.UploadFile. intros H.
  repeat (case_match; simplify_eq); simpl; intros Heq; simplify_eq.
Qed.

(** Nor does an error of the workspace service. *)
Lemma WorkspaceService_Error e :
  WorkspaceService.Error e ≠ "workspace limit reached"
  ∧ WorkspaceService.Error e ≠ "workspace not found".
Proof. destruct e; simpl; split; intros Heq; simplify_eq. Qed.

(** A handler that finds the context value does not panic. *)
Lemma handler_Reply route r s a :
  http.auth r = Some a →
  ∃ resp,
    (handler T uuid_Parse time_Parse_RFC3339 env route r s).2
    = http.Reply resp.
Proof.
  intros Ha.
  destruct route; simpl;
    unfold FileHandler_UploadFile, FileHandler_GetFile, FileHandler_ListFiles,
      FileHandler_DeleteFile, WorkspaceHandler_CreateWorkspace,
      WorkspaceHandler_GetWorkspaces, WorkspaceHandler_GetWorkspace,
      WorkspaceHandler_GetWorkspaceStorage, http.Error;
    rewrite Ha; repeat case_match; simpl; by eexists.
Qed.

(** X27. Every route of the API that is served is behind the gate, and no
    served handler panics.  A request to any of the eight routes is either
    answered 401, with the state unchanged and without any service being
    called, or it carries a token whose digest is the hash of a stored
    token that has not expired, and it is answered by the handler of the
    route, run for the user of that token on the same store. *)
Theorem served_routes_are_protected aenv route r s :
  (authMux T uuid_Parse time_Parse_RFC3339 env aenv route r s).2 ≠ http.Panic
  ∧ ((∃ msg, authMux T uuid_Parse time_Parse_RFC3339 env aenv route r s
             = (s, http.Error msg http.StatusUnauthorized))
     ∨ ∃ token t ctx s1,
         http.Authorization r = "Bearer " +:+ token
         ∧ t ∈ api_tokens (accounts s)
         ∧ ApiToken.TokenHash t = hashToken token
         ∧ unexpired (auth_now aenv) t = true
         ∧ AuthContext.UserID ctx = ApiToken.UserID t
         ∧ store s1 = store s
         ∧ authMux T uuid_Parse time_Parse_RFC3339 env aenv route r s
           = handler T uuid_Parse time_Parse_RFC3339 env route
               (http.WithAuth r ctx) s1).
Proof.
  unfold authMux, AuthMiddleware.RequireAuth.
  case_bool_decide as Hempty; [split; [done | left; by eexists] |].
  destruct (HasPrefix (http.Authorization r) "Bearer ") eqn:Hprefix;
    simpl; [| split; [done | left; by eexists]].
  case_bool_decide as Htoken; [split; [done | left; by eexists] |].
  destruct (GetTokenByHash aenv (accounts s) _) as [|row] eqn:Hrow;
    [split; [done | left; by eexists] |].
  apply GetTokenByHash_inr in Hrow
    as (t & u & Ht & Hhash & Hexp & Hu & Hid & Huser & _).
  split.
  - match goal with
    | |- (handler _ _ _ _ _ ?r' ?s').2 ≠ _ =>
        destruct (handler_Reply route r' s' _ eq_refl) as [resp ->]
    end.
    done.
  - right.
    eexists (TrimPrefix (http.Authorization r) "Bearer "), t, _, _.
    split_and!; [by apply Bearer_token | done | done | done | | |
                 reflexivity]; done.
Qed.

(** X28. The upload handler never answers 413.  Its answers are 400, 500
    and 201; 201 comes with the description of the stored file and with
    nothing else; a 400 has changed nothing; and the refusal of the quota,
    whose text is never the bare text the handler compares it with, is
    answered 500 like any other failure of the service. *)
Theorem upload_is_never_answered_413 r s s' resp :
  FileHandler_UploadFile T uuid_Parse time_Parse_RFC3339 env r s
  = (s', http.Reply resp) →
  (http.StatusCode resp = http.StatusBadRequest
   ∨ http.StatusCode resp = http.StatusInternalServerError
   ∨ http.StatusCode resp = http.StatusCreated)
  ∧ (http.StatusCode resp = http.StatusCreated
     ↔ ∃ info, http.ResponseBody resp = http.FileInfoJSON info)
  ∧ (http.StatusCode resp = http.StatusBadRequest → s' = s)
  ∧ (∀ need limit,
       http.ResponseBody resp
       = http.Text (Error (storage_limit_exceeded need limit)) →
       http.StatusCode resp = http.StatusInternalServerError).
Proof.
  unfold FileHandler_UploadFile, http.Error. intros H.
  destruct (http.auth r) as [a|]; [| done].
  assert (∀ msg, resp = http.mkResponse http.StatusBadRequest (http.Text msg)
                 → s' = s →
                 String.get 0 msg ≠ Some "s"%char →
                 (http.StatusCode resp = http.StatusBadRequest
                  ∨ http.StatusCode resp = http.StatusInternalServerError
                  ∨ http.StatusCode resp = http.StatusCreated)
                 ∧ (http.StatusCode resp = http.StatusCreated
                    ↔ ∃ info, http.ResponseBody resp = http.FileInfoJSON info)
                 ∧ (http.StatusCode resp = http.StatusBadRequest → s' = s)
                 ∧ (∀ need limit,
                      http.ResponseBody resp
                      = http.Text (Error (storage_limit_exceeded need limit))
                      → http.StatusCode resp
                        = http.StatusInternalServerError)) as Hbad.
  { intros msg -> -> Hmsg. simpl.
    split_and!;
      [by left | split; [done | by intros [? ?]] | done
      | intros need limit [= ->]; exfalso; apply Hmsg; reflexivity]. }
  destruct (http.FormValue r) as [form|];
    [| injection H as <- <-;
       eapply Hbad; [reflexivity | reflexivity | simpl; discriminate]].
  case_bool_decide;
    [injection H as <- <-;
     eapply Hbad; [reflexivity | reflexivity | simpl; discriminate] |].
  destruct (uuid_Parse _) as [ws|];
    [| injection H as <- <-;
       eapply Hbad; [reflexivity | reflexivity | simpl; discriminate]].
  destruct (if bool_decide (form "last_modified" ≠ "")
            then time_Parse_RFC3339 (form "last_modified")
            else Some (clock env)) as [lastModified|];
    [| injection H as <- <-;
       eapply Hbad; [reflexivity | reflexivity | simpl; discriminate]].
  destruct (http.FormFile r) as [| |content];
    [injection H as <- <-;
     eapply Hbad; [reflexivity | reflexivity | simpl; discriminate]
    | injection H as <- <-;
      eapply Hbad; [reflexivity | reflexivity | simpl; discriminate] |].
  unfold on_store in H.
  destruct (FileService.UploadFile T (file_env env) _ _ (store s))
    as [st' [e | info]] eqn:Hup; simpl in H.
  - apply UploadFile_Error in Hup.
    rewrite bool_decide_eq_false_2 in H by done. injection H as <- <-. simpl.
    split_and!; try done.
    + right. by left.
    + split; [done | by intros [? ?]].
  - injection H as <- <-. simpl. split_and!; try done.
    + right. by right.
    + split; [by eexists | done].
Qed.

(** X29. The handler that creates workspaces never answers 403.  Its
    answers are 400, 500 and 201, and a creation refused because the cap of
    the tier is reached, whose text carries the tier and the numbers and is
    never the bare text the handler compares it with, is answered 500; in
    every case but 201 the store is unchanged. *)
Theorem creation_is_never_answered_403 r s s' resp :
  WorkspaceHandler_CreateWorkspace env r s = (s', http.Reply resp) →
  (http.StatusCode resp = http.StatusBadRequest
   ∨ http.StatusCode resp = http.StatusInternalServerError
   ∨ http.StatusCode resp = http.StatusCreated)
  ∧ (http.StatusCode resp ≠ http.StatusCreated → s' = s)
  ∧ (∀ tier n m,
       http.ResponseBody resp
       = http.Text (WorkspaceService.Error
                      (WorkspaceService.workspace_limit_reached tier n m)) →
       http.StatusCode resp = http.StatusInternalServerError).
Proof.
  unfold WorkspaceHandler_CreateWorkspace, http.Error. intros H.
  destruct (http.auth r) as [a|]; [| done].
  destruct (http.Body r) as [req|].
  2:{ injection H as <- <-. simpl. split_and!; [by left | done |].
      intros tier n m Heq. simpl in Heq. simplify_eq. }
  case_bool_decide.
  { injection H as <- <-. simpl. split_and!; [by left | done |].
    intros tier n m Heq. simpl in Heq. simplify_eq. }
  unfold on_store in H.
  destruct (WorkspaceService.CreateWorkspace _ _ _ _ (store s))
    as [st' [e | w]] eqn:Hcreate; simpl in H.
  - destruct (WorkspaceService_Error e) as [Hne _].
    rewrite bool_decide_eq_false_2 in H by done. injection H as <- <-. simpl.
    assert (st' = store s) as ->.
    { unfold WorkspaceService.CreateWorkspace in Hcreate.
      by repeat (case_match; simplify_eq). }
    split_and!; [right; by left | by destruct s | done].
  - injection H as <- <-. simpl. split_and!; [right; by right | done |].
    intros tier n m. done.
Qed.

(** X30. What the status of [GET /api/workspaces/{id}] tells.  The handler
    answers 404 in one case only: the workspace exists and belongs to
    somebody else (the text then is [Workspace not found]).  A workspace
    that does not exist is answered 500, because the error of the service
    carries its cause and is never the bare text the handler compares it
    with.  The handler of the storage report behaves alike. *)
Theorem not_found_means_not_yours r s a :
  http.auth r = Some a →
  (∀ s' resp,
     WorkspaceHandler_GetWorkspace uuid_Parse env r s = (s', http.Reply resp)
     ∨ WorkspaceHandler_GetWorkspaceStorage uuid_Parse env r s
       = (s', http.Reply resp) →
     http.StatusCode resp = http.StatusNotFound →
     http.ResponseBody resp = http.Text "Workspace not found"
     ∧ ∃ ws row, uuid_Parse (http.PathValue r "id") = Some ws
                 ∧ workspaces (store s) !! ws = Some row
                 ∧ Workspace.UserID row ≠ AuthContext.UserID a)
  ∧ (∀ ws, http.PathValue r "id" ≠ "" →
       uuid_Parse (http.PathValue r "id") = Some ws →
       workspaces (store s) !! ws = None →
       fail_GetWorkspaceByID (statements (workspace_env env)) = false →
       WorkspaceHandler_GetWorkspace uuid_Parse env r s
       = (s, http.Error "workspace not found: no rows in result set"
               http.StatusInternalServerError)
       ∧ WorkspaceHandler_GetWorkspaceStorage uuid_Parse env r s
         = (s, http.Error "workspace not found: no rows in result set"
                 http.StatusInternalServerError)).
Proof.
  intros Ha. split.
  - intros s' resp H Hcode.
    unfold WorkspaceHandler_GetWorkspace, WorkspaceHandler_GetWorkspaceStorage,
      http.Error in H.
    rewrite Ha in H.
    case_bool_decide; [by destruct H as [[= <- <-] | [= <- <-]] |].
    destruct (uuid_Parse _) as [ws|];
      [| by destruct H as [[= <- <-] | [= <- <-]]].
    unfold on_store, WorkspaceService.GetWorkspaceByID,
      WorkspaceService.GetWorkspaceStorageInfo in H.
    destruct (Queries.GetWorkspaceByID _ (store s) ws) as [err|row] eqn:Hrow;
      simpl in H.
    { by destruct H as [[= <- <-] | [= <- <-]]. }
    apply StatementFacts.GetWorkspaceByID_inr in Hrow as [_ Hrow].
    case_bool_decide as Howner; simpl in H.
    { destruct H as [[= <- <-] | [= <- <-]]; (split; [done |]);
        by exists ws, row. }
    destruct (Queries.GetWorkspaceStorageUsage _ (store s) ws) as [err|usage];
      simpl in H.
    + by destruct H as [[= <- <-] | [= <- <-]].
    + by destruct H as [[= <- <-] | [= <- <-]].
  - intros ws Hid Hparse Hnone Hup.
    unfold WorkspaceHandler_GetWorkspace, WorkspaceHandler_GetWorkspaceStorage,
      on_store, WorkspaceService.GetWorkspaceByID,
      WorkspaceService.GetWorkspaceStorageInfo, Queries.GetWorkspaceByID.
    rewrite Ha, Hparse, Hup, Hnone. simpl.
    rewrite bool_decide_eq_false_2 by done. simpl.
    by destruct s.
Qed.
End HandlerFacts.

(** *** Digests, tokens and handlers on the example installation *)

(** X21 at work: the digest of [abc]. *)
Lemma content_hash_fits_its_column_witness :
  String.length (FileInfo.ContentHash abc_info) = 64%nat
  ∧ Forall (λ c, c ∈ String.list_ascii_of_string "0123456789abcdef")
           (String.list_ascii_of_string (FileInfo.ContentHash abc_info))
  ∧ (∃ f, files stored
            !! (FileUploadRequest.WorkspaceID (upload "a.md" (bytes_of "abc")),
                FileUploadRequest.FilePath (upload "a.md" (bytes_of "abc")))
          = Some f
          ∧ File.ContentHash f = FileInfo.ContentHash abc_info)
  ∧ String.length (hashToken "secret") = 64%nat.
Proof.
  exact (content_hash_fits_its_column plain_tables (calm 5 100 101 102)
           (upload "a.md" (bytes_of "abc")) alice (fresh 100) stored abc_info
           "secret" stored_abc).
Defined.

(** The gate on the example accounts: the secret opens it, for [alice];
    another secret, no header and a header of another scheme do not. *)
Lemma test_RequireAuth :
  AuthMiddleware.RequireAuth (peaceful 9 0) ok_handler (bearer "Bearer secret")
    (mkServer office emptyDB)
  = ok_handler (http.WithAuth (bearer "Bearer secret") alice_ctx)
      (mkServer
         (mkAccounts {[ alice := alice_user ]}
            [ApiToken.mk 40 alice (hashToken "secret") "cli" (Some 9) None
               (Some 1)])
         emptyDB)
  ∧ (AuthMiddleware.RequireAuth (peaceful 9 0) ok_handler
       (bearer "Bearer guess") (mkServer office emptyDB)).2
    = http.Error "Invalid token" http.StatusUnauthorized
  ∧ (AuthMiddleware.RequireAuth (peaceful 9 0) ok_handler (bearer "")
       (mkServer office emptyDB)).2
    = http.Error "Missing Authorization header" http.StatusUnauthorized
  ∧ (AuthMiddleware.RequireAuth (peaceful 9 0) ok_handler
       (bearer "Basic c2VjcmV0") (mkServer office emptyDB)).2
    = http.Error "Invalid Authorization header format"
        http.StatusUnauthorized
  ∧ (AuthMiddleware.RequireAuth (peaceful 9 0) ok_handler (bearer "Bearer ")
       (mkServer office emptyDB)).2
    = http.Error "Missing token" http.StatusUnauthorized.
Proof. vm_compute. done. Qed.

(** X23 at work: [secret] opens the gate for [alice]. *)
Lemma a_stored_token_authenticates_witness :
  ∃ ctx s',
    AuthMiddleware.RequireAuth (peaceful 9 0) ok_handler
      (bearer "Bearer secret") (mkServer office emptyDB)
    = ok_handler (http.WithAuth (bearer "Bearer secret") ctx) s'
    ∧ AuthContext.UserID ctx = ApiToken.UserID secret_token
    ∧ AuthContext.UserEmail ctx = User.Email alice_user
    ∧ AuthContext.UserTier ctx = User.Tier alice_user
    ∧ DomainAPIToken.ID (AuthContext.Token ctx) = ApiToken.ID secret_token
    ∧ store s' = store (mkServer office emptyDB).
Proof.
  apply (a_stored_token_authenticates (peaceful 9 0) ok_handler
           (bearer "Bearer secret") (mkServer office emptyDB) "secret"
           secret_token alice_user).
  - reflexivity.
  - discriminate.
  - reflexivity.
  - apply list_elem_of_singleton. reflexivity.
  - reflexivity.
  - reflexivity.
  - reflexivity.
  - intros t' Ht' _. by apply list_elem_of_singleton in Ht'.
Defined.

(** X24 at work: a token of the OAuth flow, made from 32 bytes 01. *)
Lemma oauth_tokens_never_authenticate_witness :
  (∃ row,
     api_tokens
       (generateAPIToken (peaceful 9 41) (inr (replicate 32 Byte.x01)) alice
          (mkAccounts {[ alice := alice_user ]} [])).1
     = api_tokens (mkAccounts {[ alice := alice_user ]} []) ++ [row]
     ∧ ApiToken.UserID row = alice
     ∧ ApiToken.ExpiresAt row = None
     ∧ String.length (ApiToken.TokenHash row) = 128%nat
     ∧ ApiToken.TokenHash row
       ≠ hashToken (hex_EncodeToString (replicate 32 Byte.x01)))
  ∧ String.length (hex_EncodeToString (replicate 32 Byte.x01)) = 64%nat
  ∧ (Forall (λ t, String.length (ApiToken.TokenHash t) ≠ 64%nat)
            (api_tokens (mkAccounts {[ alice := alice_user ]} [])) →
     ∀ aenv r db, ∃ msg, ∀ next,
       AuthMiddleware.RequireAuth aenv next r
         (mkServer
            (generateAPIToken (peaceful 9 41) (inr (replicate 32 Byte.x01))
               alice (mkAccounts {[ alice := alice_user ]} [])).1 db)
       = (mkServer
            (generateAPIToken (peaceful 9 41) (inr (replicate 32 Byte.x01))
               alice (mkAccounts {[ alice := alice_user ]} [])).1 db,
          http.Error msg http.StatusUnauthorized)).
Proof.
  apply (oauth_tokens_never_authenticate (peaceful 9 41)
           (replicate 32 Byte.x01) alice
           (mkAccounts {[ alice := alice_user ]} [])).
  - vm_compute. reflexivity.
  - reflexivity.
Defined.

(** X28 at work: 200 bytes against a quota of 100, through the handler. *)
Lemma upload_is_never_answered_413_witness :
  (http.StatusCode
     (http.mkResponse http.StatusInternalServerError
        (http.Text "storage limit exceeded: need 203 bytes, limit 100 bytes"))
   = http.StatusBadRequest
   ∨ http.StatusCode
       (http.mkResponse http.StatusInternalServerError
          (http.Text
             "storage limit exceeded: need 203 bytes, limit 100 bytes"))
     = http.StatusInternalServerError
   ∨ http.StatusCode
       (http.mkResponse http.StatusInternalServerError
          (http.Text
             "storage limit exceeded: need 203 bytes, limit 100 bytes"))
     = http.StatusCreated)
  ∧ (http.StatusCode
       (http.mkResponse http.StatusInternalServerError
          (http.Text
             "storage limit exceeded: need 203 bytes, limit 100 bytes"))
     = http.StatusCreated
     ↔ ∃ info,
         http.ResponseBody
           (http.mkResponse http.StatusInternalServerError
              (http.Text
                 "storage limit exceeded: need 203 bytes, limit 100 bytes"))
         = http.FileInfoJSON info)
  ∧ (http.StatusCode
       (http.mkResponse http.StatusInternalServerError
          (http.Text
             "storage limit exceeded: need 203 bytes, limit 100 bytes"))
     = http.StatusBadRequest →
     mkServer office stored = mkServer office stored)
  ∧ (∀ need limit,
       http.ResponseBody
         (http.mkResponse http.StatusInternalServerError
            (http.Text
               "storage limit exceeded: need 203 bytes, limit 100 bytes"))
       = http.Text (Error (storage_limit_exceeded need limit)) →
       http.StatusCode
         (http.mkResponse http.StatusInternalServerError
            (http.Text
               "storage limit exceeded: need 203 bytes, limit 100 bytes"))
       = http.StatusInternalServerError).
Proof.
  apply (upload_is_never_answered_413 plain_tables toy_uuid_Parse
           toy_time_Parse henv (upload_form "b.md" (blob 200))
           (mkServer office stored) (mkServer office stored)).
  vm_compute. reflexivity.
Defined.

(** X29 at work: a second workspace on the free tier, through the
    handler. *)
Lemma creation_is_never_answered_403_witness :
  (http.StatusCode
     (http.mkResponse http.StatusInternalServerError
        (http.Text "workspace limit reached for free tier: 1/1"))
   = http.StatusBadRequest
   ∨ http.StatusCode
       (http.mkResponse http.StatusInternalServerError
          (http.Text "workspace limit reached for free tier: 1/1"))
     = http.StatusInternalServerError
   ∨ http.StatusCode
       (http.mkResponse http.StatusInternalServerError
          (http.Text "workspace limit reached for free tier: 1/1"))
     = http.StatusCreated)
  ∧ (http.StatusCode
       (http.mkResponse http.StatusInternalServerError
          (http.Text "workspace limit reached for free tier: 1/1"))
     ≠ http.StatusCreated →
     mkServer office with_journal = mkServer office with_journal)
  ∧ (∀ tier n m,
       http.ResponseBody
         (http.mkResponse http.StatusInternalServerError
            (http.Text "workspace limit reached for free tier: 1/1"))
       = http.Text (WorkspaceService.Error
                      (WorkspaceService.workspace_limit_reached tier n m)) →
       http.StatusCode
         (http.mkResponse http.StatusInternalServerError
            (http.Text "workspace limit reached for free tier: 1/1"))
       = http.StatusInternalServerError).
Proof.
  apply (creation_is_never_answered_403 henv (workspace_request "")
           (mkServer office with_journal) (mkServer office with_journal)).
  vm_compute. reflexivity.
Defined.

(** The answers of [GET /api/workspaces/{id}] to [alice]: her own workspace,
    one that does not exist, and one of [bob]. *)
Lemma test_GetWorkspace_handler :
  (WorkspaceHandler_GetWorkspace toy_uuid_Parse henv
     (workspace_request "journal") (mkServer office with_journal)).2
  = http.Reply (http.mkResponse 200 (http.WorkspaceJSON journal_info))
  ∧ (WorkspaceHandler_GetWorkspace toy_uuid_Parse henv
       (workspace_request "notes") (mkServer office with_journal)).2
    = http.Error "workspace not found: no rows in result set" 500
  ∧ (WorkspaceHandler_GetWorkspace toy_uuid_Parse henv
       (workspace_request "journal")
       (mkServer office
          (mkDB {[ journal := Workspace.mk journal bob "journal" 50 (Some 0)
                                (Some 0) (Some 0) ]} ∅ [] []))).2
    = http.Error "Workspace not found" 404.
Proof. vm_compute. done. Qed.

(** X30 at work: [alice] asks for [notes], which does not exist in the
    store of [with_journal]. *)
Lemma not_found_means_not_yours_witness :
  (∀ s' resp,
     WorkspaceHandler_GetWorkspace toy_uuid_Parse henv
       (workspace_request "notes") (mkServer office with_journal)
     = (s', http.Reply resp)
     ∨ WorkspaceHandler_GetWorkspaceStorage toy_uuid_Parse henv
         (workspace_request "notes") (mkServer office with_journal)
       = (s', http.Reply resp) →
     http.StatusCode resp = http.StatusNotFound →
     http.ResponseBody resp = http.Text "Workspace not found"
     ∧ ∃ ws row,
         toy_uuid_Parse (http.PathValue (workspace_request "notes") "id")
         = Some ws
         ∧ workspaces (store (mkServer office with_journal)) !! ws = Some row
         ∧ Workspace.UserID row ≠ AuthContext.UserID alice_ctx)
  ∧ (∀ ws, http.PathValue (workspace_request "notes") "id" ≠ "" →
       toy_uuid_Parse (http.PathValue (workspace_request "notes") "id")
       = Some ws →
       workspaces (store (mkServer office with_journal)) !! ws = None →
       fail_GetWorkspaceByID (statements (workspace_env henv)) = false →
       WorkspaceHandler_GetWorkspace toy_uuid_Parse henv
         (workspace_request "notes") (mkServer office with_journal)
       = (mkServer office with_journal,
          http.Error "workspace not found: no rows in result set"
            http.StatusInternalServerError)
       ∧ WorkspaceHandler_GetWorkspaceStorage toy_uuid_Parse henv
           (workspace_request "notes") (mkServer office with_journal)
         = (mkServer office with_journal,
            http.Error "workspace not found: no rows in result set"
              http.StatusInternalServerError)).
Proof.
  apply (not_found_means_not_yours toy_uuid_Parse henv
           (workspace_request "notes") (mkServer office with_journal)
           alice_ctx).
  reflexivity.
Defined.
